(** * json_validate: a shallow embedding of [json_validate.py]

    The module validates a decoded JSON value against an example
    structure.  The source is Python 2 ([unicode], the builtin [reduce],
    [print input]); the embedding follows its run-time types: [int] and
    [long] are distinct, [bool] is a subclass of [int], [str] and
    [unicode] are distinct, and a [dict] or a [set] is iterated in an
    order chosen by the interpreter. *)

From Stdlib Require Import List String Ascii ZArith Bool Arith Lia.
From Stdlib Require Import Floats.SpecFloat.
Import ListNotations.
Local Open Scope string_scope.
Local Open Scope list_scope.

Set Warnings "-register-all".

(** ** Client values *)

(** A value handed to the validator, as [json.loads] of Python 2 builds
    it: [None], [True]/[False], a machine-word [int], a [long] (an
    integer literal outside the machine-word range), a [float] (IEEE 754
    double, with its zeros, infinities and NaN), a byte [str], a
    [unicode] string, a [list], or a [dict] with string keys. *)
Inductive json : Type :=
| JNone
| JBool (b : bool)
| JInt (n : Z)
| JLong (n : Z)
| JFloat (f : spec_float)
| JStr (s : string)
| JUnicode (s : string)
| JList (l : list json)
| JDict (d : list (string * json)).

(** The builtin types a structure can name ([type(x) is type]). *)
Inductive pytype : Type :=
| T_int | T_long | T_float | T_str | T_unicode | T_bool | T_list | T_dict.

Definition pytype_eqb (a b : pytype) : bool :=
  match a, b with
  | T_int, T_int | T_long, T_long | T_float, T_float | T_str, T_str
  | T_unicode, T_unicode | T_bool, T_bool | T_list, T_list
  | T_dict, T_dict => true
  | _, _ => false
  end.

(** [isinstance(value, t)] for the builtin types. *)
Definition isinstance (value : json) (t : pytype) : bool :=
  match value, t with
  | JBool _, T_bool | JBool _, T_int => true
  | JInt _, T_int => true
  | JLong _, T_long => true
  | JFloat _, T_float => true
  | JStr _, T_str => true
  | JUnicode _, T_unicode => true
  | JList _, T_list => true
  | JDict _, T_dict => true
  | _, _ => false
  end.

(** ** Paths

    The source carries the path as text, [path + '[%s]' % repr(key)] and
    [path + '[%s]' % i]; the embedding keeps the accessors apart. *)
Inductive path : Type :=
| Root (label : string)
| PKey (p : path) (key : string)
| PIndex (p : path) (i : nat).

(** ** Exceptions *)

(** The messages of [JSONException], by the format string that builds
    them. *)
Inductive json_error : Type :=
| Type_error (p : path) (value : json) (t : pytype)
| Key_error (p : path) (key : string)
| One_of_none (p : path) (one_of_keys : list string)
| One_of_several (p : path) (one_of_keys keys_in_client_json : list string)
| Atleast_one_none (p : path) (atleast_one_keys : list string)
| Format_error (p : path) (value : json) (pattern : string).

(** The exception classes that can leave [do_validate]. *)
Inductive exn : Type :=
| JSONException (msg : json_error)
| TypeError (msg : string)
| AssertionError (msg : string)
| KeyError (key : string)
| ValueError (msg : string)
| OverflowError (msg : string)
| RuntimeError (msg : string).

(** A call either returns (the source returns [None]) or raises. *)
Inductive result : Type :=
| Return
| Raise (e : exn).

Definition seq_result (a b : result) : result :=
  match a with
  | Return => b
  | Raise e => Raise e
  end.

Notation "a ;; b" := (seq_result a b) (at level 61, right associativity).

(** [for x in l: body(x)], left to right, leaving at the first raise. *)
Fixpoint for_each {A : Type} (l : list A) (body : A -> result) : result :=
  match l with
  | [] => Return
  | x :: r => body x ;; for_each r body
  end.

(** [for i, x in enumerate(l): body(i, x)], counting from [i]. *)
Fixpoint for_enumerate {A : Type} (i : nat) (l : list A)
         (body : nat -> A -> result) : result :=
  match l with
  | [] => Return
  | x :: r => body i x ;; for_enumerate (S i) r body
  end.

(** [assert_json(bvalue, msg)] *)
Definition assert_json (bvalue : bool) (msg : json_error) : result :=
  if bvalue then Return else Raise (JSONException msg).

(** ** Floats *)

(** A finite float [S754_finite sg m e] is [(-1)^sg * m * 2^e].
    [int(value)] truncates it towards zero. *)
Definition int_of_float (sg : bool) (m : positive) (e : Z) : Z :=
  let a := if (0 <=? e)%Z then (Z.pos m * 2 ^ e)%Z else (Z.pos m / 2 ^ (- e))%Z in
  if sg then (- a)%Z else a.

(** [n == value] for an integer [n] and a finite float, compared exactly. *)
Definition int_float_eqb (n : Z) (sg : bool) (m : positive) (e : Z) : bool :=
  let sm := if sg then Z.neg m else Z.pos m in
  if (0 <=? e)%Z then (n =? sm * 2 ^ e)%Z else (n * 2 ^ (- e) =? sm)%Z.

(** [int(value) == value] for a float; [int] of an infinity raises
    [OverflowError] and of a NaN [ValueError]. *)
Definition float_int_eq (f : spec_float) : exn + bool :=
  match f with
  | S754_zero _ => inr true
  | S754_finite sg m e => inr (int_float_eqb (int_of_float sg m e) sg m e)
  | S754_infinity _ => inl (OverflowError "cannot convert float infinity to integer")
  | S754_nan => inl (ValueError "cannot convert float NaN to integer")
  end.

(** A finite float has a zero fractional part when its exponent is not
    negative or [2^(-e)] divides its mantissa. *)
Definition float_is_integral (m : positive) (e : Z) : bool :=
  (0 <=? e)%Z || (Z.pos m mod 2 ^ (- e) =? 0)%Z.

(** ** assert_json_type *)

Definition is_text (value : json) : bool :=
  isinstance value T_str || isinstance value T_unicode.

Definition is_none (value : json) : bool :=
  match value with JNone => true | _ => false end.

(** [int(value) == value], evaluated only when [value] is a float. *)
Definition int_eq_value (value : json) : exn + bool :=
  match value with
  | JFloat f => float_int_eq f
  | _ => inr false
  end.

(** The second [if] of [assert_json_type]: [None] is allowed for every
    type but [dict] and [list]; anything else must be an instance. *)
Definition assert_json_type_tail (t : pytype) (value : json) (p : path) : result :=
  if is_none value && negb (pytype_eqb t T_dict || pytype_eqb t T_list) then Return
  else if negb (isinstance value t) then Raise (JSONException (Type_error p value t))
  else Return.

Definition assert_json_type (t : pytype) (value : json) (p : path) : result :=
  match (if pytype_eqb t T_int && isinstance value T_float
         then int_eq_value value else inr false) with
  | inl e => Raise e
  | inr true => Return
  | inr false =>
      if pytype_eqb t T_float && isinstance value T_int then Return
      else if (pytype_eqb t T_str || pytype_eqb t T_unicode) && is_text value then Return
      else assert_json_type_tail t value p
  end.

(** Truth value of a client value ([if client_json:]). *)
Definition truthy (value : json) : bool :=
  match value with
  | JNone => false
  | JBool b => b
  | JInt n | JLong n => negb (n =? 0)%Z
  | JFloat (S754_zero _) => false
  | JFloat _ => true
  | JStr s | JUnicode s => negb (s =? "")
  | JList l => match l with [] => false | _ => true end
  | JDict d => match d with [] => false | _ => true end
  end.

(** [key in client_json] and [client_json[key]]. *)
Fixpoint assoc {V : Type} (d : list (string * V)) (key : string) : option V :=
  match d with
  | [] => None
  | (k, v) :: r => if k =? key then Some v else assoc r key
  end.

Definition py_in (key : string) (value : json) : bool :=
  match value with
  | JDict d => match assoc d key with Some _ => true | None => false end
  | _ => false
  end.

Definition py_subscript (value : json) (key : string) : option json :=
  match value with
  | JDict d => assoc d key
  | _ => None
  end.

(** ** Structures *)

(** The four classes of [json_validator_wrapper]. *)
Inductive wrapper_class : Type :=
| Base | One_of | Atleast_one | Required.

(** A structure: a wrapper instance, a plain [dict], a [list], an
    [optional], the class [anytype], a builtin type, a compiled regular
    expression (its [pattern] and its [match] on text), or any other
    object.  A dict is kept as its items in the order written; its keys
    are distinct, as those of a Python dict are. *)
Inductive schema : Type :=
| SWrapper (w : wrapper)
| SDict (d : list (string * schema))
| SList (l : list schema)
| SOptional (value : schema)
| SAnytype
| SType (t : pytype)
| SRegex (pattern : string) (matches : string -> bool)
| SOther (repr : string)
with wrapper : Type :=
| Wrapper (cls : wrapper_class) (json_structure : list (string * schema))
          (addends : list wrapper).

Definition cls (w : wrapper) : wrapper_class :=
  match w with Wrapper c _ _ => c end.
Definition json_structure (w : wrapper) : list (string * schema) :=
  match w with Wrapper _ d _ => d end.
Definition addends (w : wrapper) : list wrapper :=
  match w with Wrapper _ _ a => a end.

Definition required (d : list (string * schema)) : wrapper := Wrapper Required d [].
Definition one_of (d : list (string * schema)) : wrapper := Wrapper One_of d [].
Definition atleast_one (d : list (string * schema)) : wrapper := Wrapper Atleast_one d [].

Definition is_optional (s : schema) : bool :=
  match s with SOptional _ => true | _ => false end.

(** ** Iteration order

    [d.keys()] and [list(set(...))] list their elements in an order the
    interpreter chooses from the hashes of the keys.  The order is a
    parameter of the embedding: [dict_keys l] is [d.keys()] for a dict
    whose keys were written in the order [l], [set_list l] is
    [list(s)] for the set built from the elements [l]. *)
Class PyOrder : Type := {
  dict_keys : list string -> list string;
  set_list : list string -> list string
}.

(** Whatever the order, [keys()] lists the keys of the dict and nothing
    else, and a set lists each of its elements once. *)
Class PyOrderLaws (O : PyOrder) : Prop := {
  dict_keys_In : forall l k, In k (dict_keys l) <-> In k l;
  set_list_In : forall l k, In k (set_list l) <-> In k l;
  set_list_NoDup : forall l, NoDup (set_list l)
}.

Section Queries.
Context {O : PyOrder}.

Definition keys {V : Type} (d : list (string * V)) : list string :=
  dict_keys (map fst d).

(** [json_validator_wrapper.required_keys] *)
Fixpoint required_keys (w : wrapper) : list string :=
  match w with
  | Wrapper c d a =>
      let my_keys :=
        match c with
        | Atleast_one | One_of => []
        | Required | Base => keys d
        end in
      set_list (my_keys ++ List.concat (map required_keys a))
  end.

(** [json_validator_wrapper.one_of_keys] *)
Fixpoint one_of_keys (w : wrapper) : list (list string) :=
  match w with
  | Wrapper c d a =>
      (match c with One_of => [keys d] | _ => [] end)
        ++ List.concat (map one_of_keys a)
  end.

(** [json_validator_wrapper.atleast_one_keys] *)
Fixpoint atleast_one_keys (w : wrapper) : list (list string) :=
  match w with
  | Wrapper c d a =>
      (match c with Atleast_one => [keys d] | _ => [] end)
        ++ List.concat (map atleast_one_keys a)
  end.
End Queries.

(** [json_validator_wrapper.__getitem__]; [None] stands for [KeyError]. *)
Fixpoint getitem (w : wrapper) (k : string) : option schema :=
  match w with
  | Wrapper _ d a =>
      match assoc d k with
      | Some s => Some s
      | None =>
          (fix first_addend (l : list wrapper) : option schema :=
             match l with
             | [] => None
             | addend :: r =>
                 match getitem addend k with
                 | Some s => Some s
                 | None => first_addend r
                 end
             end) a
      end
  end.

(** [json_validator_wrapper.__add__]: [other] is a wrapper or a plain
    dict, which is wrapped as [required]. *)
Inductive addend_arg : Type :=
| AWrapper (w : wrapper)
| APlain (d : list (string * schema)).

Definition as_wrapper (other : addend_arg) : wrapper :=
  match other with
  | AWrapper w => w
  | APlain d => required d
  end.

Definition add (self : wrapper) (other : addend_arg) : wrapper :=
  Wrapper (cls self) (json_structure self) (addends self ++ [as_wrapper other]).

(** ** do_validate *)

Definition list_len_msg : string :=
  "lists in json_validate structures must have exactly one element".

Definition prohibited_msg (repr : string) : string :=
  ("json_structure argument " ++ repr ++ " is of prohibited type")%string.

(** The elements a [for] loop visits in a client value that passed
    [assert_json_type(list, ...)]. *)
Definition items (value : json) : list json :=
  match value with
  | JList l => l
  | _ => []
  end.

Section Body.
Context {O : PyOrder}.

(** The recursive calls of [do_validate]. *)
Variable rec : schema -> json -> path -> result.

(** [do_validate(next_json_structure, client_json[key],
    path + '[%s]' % repr(key))] *)
Definition validate_at (next_json_structure : schema) (client_json : json)
           (p : path) (key : string) : result :=
  match py_subscript client_json key with
  | Some value => rec next_json_structure value (PKey p key)
  | None => Raise (KeyError key)
  end.

(** Body of the loop over [required_keys()]. *)
Definition required_step (w : wrapper) (client_json : json) (p : path)
           (key : string) : result :=
  match getitem w key with
  | None => Raise (KeyError key)
  | Some next_json_structure =>
      if negb (is_optional next_json_structure) then
        assert_json (py_in key client_json) (Key_error p key) ;;
        validate_at next_json_structure client_json p key
      else if py_in key client_json then
        validate_at next_json_structure client_json p key
      else Return
  end.

(** Body of the loop over [one_of_keys()]. *)
Definition one_of_step (w : wrapper) (client_json : json) (p : path)
           (one_of_keys : list string) : result :=
  let keys_in_client_json :=
    filter (fun key => py_in key client_json) one_of_keys in
  match keys_in_client_json with
  | [] => Raise (JSONException (One_of_none p one_of_keys))
  | _ :: _ :: _ =>
      Raise (JSONException (One_of_several p one_of_keys keys_in_client_json))
  | [key] =>
      match getitem w key with
      | None => Raise (KeyError key)
      | Some next_json_structure =>
          validate_at next_json_structure client_json p key
      end
  end.

(** Body of the loop over [atleast_one_keys()]. *)
Definition atleast_one_step (w : wrapper) (client_json : json) (p : path)
           (atleast_one_keys : list string) : result :=
  let keys_in_client_json :=
    filter (fun key => py_in key client_json) atleast_one_keys in
  match keys_in_client_json with
  | [] => Raise (JSONException (Atleast_one_none p atleast_one_keys))
  | key :: _ =>
      match getitem w key with
      | None => Raise (KeyError key)
      | Some next_json_structure =>
          validate_at next_json_structure client_json p key
      end
  end.

(** The branch for a [json_validator_wrapper] instance. *)
Definition validate_wrapper (w : wrapper) (client_json : json) (p : path) : result :=
  assert_json_type T_dict client_json p ;;
  for_each (required_keys w) (required_step w client_json p) ;;
  for_each (one_of_keys w) (one_of_step w client_json p) ;;
  for_each (atleast_one_keys w) (atleast_one_step w client_json p).

(** The branch for a [list]. *)
Definition validate_list (l : list schema) (client_json : json) (p : path) : result :=
  assert_json_type T_list client_json p ;;
  (if (List.length l =? 1)%nat then Return else Raise (AssertionError list_len_msg)) ;;
  for_enumerate 0 (items client_json)
    (fun i client_value =>
       match l with
       | element :: _ => rec element client_value (PIndex p i)
       | [] => Raise (AssertionError list_len_msg)
       end).

(** One level of [do_validate], the branches in the order of its
    [if]/[elif] chain. *)
Definition do_validate_body (s : schema) (client_json : json) (p : path) : result :=
  match s with
  | SWrapper w => validate_wrapper w client_json p
  | SDict d => rec (SWrapper (required d)) client_json p
  | SList l => validate_list l client_json p
  | SOptional value =>
      if truthy client_json then rec value client_json p else Return
  | SAnytype => Return
  | SType t => assert_json_type t client_json p
  | SRegex pattern matches =>
      match client_json with
      | JStr text | JUnicode text =>
          assert_json (matches text) (Format_error p client_json pattern)
      | _ => Raise (TypeError "expected string or buffer")
      end
  | SOther repr =>
      Raise (TypeError ("json_structure argument " ++ repr ++ " is of prohibited type")%string)
  end.
End Body.

(** The size of a structure bounds the depth of the recursion. *)
Fixpoint size (s : schema) : nat :=
  match s with
  | SWrapper w => S (wsize w)
  | SDict d =>
      S (S (S ((fix fields (d : list (string * schema)) : nat :=
                  match d with
                  | [] => 0
                  | (_, s') :: r => size s' + fields r
                  end) d)))
  | SList l =>
      S ((fix elements (l : list schema) : nat :=
            match l with
            | [] => 0
            | s' :: r => size s' + elements r
            end) l)
  | SOptional value => S (size value)
  | _ => 1
  end
with wsize (w : wrapper) : nat :=
  match w with
  | Wrapper _ d a =>
      S ((fix fields (d : list (string * schema)) : nat :=
            match d with
            | [] => 0
            | (_, s') :: r => size s' + fields r
            end) d
         + (fix all (a : list wrapper) : nat :=
              match a with
              | [] => 0
              | w' :: r => wsize w' + all r
              end) a)
  end.

Definition recursion_msg : string := "maximum recursion depth exceeded".

(** [do_validate] with a bound on the depth of the recursion. *)
Fixpoint do_validate_fuel {O : PyOrder} (fuel : nat) (s : schema)
         (client_json : json) (p : path) : result :=
  match fuel with
  | 0 => Raise (RuntimeError recursion_msg)
  | S fuel' => do_validate_body (do_validate_fuel fuel') s client_json p
  end.

(** [do_validate(json_structure, client_json, path)] *)
Definition do_validate {O : PyOrder} (s : schema) (client_json : json) (p : path) : result :=
  do_validate_fuel (size s) s client_json p.

(** The default path. *)
Definition client_json_path : path := Root "client_json".

(** [json_validate(json_structure)(f)(self, json)]: the wrapped function
    runs when the input validates; a raised exception leaves the
    decorator as it is. *)
Definition json_validate {O : PyOrder} {A : Type} (s : schema) (f : json -> A)
           (input : json) : exn + A :=
  match do_validate s input client_json_path with
  | Return => inr (f input)
  | Raise e => inl e
  end.

(** ** Two interpreters *)

Definition dedup (l : list string) : list string := nodup string_dec l.

Fixpoint insert_sorted (k : string) (l : list string) : list string :=
  match l with
  | [] => [k]
  | x :: r => if String.leb k x then k :: l else x :: insert_sorted k r
  end.

Fixpoint sort_keys (l : list string) : list string :=
  match l with
  | [] => []
  | x :: r => insert_sorted x (sort_keys r)
  end.

(** Keys listed in the order written, a set listed in the order of first
    insertion. *)
Definition declared_order : PyOrder :=
  {| dict_keys := fun l => l;
     set_list := dedup |}.

(** Keys listed in ascending order whatever the order written, as
    CPython 2.7 lists ['a'] before ['b'] (the doctests of the source
    print [['a', 'b']]). *)
Definition sorted_order : PyOrder :=
  {| dict_keys := sort_keys;
     set_list := fun l => sort_keys (dedup l) |}.

(** ** __add__ on the heap

    [__add__] builds [self.__class__(self.json_structure,
    self.addends + [other])].  Lists are mutable objects, and the
    default argument [addends = []] of [__init__] is one list object
    shared by every wrapper built without addends, so the operation is
    also modelled on a heap of objects, where it can be seen to allocate
    and never to write. *)
Module Heap.

Definition ref : Type := nat.

Inductive obj : Type :=
| OList (items : list ref)
| ODict (d : list (string * schema))
| OWrapper (c : wrapper_class) (json_structure : ref) (addends : ref).

Definition heap : Type := list obj.

Definition alloc (h : heap) (o : obj) : heap * ref := (h ++ [o], List.length h).

Definition is_wrapper (o : option obj) : bool :=
  match o with Some (OWrapper _ _ _) => true | _ => false end.

Section WithDefault.
(** The list object of the default argument [addends = []]. *)
Variable default_addends : ref.

(** [json_validator_wrapper.__add__(self, other)]; [None] when [self]
    is not a wrapper with a list of addends. *)
Definition py_add (h : heap) (self other : ref) : option (heap * ref) :=
  match nth_error h self with
  | Some (OWrapper c js ads) =>
      let '(h1, other') :=
        if negb (is_wrapper (nth_error h other))
        then alloc h (OWrapper Required other default_addends)
        else (h, other) in
      match nth_error h1 ads with
      | Some (OList items) =>
          let '(h2, l) := alloc h1 (OList (items ++ [other'])) in
          Some (alloc h2 (OWrapper c js l))
      | _ => None
      end
  | _ => None
  end.
End WithDefault.

Fixpoint all_some {A : Type} (l : list (option A)) : option (list A) :=
  match l with
  | [] => Some []
  | None :: _ => None
  | Some x :: r =>
      match all_some r with
      | Some xs => Some (x :: xs)
      | None => None
      end
  end.

(** The wrapper a reference stands for, read to depth [n]. *)
Fixpoint wrapper_at (n : nat) (h : heap) (r : ref) : option wrapper :=
  match n with
  | 0 => None
  | S n' =>
      match nth_error h r with
      | Some (OWrapper c js ads) =>
          match nth_error h js, nth_error h ads with
          | Some (ODict d), Some (OList items) =>
              match all_some (map (wrapper_at n' h) items) with
              | Some a => Some (Wrapper c d a)
              | None => None
              end
          | _, _ => None
          end
      | _ => None
      end
  end.

(** The right operand of [+]: a wrapper or a plain dict. *)
Definition arg_at (n : nat) (h : heap) (r : ref) : option addend_arg :=
  match nth_error h r with
  | Some (ODict d) => Some (APlain d)
  | Some (OWrapper _ _ _) =>
      match wrapper_at n h r with
      | Some w => Some (AWrapper w)
      | None => None
      end
  | _ => None
  end.

(** [h'] keeps every object of [h] as it is. *)
Definition extends (h h' : heap) : Prop :=
  forall x o, nth_error h x = Some o -> nth_error h' x = Some o.

End Heap.

(** ** Auxiliary definitions *)

Fixpoint wrapper_induction (P : wrapper -> Prop)
         (step : forall c d a, Forall P a -> P (Wrapper c d a))
         (w : wrapper) : P w :=
  match w with
  | Wrapper c d a =>
      step c d a
           ((fix all (l : list wrapper) : Forall P l :=
               match l with
               | [] => @Forall_nil _ P
               | x :: r => @Forall_cons _ P x r (wrapper_induction P step x) (all r)
               end) a)
  end.

Definition fields_size (d : list (string * schema)) : nat :=
  list_sum (map (fun kv => size (snd kv)) d).

Definition addends_size (a : list wrapper) : nat :=
  list_sum (map wsize a).

(** [first_addend] of [getitem], as a function of its own. *)
Fixpoint first_addend (a : list wrapper) (k : string) : option schema :=
  match a with
  | [] => None
  | addend :: r =>
      match getitem addend k with
      | Some s => Some s
      | None => first_addend r k
      end
  end.

(** The keys a wrapper mentions: its own and those of its addends. *)
Fixpoint mentioned_keys (w : wrapper) : list string :=
  match w with
  | Wrapper _ d a => map fst d ++ List.concat (map mentioned_keys a)
  end.

(** The result is not the exception of an exhausted depth. *)
Definition no_runtime_error (r : result) : Prop :=
  forall msg, r <> Raise (RuntimeError msg).

(** 3.0 and 3.5 as doubles. *)
Definition float_3_0 : spec_float := S754_finite false 6755399441055744 (-51).
Definition float_3_5 : spec_float := S754_finite false 7881299347898368 (-51).

(** The pattern [^fo*$] of the doctests: an [f], then [o]s, up to the
    end of the text or to a newline that ends it (['$'] matches there
    too). *)
Definition fo_star (text : string) : bool :=
  match text with
  | String "f"%char r =>
      (fix all_o (r : string) : bool :=
         match r with
         | EmptyString => true
         | String "o"%char r' => all_o r'
         | String "010"%char EmptyString => true
         | String _ _ => false
         end) r
  | _ => false
  end.

(** The structure and the first input of the doctest of
    [json_validate]. *)
Definition doctest_structure : wrapper :=
  add (add (required [("must_be_here", SType T_str)])
           (APlain [("a", SType T_int);
                    ("b", SType T_float);
                    ("c", SType T_str);
                    ("d", SList [SType T_int]);
                    ("e", SAnytype);
                    ("f", SDict [("nested_structure", SType T_float)]);
                    ("g", SRegex "^fo*$" fo_star);
                    ("h", SWrapper (one_of [("a", SType T_int); ("b", SType T_list)]));
                    ("i", SWrapper (atleast_one [("a", SType T_int);
                                                 ("b", SType T_list)]))]))
      (AWrapper (atleast_one [("more_keys", SType T_str)])).

Definition doctest_input (h : json) (more : list (string * json)) : json :=
  JDict ([("must_be_here", JStr "is here");
          ("a", JFloat (S754_finite false 4503599627370496 (-52)));
          ("b", JFloat (S754_finite false 5629499534213120 (-51)));
          ("c", JStr "Hi!");
          ("d", JList [JInt 1; JInt 2; JInt 3]);
          ("e", JList []);
          ("f", JDict [("nested_structure", JInt 5)]);
          ("extra_key", JStr "this is ignored by json_validate");
          ("g", JStr "fooooooooo");
          ("h", h);
          ("i", JDict [("a", JInt 1)])] ++ more).

(** The one-of structure of the doctests,
    [one_of({'a': int, 'b': [str]})]. *)
Definition one_of_a_b : wrapper :=
  one_of [("a", SType T_int); ("b", SList [SType T_str])].

(** An at-least-one structure over two integer keys, written with [a]
    first and with [b] first. *)
Definition atleast_one_a_b : wrapper :=
  atleast_one [("a", SType T_int); ("b", SType T_int)].
Definition atleast_one_b_a : wrapper :=
  atleast_one [("b", SType T_int); ("a", SType T_int)].

(** The doctest of [__add__]: [json_validator_wrapper({'a': int}) +
    {'b': str}], with the default list at address 0. *)
Definition doctest_heap : Heap.heap :=
  [Heap.OList [];
   Heap.ODict [("a", SType T_int)];
   Heap.OWrapper Base 1 0;
   Heap.ODict [("b", SType T_str)]].

(** ** Further definitions *)

(** The path a [JSONException] names. *)
Definition error_path (e : json_error) : path :=
  match e with
  | Type_error p _ _ | Key_error p _ | One_of_none p _
  | One_of_several p _ _ | Atleast_one_none p _ | Format_error p _ _ => p
  end.

(** [q] is [p] followed by keys and indexes. *)
Inductive path_extends (p : path) : path -> Prop :=
| path_extends_refl : path_extends p p
| path_extends_key (q : path) (k : string) :
    path_extends p q -> path_extends p (PKey q k)
| path_extends_index (q : path) (i : nat) :
    path_extends p q -> path_extends p (PIndex q i).

(** The exception, if any, is a [JSONException] that names a path under
    [p]. *)
Definition raises_under (p : path) (r : result) : Prop :=
  forall e, r = Raise (JSONException e) -> path_extends p (error_path e).

(** The call returned or raised [JSONException], the one exception the
    decorators catch. *)
Definition client_fault_only (r : result) : Prop :=
  match r with
  | Return | Raise (JSONException _) => True
  | Raise _ => False
  end.

(** A structure made of wrappers, dicts, one-element lists, [optional],
    [anytype] and builtin types. *)
Fixpoint plain_schema (s : schema) : bool :=
  match s with
  | SWrapper w => plain_wrapper w
  | SDict d =>
      (fix fields (d : list (string * schema)) : bool :=
         match d with
         | [] => true
         | (_, s') :: r => plain_schema s' && fields r
         end) d
  | SList [element] => plain_schema element
  | SList _ => false
  | SOptional value => plain_schema value
  | SAnytype | SType _ => true
  | SRegex _ _ | SOther _ => false
  end
with plain_wrapper (w : wrapper) : bool :=
  match w with
  | Wrapper _ d a =>
      (fix fields (d : list (string * schema)) : bool :=
         match d with
         | [] => true
         | (_, s') :: r => plain_schema s' && fields r
         end) d
      && (fix all (a : list wrapper) : bool :=
            match a with
            | [] => true
            | w' :: r => plain_wrapper w' && all r
            end) a
  end.

(** A client value with no infinity and no NaN in it. *)
Fixpoint finite_json (v : json) : bool :=
  match v with
  | JFloat (S754_infinity _) | JFloat S754_nan => false
  | JList l =>
      (fix all (l : list json) : bool :=
         match l with
         | [] => true
         | x :: r => finite_json x && all r
         end) l
  | JDict d =>
      (fix fields (d : list (string * json)) : bool :=
         match d with
         | [] => true
         | (_, x) :: r => finite_json x && fields r
         end) d
  | _ => true
  end.

(** The recursive calls of [do_validate]: on the wrapper of a plain
    dict, on the structure under an [optional] when the value is
    truthy, on the element structure for an element of a client list,
    and on the structure [getitem] finds for a key of the client dict. *)
Inductive sub_call : schema -> json -> path -> schema -> json -> path -> Prop :=
| sub_call_dict (d : list (string * schema)) (v : json) (p : path) :
    sub_call (SDict d) v p (SWrapper (required d)) v p
| sub_call_optional (s : schema) (v : json) (p : path) :
    truthy v = true -> sub_call (SOptional s) v p s v p
| sub_call_list (element : schema) (xs : list json) (i : nat) (x : json)
                (p : path) :
    nth_error xs i = Some x ->
    sub_call (SList [element]) (JList xs) p element x (PIndex p i)
| sub_call_key (w : wrapper) (d : list (string * json)) (k : string)
               (s : schema) (x : json) (p : path) :
    getitem w k = Some s -> assoc d k = Some x ->
    sub_call (SWrapper w) (JDict d) p s x (PKey p k).

(** The checks [do_validate] makes at one level, the recursive calls
    taken as returning. *)
Definition local_checks {O : PyOrder} (s : schema) (v : json) (p : path) : result :=
  do_validate_body (fun _ _ _ => Return) s v p.

(** ** json_validate_warn *)

(** What the decorator reads of [context['rq']]. *)
Record request : Type := {
  method : string;
  get_full_path : string
}.

(** A record written by [logging.warn] or [logging.error]. *)
Inductive log_record : Type :=
| Log_warn (message : string)
| Log_error (e : exn).

(** [d[key] = value] on a dict. *)
Fixpoint dict_set (d : list (string * json)) (key : string) (value : json)
  : list (string * json) :=
  match d with
  | [] => [(key, value)]
  | (k, x) :: r =>
      if k =? key then (key, value) :: r else (k, x) :: dict_set r key value
  end.

(** [rv[key] = value] for a string key: only a dict takes it. *)
Definition setitem (rv : json) (key : string) (value : json) : exn + json :=
  let no_assignment (type_name : string) :=
    inl (TypeError ("'" ++ type_name
                        ++ "' object does not support item assignment")%string) in
  match rv with
  | JDict d => inr (JDict (dict_set d key value))
  | JList _ => inl (TypeError "list indices must be integers, not str")
  | JNone => no_assignment "NoneType"
  | JBool _ => no_assignment "bool"
  | JInt _ => no_assignment "int"
  | JLong _ => no_assignment "long"
  | JFloat _ => no_assignment "float"
  | JStr _ => no_assignment "str"
  | JUnicode _ => no_assignment "unicode"
  end.

Section Warn.
Context {O : PyOrder}.

(** [str(e)] for a [JSONException]: the text of its message. *)
Variable str_of : json_error -> string.

(** [json_validate_warn(json_structure)(f)(json, context)]: the records
    logged and the outcome of the call. *)
Definition json_validate_warn (s : schema)
           (f : json -> option request -> exn + json)
           (input : json) (context : option request)
  : list log_record * (exn + json) :=
  match do_validate s input client_json_path with
  | Raise (JSONException e) =>
      let warning := str_of e in
      let '(method, url) :=
        match context with
        | Some rq => (method rq, get_full_path rq)
        | None => ("?", "?")
        end in
      let log := [Log_warn (method ++ " " ++ url ++ ": " ++ warning)%string] in
      match f input context with
      | inl raised => (log, inl raised)
      | inr rv =>
          if negb (warning =? "") then
            match setitem rv "warning" (JStr warning) with
            | inr rv' => (log, inr rv')
            | inl e' => (log ++ [Log_error e'], inr rv)
            end
          else (log, inr rv)
      end
  | Raise other => ([], inl other)
  | Return => ([], f input context)
  end.
End Warn.

(** ** json_timestamp

    A compiled pattern is read as the set of texts it describes;
    [pattern.match(text)] gives a match object when some prefix of the
    text is in that set. *)
Inductive atom : Type :=
| Lit (c : ascii)
| Digit
| Space.

Inductive regex : Type :=
| Atom (a : atom)
| Seq (r1 r2 : regex)
| Opt (r : regex)
| Star (a : atom)
| Rep (n : nat) (a : atom).

Definition is_digit (c : ascii) : bool :=
  ((48 <=? nat_of_ascii c) && (nat_of_ascii c <=? 57))%nat.

Definition is_space (c : ascii) : bool :=
  ((nat_of_ascii c =? 32) || ((9 <=? nat_of_ascii c) && (nat_of_ascii c <=? 13)))%nat.

Definition atom_match (a : atom) (c : ascii) : bool :=
  match a with
  | Lit c' => Ascii.eqb c' c
  | Digit => is_digit c
  | Space => is_space c
  end.

(** [matches_then r k text]: some prefix of [text] is described by [r]
    and [k] holds of what follows it. *)
Fixpoint matches_then (r : regex) (k : string -> bool) (text : string) : bool :=
  match r with
  | Atom a =>
      match text with
      | String c rest => atom_match a c && k rest
      | EmptyString => false
      end
  | Seq r1 r2 => matches_then r1 (matches_then r2 k) text
  | Opt r' => matches_then r' k text || k text
  | Star a =>
      (fix star (text : string) : bool :=
         k text ||
         match text with
         | String c rest => atom_match a c && star rest
         | EmptyString => false
         end) text
  | Rep n a =>
      (fix rep (n : nat) (text : string) : bool :=
         match n with
         | 0 => k text
         | S n' =>
             match text with
             | String c rest => atom_match a c && rep n' rest
             | EmptyString => false
             end
         end) n text
  end.

(** The truth value of [pattern.match(text)]. *)
Definition re_match (r : regex) (text : string) : bool :=
  matches_then r (fun _ => true) text.

Definition seq_all_of (rs : list regex) (last : regex) : regex :=
  fold_right Seq last rs.

(** The source text of [json_timestamp]: a date, ['T'], a time, then
    the optional groups [ms] and [tz]. *)
Definition json_timestamp_pattern : string :=
  ("\d{4}-\d{2}-\d{2}T\d{2}:\d{2}:\d{2}"
     ++ "(?P<ms>\.\d*" ++ ")?"
     ++ "(?P<tz>\s?\+\d{2}:\d{2})?")%string.

Definition json_timestamp_ms : regex :=
  Opt (Seq (Atom (Lit ".")) (Star Digit)).

Definition json_timestamp_tz : regex :=
  Opt (seq_all_of [Opt (Atom Space); Atom (Lit "+"); Rep 2 Digit; Atom (Lit ":")]
                  (Rep 2 Digit)).

Definition json_timestamp_regex : regex :=
  seq_all_of [Rep 4 Digit; Atom (Lit "-"); Rep 2 Digit; Atom (Lit "-");
              Rep 2 Digit; Atom (Lit "T"); Rep 2 Digit; Atom (Lit ":");
              Rep 2 Digit; Atom (Lit ":"); Rep 2 Digit; json_timestamp_ms]
             json_timestamp_tz.

Definition json_timestamp : schema :=
  SRegex json_timestamp_pattern (re_match json_timestamp_regex).

(** The nineteen characters [dddd-dd-ddTdd:dd:dd]. *)
Definition timestamp_shape : list atom :=
  [Digit; Digit; Digit; Digit; Lit "-"; Digit; Digit; Lit "-"; Digit; Digit;
   Lit "T"; Digit; Digit; Lit ":"; Digit; Digit; Lit ":"; Digit; Digit].

(** [text] begins with characters that match [shape] one by one. *)
Fixpoint has_shape (shape : list atom) (text : string) : bool :=
  match shape with
  | [] => true
  | a :: shape' =>
      match text with
      | String c rest => atom_match a c && has_shape shape' rest
      | EmptyString => false
      end
  end.

(** [r] is an exception raised by a recursive call that [do_validate],
    with [rec] for its recursive calls, makes from [(s, v, p)]. *)
Definition from_call (rec : schema -> json -> path -> result)
           (s : schema) (v : json) (p : path) (r : result) : Prop :=
  r <> Return /\
  exists s' v' p', sub_call s v p s' v' p' /\ r = rec s' v' p'.

(** ** The order of the checks *)

(** The checks of the wrapper branch of [do_validate] in the order the
    three loops make them: the required keys as [required_keys()] lists
    them, then the one-of groups, then the at-least-one groups. *)
Definition wrapper_checks {O : PyOrder} (rec : schema -> json -> path -> result)
           (w : wrapper) (client_json : json) (p : path) : list result :=
  map (required_step rec w client_json p) (required_keys w)
      ++ map (one_of_step rec w client_json p) (one_of_keys w)
      ++ map (atleast_one_step rec w client_json p) (atleast_one_keys w).

(** The first exception of a list of outcomes, if there is one. *)
Fixpoint first_failure (l : list result) : result :=
  match l with
  | [] => Return
  | Return :: r => first_failure r
  | Raise e :: _ => Raise e
  end.

(** ** Lookup as the specification words it

    "Field lookup searches the node's own fields first, then addends in
    addend order, and the first match wins": the fields of a wrapper in
    the order of that search, and the first of them with the key. *)
Fixpoint spec_search_order (w : wrapper) : list (string * schema) :=
  match w with
  | Wrapper _ d a => d ++ List.concat (map spec_search_order a)
  end.

Definition spec_field_lookup (w : wrapper) (k : string) : option schema :=
  assoc (spec_search_order w) k.

(** ** The value an error is about *)

(** [reaches p v q x]: the path [q] is [p] followed by keys and indexes
    that lead, inside the client value [v], to the value [x]. *)
Inductive reaches (p : path) (v : json) : path -> json -> Prop :=
| reaches_here : reaches p v p v
| reaches_key (q : path) (d : list (string * json)) (k : string) (x : json) :
    reaches p v q (JDict d) -> assoc d k = Some x ->
    reaches p v (PKey q k) x
| reaches_index (q : path) (xs : list json) (i : nat) (x : json) :
    reaches p v q (JList xs) -> nth_error xs i = Some x ->
    reaches p v (PIndex q i) x.

(** What a [JSONException] says about the value [x] at its path. *)
Definition fault_at (e : json_error) (x : json) : Prop :=
  match e with
  | Type_error _ value t =>
      value = x /\ isinstance x t = false
  | Key_error _ key => isinstance x T_dict = true /\ py_in key x = false
  | One_of_none _ keys =>
      isinstance x T_dict = true /\ filter (fun key => py_in key x) keys = []
  | One_of_several _ keys present =>
      isinstance x T_dict = true /\
      filter (fun key => py_in key x) keys = present /\ 1 < List.length present
  | Atleast_one_none _ keys =>
      isinstance x T_dict = true /\ filter (fun key => py_in key x) keys = []
  | Format_error _ value _ => value = x /\ is_text x = true
  end.

(** ** The calls that lead to a node *)

(** [visits s v p s' v' p']: a chain of recursive calls leads from the
    call on [s], [v], [p] to a call on [s'], [v'], [p']. *)
Inductive visits : schema -> json -> path -> schema -> json -> path -> Prop :=
| visits_here (s : schema) (v : json) (p : path) : visits s v p s v p
| visits_call (s : schema) (v : json) (p : path)
              (s1 : schema) (v1 : json) (p1 : path)
              (s2 : schema) (v2 : json) (p2 : path) :
    sub_call s v p s1 v1 p1 -> visits s1 v1 p1 s2 v2 p2 ->
    visits s v p s2 v2 p2.

(** What an exception that is not the client's says of the structure
    and of the value: it was raised at a node that a chain of recursive
    calls leads to. *)
Definition exception_origin (s : schema) (v : json) (p : path) (e : exn) : Prop :=
  match e with
  | AssertionError m =>
      exists l xs q,
        visits s v p (SList l) (JList xs) q /\ List.length l <> 1 /\
        m = list_len_msg
  | TypeError m =>
      (exists repr v' q,
          visits s v p (SOther repr) v' q /\ m = prohibited_msg repr) \/
      (exists pattern matches v' q,
          visits s v p (SRegex pattern matches) v' q /\ is_text v' = false /\
          m = "expected string or buffer")
  | OverflowError m =>
      exists sg q,
        visits s v p (SType T_int) (JFloat (S754_infinity sg)) q /\
        m = "cannot convert float infinity to integer"
  | ValueError m =>
      exists q,
        visits s v p (SType T_int) (JFloat S754_nan) q /\
        m = "cannot convert float NaN to integer"
  | _ => True
  end.

(** * Properties *)

(** ** The two interpreters keep the keys *)

Lemma insert_sorted_In (k x : string) (l : list string) :
  In x (insert_sorted k l) <-> x = k \/ In x l.
Proof.
  induction l as [|y l IH]; simpl.
  - intuition.
  - destruct (String.leb k y); simpl; [intuition|].
    rewrite IH. intuition.
Qed.

Lemma sort_keys_In (l : list string) (x : string) :
  In x (sort_keys l) <-> In x l.
Proof.
  induction l as [|y l IH]; simpl; [tauto|].
  rewrite insert_sorted_In, IH. intuition.
Qed.

Lemma insert_sorted_NoDup (k : string) (l : list string) :
  ~ In k l -> NoDup l -> NoDup (insert_sorted k l).
Proof.
  induction l as [|y l IH]; simpl; intros Hk Hl.
  - constructor; [tauto|constructor].
  - destruct (String.leb k y).
    + constructor; simpl; tauto.
    + inversion Hl; subst. constructor.
      * rewrite insert_sorted_In. intros [->|H]; tauto.
      * apply IH; tauto.
Qed.

Lemma sort_keys_NoDup (l : list string) : NoDup l -> NoDup (sort_keys l).
Proof.
  induction 1 as [|x l Hx Hl IH]; simpl; [constructor|].
  apply insert_sorted_NoDup; [rewrite sort_keys_In|]; assumption.
Qed.

Lemma dedup_In (l : list string) (k : string) : In k (dedup l) <-> In k l.
Proof. apply nodup_In. Qed.

Lemma sorted_set_In (l : list string) (k : string) :
  In k (sort_keys (dedup l)) <-> In k l.
Proof. rewrite sort_keys_In. apply dedup_In. Qed.

Lemma sorted_set_NoDup (l : list string) : NoDup (sort_keys (dedup l)).
Proof. apply sort_keys_NoDup, NoDup_nodup. Qed.

#[export] Instance declared_order_laws : PyOrderLaws declared_order.
Proof.
  split; simpl.
  - tauto.
  - apply dedup_In.
  - intros l. apply NoDup_nodup.
Qed.

#[export] Instance sorted_order_laws : PyOrderLaws sorted_order.
Proof.
  split; simpl.
  - apply sort_keys_In.
  - apply sorted_set_In.
  - apply sorted_set_NoDup.
Qed.

(** ** Facts on the heap *)

Lemma extends_refl (h : Heap.heap) : Heap.extends h h.
Proof. intros x o H. exact H. Qed.

Lemma all_some_map_mono {A B : Type} (f g : A -> option B) (l : list A)
      (ys : list B) :
  (forall x y, In x l -> f x = Some y -> g x = Some y) ->
  Heap.all_some (map f l) = Some ys -> Heap.all_some (map g l) = Some ys.
Proof.
  revert ys. induction l as [|x l IH]; intros ys Hfg; simpl; [tauto|].
  destruct (f x) as [y|] eqn:Hf; [|discriminate].
  rewrite (Hfg x y (or_introl eq_refl) Hf).
  destruct (Heap.all_some (map f l)) as [xs|]; [|discriminate].
  intros [= <-].
  now rewrite (IH xs (fun x' y' Hin => Hfg x' y' (or_intror Hin)) eq_refl).
Qed.

Lemma all_some_app {A : Type} (l1 l2 : list (option A)) (xs ys : list A) :
  Heap.all_some l1 = Some xs -> Heap.all_some l2 = Some ys ->
  Heap.all_some (l1 ++ l2) = Some (xs ++ ys).
Proof.
  revert xs. induction l1 as [|[x|] l1 IH]; intros xs; simpl.
  - intros [= <-] H. exact H.
  - destruct (Heap.all_some l1) as [xs'|]; [|discriminate].
    intros [= <-] H. now rewrite (IH xs' eq_refl H).
  - discriminate.
Qed.

Lemma wrapper_at_mono (n : nat) (h h' : Heap.heap) (r : Heap.ref) (w : wrapper) :
  Heap.extends h h' ->
  Heap.wrapper_at n h r = Some w -> Heap.wrapper_at (S n) h' r = Some w.
Proof.
  intros Hext. revert r w. induction n as [|n IH]; intros r w; [discriminate|].
  intros H. cbn [Heap.wrapper_at] in H.
  destruct (nth_error h r) as [[| |c js ads]|] eqn:Hr; try discriminate.
  destruct (nth_error h js) as [[|d|]|] eqn:Hjs; try discriminate.
  destruct (nth_error h ads) as [[items| |]|] eqn:Hads; try discriminate.
  destruct (Heap.all_some (map (Heap.wrapper_at n h) items)) as [a|] eqn:Ha; [|discriminate].
  injection H as <-.
  change (Heap.wrapper_at (S (S n)) h' r) with
    (match nth_error h' r with
     | Some (Heap.OWrapper c js ads) =>
         match nth_error h' js, nth_error h' ads with
         | Some (Heap.ODict d), Some (Heap.OList items) =>
             match Heap.all_some (map (Heap.wrapper_at (S n) h') items) with
             | Some a => Some (Wrapper c d a)
             | None => None
             end
         | _, _ => None
         end
     | _ => None
     end).
  rewrite (Hext _ _ Hr), (Hext _ _ Hjs), (Hext _ _ Hads).
  rewrite (all_some_map_mono (Heap.wrapper_at n h) (Heap.wrapper_at (S n) h') items a);
    [reflexivity| |exact Ha].
  intros x y _. apply IH.
Qed.

Lemma wrapper_at_extends (n : nat) (h h' : Heap.heap) (r : Heap.ref) (w : wrapper) :
  Heap.extends h h' ->
  Heap.wrapper_at n h r = Some w -> Heap.wrapper_at n h' r = Some w.
Proof.
  intros Hext. revert r w. induction n as [|n IH]; intros r w; [discriminate|].
  intros H. cbn [Heap.wrapper_at] in *.
  destruct (nth_error h r) as [[| |c js ads]|] eqn:Hr; try discriminate.
  destruct (nth_error h js) as [[|d|]|] eqn:Hjs; try discriminate.
  destruct (nth_error h ads) as [[items| |]|] eqn:Hads; try discriminate.
  destruct (Heap.all_some (map (Heap.wrapper_at n h) items)) as [a|] eqn:Ha; [|discriminate].
  injection H as <-.
  rewrite (Hext _ _ Hr), (Hext _ _ Hjs), (Hext _ _ Hads).
  rewrite (all_some_map_mono (Heap.wrapper_at n h) (Heap.wrapper_at n h') items a);
    [reflexivity| |exact Ha].
  intros x y _. apply IH.
Qed.

(** ** Induction on wrappers and the size of what [getitem] returns *)

Lemma wsize_eq (c : wrapper_class) (d : list (string * schema)) (a : list wrapper) :
  wsize (Wrapper c d a) = S (fields_size d + addends_size a).
Proof.
  simpl. f_equal. f_equal.
  - induction d as [|[k s] d IH]; simpl; [reflexivity|]. now rewrite IH.
  - induction a as [|w a IH]; simpl; [reflexivity|]. now rewrite IH.
Qed.

Lemma size_SDict (d : list (string * schema)) :
  size (SDict d) = S (size (SWrapper (required d))).
Proof.
  unfold required. change (size (SWrapper (Wrapper Required d [])))
    with (S (wsize (Wrapper Required d []))).
  rewrite wsize_eq. unfold addends_size. simpl. rewrite Nat.add_0_r.
  do 3 f_equal.
  induction d as [|[k s] d IH]; simpl; [reflexivity|]. now rewrite IH.
Qed.

Lemma size_SList (l : list schema) :
  size (SList l) = S (list_sum (map size l)).
Proof.
  simpl. f_equal. induction l as [|s l IH]; simpl; [reflexivity|]. now rewrite IH.
Qed.

Lemma assoc_size (d : list (string * schema)) (k : string) (s : schema) :
  assoc d k = Some s -> size s <= fields_size d.
Proof.
  unfold fields_size.
  induction d as [|[k' s'] d IH]; simpl; [discriminate|].
  destruct (k' =? k).
  - intros [= ->]. lia.
  - intros H. apply IH in H. lia.
Qed.

Lemma getitem_eq (c : wrapper_class) (d : list (string * schema))
      (a : list wrapper) (k : string) :
  getitem (Wrapper c d a) k =
  match assoc d k with
  | Some s => Some s
  | None => first_addend a k
  end.
Proof.
  simpl. destruct (assoc d k); [reflexivity|].
  induction a as [|w a IH]; simpl; [reflexivity|].
  destruct (getitem w k); [reflexivity|apply IH].
Qed.

Lemma getitem_size (w : wrapper) (k : string) (s : schema) :
  getitem w k = Some s -> size s < wsize w.
Proof.
  revert s. induction w as [c d a IH] using wrapper_induction. intros s.
  rewrite getitem_eq, wsize_eq.
  destruct (assoc d k) as [s0|] eqn:Hd.
  - intros [= <-]. apply assoc_size in Hd. lia.
  - clear Hd. unfold addends_size.
    induction IH as [|w a Hw _ IHa]; simpl; [discriminate|].
    destruct (getitem w k) as [s0|] eqn:Hg.
    + intros [= <-]. specialize (Hw _ eq_refl). lia.
    + intros H. apply IHa in H. lia.
Qed.

(** ** The recursion is well founded: enough fuel gives the result *)

Lemma for_each_ext {A : Type} (l : list A) (f g : A -> result) :
  (forall x, In x l -> f x = g x) -> for_each l f = for_each l g.
Proof.
  induction l as [|x l IH]; simpl; intros H; [reflexivity|].
  rewrite (H x) by now left. rewrite IH; [reflexivity|].
  intros y Hy. apply H. now right.
Qed.

Lemma for_enumerate_ext {A : Type} (l : list A) (i : nat)
      (f g : nat -> A -> result) :
  (forall j x, In x l -> f j x = g j x) ->
  for_enumerate i l f = for_enumerate i l g.
Proof.
  revert i. induction l as [|x l IH]; simpl; intros i H; [reflexivity|].
  rewrite (H i x) by now left. rewrite IH; [reflexivity|].
  intros j y Hy. apply H. now right.
Qed.

Section BodyExt.
Context {O : PyOrder}.
Variables rec1 rec2 : schema -> json -> path -> result.

Lemma validate_at_ext (s : schema) (v : json) (p : path) (k : string) :
  (forall v' p', rec1 s v' p' = rec2 s v' p') ->
  validate_at rec1 s v p k = validate_at rec2 s v p k.
Proof.
  intros H. unfold validate_at. destruct (py_subscript v k); [apply H|reflexivity].
Qed.

Lemma do_validate_body_ext (s : schema) (v : json) (p : path) :
  (forall s' v' p', size s' < size s -> rec1 s' v' p' = rec2 s' v' p') ->
  do_validate_body rec1 s v p = do_validate_body rec2 s v p.
Proof.
  intros H. destruct s as [w|d|l|s0| |t|pat m|r]; simpl do_validate_body;
    try reflexivity.
  - assert (Hk : forall k s', getitem w k = Some s' ->
              forall v' p', rec1 s' v' p' = rec2 s' v' p').
    { intros k s' Hg v' p'. apply H. apply getitem_size in Hg. simpl. lia. }
    unfold validate_wrapper. f_equal.
    rewrite (for_each_ext _ (required_step rec1 w v p) (required_step rec2 w v p)).
    2:{ intros k _. unfold required_step.
        destruct (getitem w k) as [s'|] eqn:Hg; [|reflexivity].
        rewrite (validate_at_ext s' v p k (Hk _ _ Hg)). reflexivity. }
    f_equal.
    rewrite (for_each_ext _ (one_of_step rec1 w v p) (one_of_step rec2 w v p)).
    2:{ intros ks _. unfold one_of_step.
        destruct (filter _ ks) as [|k [|k' r]]; try reflexivity.
        destruct (getitem w k) as [s'|] eqn:Hg; [|reflexivity].
        apply validate_at_ext, (Hk _ _ Hg). }
    f_equal.
    apply for_each_ext. intros ks _. unfold atleast_one_step.
    destruct (filter _ ks) as [|k r]; try reflexivity.
    destruct (getitem w k) as [s'|] eqn:Hg; [|reflexivity].
    apply validate_at_ext, (Hk _ _ Hg).
  - apply H. rewrite size_SDict. lia.
  - unfold validate_list. do 2 f_equal.
    apply for_enumerate_ext. intros j x _.
    destruct l as [|e l]; [reflexivity|].
    apply H. rewrite size_SList. simpl. lia.
  - destruct (truthy v); [|reflexivity]. apply H. simpl. lia.
Qed.
End BodyExt.

Lemma do_validate_fuel_stable {O : PyOrder} (n m : nat) (s : schema)
      (v : json) (p : path) :
  size s <= n -> size s <= m ->
  do_validate_fuel n s v p = do_validate_fuel m s v p.
Proof.
  revert m s v p. induction n as [|n IH]; intros m s v p Hn Hm.
  - destruct s; simpl in Hn; lia.
  - destruct m as [|m]; [destruct s; simpl in Hm; lia|].
    simpl. apply do_validate_body_ext. intros s' v' p' Hs.
    apply IH; lia.
Qed.

(** With at least [size s] levels the bound is never reached. *)
Lemma do_validate_fuel_enough {O : PyOrder} (n : nat) (s : schema)
      (v : json) (p : path) :
  size s <= n -> do_validate_fuel n s v p = do_validate s v p.
Proof. intros H. unfold do_validate. apply do_validate_fuel_stable; lia. Qed.

(** [do_validate] satisfies the equation of the source function. *)
Lemma do_validate_unfold {O : PyOrder} (s : schema) (v : json) (p : path) :
  do_validate s v p = do_validate_body do_validate s v p.
Proof.
  unfold do_validate at 1.
  destruct (size s) as [|n] eqn:Hn; [destruct s; simpl in Hn; lia|].
  simpl. apply do_validate_body_ext. intros s' v' p' Hs.
  apply do_validate_fuel_enough. lia.
Qed.

(** ** Keys of a wrapper *)

Lemma assoc_Some_In {V : Type} (d : list (string * V)) (k : string) :
  In k (map fst d) <-> exists v, assoc d k = Some v.
Proof.
  induction d as [|[k' v'] d IH]; simpl.
  - split; [tauto|]. intros [v H]. discriminate.
  - destruct (String.eqb_spec k' k) as [->|Hne].
    + split; [eauto|tauto].
    + rewrite <- IH. tauto.
Qed.

Lemma first_addend_Some (a : list wrapper) (k : string) :
  (exists s, first_addend a k = Some s) <->
  exists w, In w a /\ exists s, getitem w k = Some s.
Proof.
  induction a as [|w a IH]; simpl.
  - split; [intros [s H]; discriminate|intros [w [[] _]]].
  - destruct (getitem w k) as [s|] eqn:Hg.
    + split; eauto 6.
    + rewrite IH. split.
      * intros [w' [Hin H]]. eauto.
      * intros [w' [[<-|Hin] [s H]]]; [congruence|eauto].
Qed.

Lemma getitem_mentioned (w : wrapper) (k : string) :
  In k (mentioned_keys w) <-> exists s, getitem w k = Some s.
Proof.
  induction w as [c d a IH] using wrapper_induction.
  rewrite getitem_eq. simpl mentioned_keys. rewrite in_app_iff.
  assert (Ha : In k (List.concat (map mentioned_keys a)) <->
               exists s, first_addend a k = Some s).
  { rewrite first_addend_Some, in_concat. rewrite Forall_forall in IH. split.
    - intros [l [Hl Hk]]. apply in_map_iff in Hl. destruct Hl as [w [<- Hw]].
      exists w. split; [assumption|]. now apply IH.
    - intros [w [Hw Hs]]. exists (mentioned_keys w). split.
      + now apply in_map.
      + now apply IH. }
  rewrite Ha, assoc_Some_In. destruct (assoc d k) as [s|].
  - split; eauto.
  - split; [intros [[s H]|H]; [discriminate|assumption]|tauto].
Qed.

Section KeyQueries.
Context {O : PyOrder} {laws : PyOrderLaws O}.

Lemma keys_In {V : Type} (d : list (string * V)) (k : string) :
  In k (keys d) <-> In k (map fst d).
Proof. apply dict_keys_In. Qed.

Lemma required_keys_mentioned (w : wrapper) (k : string) :
  In k (required_keys w) -> In k (mentioned_keys w).
Proof.
  induction w as [c d a IH] using wrapper_induction.
  change (required_keys (Wrapper c d a))
    with (set_list ((match c with
                     | Atleast_one | One_of => []
                     | Required | Base => keys d
                     end) ++ List.concat (map required_keys a))).
  rewrite set_list_In. simpl mentioned_keys. rewrite !in_app_iff.
  intros [H|H].
  - left. destruct c; try contradiction; now apply keys_In.
  - right. rewrite in_concat in *. destruct H as [l [Hl Hk]].
    apply in_map_iff in Hl. destruct Hl as [w [<- Hw]].
    rewrite Forall_forall in IH. exists (mentioned_keys w).
    split; [now apply in_map|now apply IH].
Qed.

Lemma one_of_keys_mentioned (w : wrapper) (g : list string) (k : string) :
  In g (one_of_keys w) -> In k g -> In k (mentioned_keys w).
Proof.
  induction w as [c d a IH] using wrapper_induction.
  change (one_of_keys (Wrapper c d a))
    with ((match c with One_of => [keys d] | _ => [] end)
            ++ List.concat (map one_of_keys a)).
  simpl mentioned_keys. rewrite !in_app_iff. intros [H|H] Hk.
  - left. destruct c; simpl in H; try contradiction.
    destruct H as [<-|[]]. now apply keys_In.
  - right. rewrite in_concat in *. destruct H as [l [Hl Hg]].
    apply in_map_iff in Hl. destruct Hl as [w [<- Hw]].
    rewrite Forall_forall in IH. exists (mentioned_keys w).
    split; [now apply in_map|now apply IH].
Qed.

Lemma atleast_one_keys_mentioned (w : wrapper) (g : list string) (k : string) :
  In g (atleast_one_keys w) -> In k g -> In k (mentioned_keys w).
Proof.
  induction w as [c d a IH] using wrapper_induction.
  change (atleast_one_keys (Wrapper c d a))
    with ((match c with Atleast_one => [keys d] | _ => [] end)
            ++ List.concat (map atleast_one_keys a)).
  simpl mentioned_keys. rewrite !in_app_iff. intros [H|H] Hk.
  - left. destruct c; simpl in H; try contradiction.
    destruct H as [<-|[]]. now apply keys_In.
  - right. rewrite in_concat in *. destruct H as [l [Hl Hg]].
    apply in_map_iff in Hl. destruct Hl as [w [<- Hw]].
    rewrite Forall_forall in IH. exists (mentioned_keys w).
    split; [now apply in_map|now apply IH].
Qed.
End KeyQueries.

(** ** Loops *)

Lemma for_each_app {A : Type} (l1 l2 : list A) (f : A -> result) :
  for_each (l1 ++ l2) f = for_each l1 f ;; for_each l2 f.
Proof.
  induction l1 as [|x l1 IH]; simpl; [reflexivity|].
  rewrite IH. now destruct (f x).
Qed.

Lemma seq_result_not_Return_r (a b : result) : b <> Return -> a ;; b <> Return.
Proof. destruct a; simpl; [tauto|discriminate]. Qed.

Lemma seq_result_not_Return_l (a b : result) : a <> Return -> a ;; b <> Return.
Proof. destruct a; simpl; [tauto|discriminate]. Qed.

Lemma assert_json_type_dict (d : list (string * json)) (p : path) :
  assert_json_type T_dict (JDict d) p = Return.
Proof. reflexivity. Qed.

Lemma py_in_assoc (d : list (string * json)) (k : string) :
  py_in k (JDict d) = true <-> exists v, assoc d k = Some v.
Proof.
  simpl. destruct (assoc d k) as [v|].
  - split; eauto.
  - split; [discriminate|]. intros [v H]. discriminate.
Qed.

(** ** The doctests of the source *)

Example doctest_json_validate_accepts :
  json_validate (O := sorted_order) (SWrapper doctest_structure) (fun x => x)
    (doctest_input (JDict [("b", JList [JStr "anything"; JStr "is"; JStr "OK";
                                        JStr "here"])])
                   [("more_keys", JStr "")]) =
  inr (doctest_input (JDict [("b", JList [JStr "anything"; JStr "is"; JStr "OK";
                                          JStr "here"])])
                     [("more_keys", JStr "")]).
Proof. reflexivity. Qed.

Example doctest_json_validate_more_keys :
  json_validate (O := sorted_order) (SWrapper doctest_structure) (fun x => x)
    (doctest_input (JDict [("b", JList [JStr "anything"])]) []) =
  inl (JSONException (Atleast_one_none client_json_path ["more_keys"])).
Proof. reflexivity. Qed.

Example doctest_json_validate_several :
  json_validate (O := sorted_order) (SWrapper doctest_structure) (fun x => x)
    (doctest_input (JDict [("a", JInt 1); ("b", JList [JStr "both"])])
                   [("more_keys", JStr "")]) =
  inl (JSONException
         (One_of_several (PKey client_json_path "h") ["a"; "b"] ["a"; "b"])).
Proof. reflexivity. Qed.

Example doctest_add_missing_key :
  json_validate (O := sorted_order)
    (SWrapper (add (Wrapper Base [("a", SType T_int)] [])
                   (APlain [("b", SType T_str)])))
    (fun x => x) (JDict [("a", JInt 1)]) =
  inl (JSONException (Key_error client_json_path "b")).
Proof. reflexivity. Qed.

Example doctest_getitem :
  getitem (add (one_of [("a", SType T_int); ("b", SType T_int)])
               (AWrapper (required [("c", SType T_str)]))) "c" =
  Some (SType T_str).
Proof. reflexivity. Qed.

(** ** Primitive leaves *)

Lemma int_float_eqb_integral (sg : bool) (m : positive) (e : Z) :
  int_float_eqb (int_of_float sg m e) sg m e = float_is_integral m e.
Proof.
  unfold int_float_eqb, int_of_float, float_is_integral.
  destruct (Z.leb_spec 0 e) as [He|He]; simpl orb.
  - destruct sg; apply Z.eqb_eq; [|reflexivity].
    rewrite <- Pos2Z.opp_pos. ring.
  - assert (Hp : (0 < 2 ^ (- e))%Z) by (apply Z.pow_pos_nonneg; lia).
    pose proof (Z.div_mod (Z.pos m) (2 ^ (- e)) ltac:(lia)) as Hdm.
    destruct (Z.eqb_spec (Z.pos m mod 2 ^ (- e)) 0) as [H0|H0].
    + apply Z.eqb_eq. rewrite H0 in Hdm.
      destruct sg; [rewrite <- Pos2Z.opp_pos|]; lia.
    + apply Z.eqb_neq.
      destruct sg; [rewrite <- Pos2Z.opp_pos|]; lia.
Qed.

Lemma do_validate_SType {O : PyOrder} (t : pytype) (v : json) (p : path) :
  do_validate (SType t) v p = assert_json_type t v p.
Proof. reflexivity. Qed.

Lemma assert_json_type_int_finite (sg : bool) (m : positive) (e : Z) (p : path) :
  assert_json_type T_int (JFloat (S754_finite sg m e)) p =
  if float_is_integral m e then Return
  else Raise (JSONException (Type_error p (JFloat (S754_finite sg m e)) T_int)).
Proof.
  unfold assert_json_type. simpl.
  rewrite int_float_eqb_integral. now destruct (float_is_integral m e).
Qed.

(** C4: [None] passes every primitive type ([int], [float], [str],
    [unicode]), but [None] given to a wrapper, to a plain dict or to a
    list structure raises the type error of [assert_json_type]. *)
Theorem C4_null_scalar_not_container {O : PyOrder} (p : path) :
  do_validate (SType T_int) JNone p = Return /\
  do_validate (SType T_float) JNone p = Return /\
  do_validate (SType T_str) JNone p = Return /\
  do_validate (SType T_unicode) JNone p = Return /\
  (forall w, do_validate (SWrapper w) JNone p =
             Raise (JSONException (Type_error p JNone T_dict))) /\
  (forall d, do_validate (SDict d) JNone p =
             Raise (JSONException (Type_error p JNone T_dict))) /\
  (forall l, do_validate (SList l) JNone p =
             Raise (JSONException (Type_error p JNone T_list))).
Proof.
  do 6 (split; [intros; reflexivity|]). intros l. reflexivity.
Qed.

(** C5, as the code has it: [int] accepts every [int], every [bool] and
    every finite float with a zero fractional part (3.0), and raises the
    type error on a finite float with a nonzero fractional part (3.5);
    [float] accepts every [int] and every float; a [long] is rejected by
    both. *)
Theorem C5_numeric_coercion {O : PyOrder} (p : path) :
  (forall n, do_validate (SType T_int) (JInt n) p = Return) /\
  (forall b, do_validate (SType T_int) (JBool b) p = Return) /\
  (forall sg, do_validate (SType T_int) (JFloat (S754_zero sg)) p = Return) /\
  (forall sg m e,
      do_validate (SType T_int) (JFloat (S754_finite sg m e)) p =
      if float_is_integral m e then Return
      else Raise (JSONException (Type_error p (JFloat (S754_finite sg m e)) T_int))) /\
  do_validate (SType T_int) (JFloat float_3_0) p = Return /\
  do_validate (SType T_int) (JFloat float_3_5) p =
    Raise (JSONException (Type_error p (JFloat float_3_5) T_int)) /\
  (forall n, do_validate (SType T_float) (JInt n) p = Return) /\
  (forall f, do_validate (SType T_float) (JFloat f) p = Return) /\
  (forall n, do_validate (SType T_int) (JLong n) p =
             Raise (JSONException (Type_error p (JLong n) T_int))) /\
  (forall n, do_validate (SType T_float) (JLong n) p =
             Raise (JSONException (Type_error p (JLong n) T_float))).
Proof.
  assert (Hfin : forall sg m e,
             do_validate (SType T_int) (JFloat (S754_finite sg m e)) p =
             if float_is_integral m e then Return
             else Raise (JSONException
                           (Type_error p (JFloat (S754_finite sg m e)) T_int))).
  { intros sg m e. rewrite do_validate_SType. apply assert_json_type_int_finite. }
  split; [reflexivity|]. split; [reflexivity|]. split; [reflexivity|].
  split; [exact Hfin|].
  split; [unfold float_3_0; rewrite Hfin; reflexivity|].
  split; [unfold float_3_5; rewrite Hfin; reflexivity|].
  split; [reflexivity|]. split; [intros f; now destruct f|].
  split; reflexivity.
Qed.

(** C5 fails on a [long]: the integer 2^63, which [json.loads] decodes
    to a [long], is integral and numeric, yet neither [int] nor [float]
    accepts it. *)
Lemma C5_counterexample :
  do_validate (O := sorted_order) (SType T_int) (JLong 9223372036854775808)
              client_json_path =
    Raise (JSONException
             (Type_error client_json_path (JLong 9223372036854775808) T_int)) /\
  do_validate (O := sorted_order) (SType T_float) (JLong 9223372036854775808)
              client_json_path =
    Raise (JSONException
             (Type_error client_json_path (JLong 9223372036854775808) T_float)).
Proof. split; reflexivity. Qed.

(** ** Optional *)

Lemma do_validate_SOptional {O : PyOrder} (inner : schema) (v : json) (p : path) :
  do_validate (SOptional inner) v p =
  if truthy v then do_validate inner v p else Return.
Proof. rewrite do_validate_unfold. reflexivity. Qed.

(** C3: an [optional] validated against a falsy value ([None], [False],
    zero, empty text, empty list, empty dict) returns without looking at
    the inner structure, whatever that structure is; against a truthy
    value it is the validation of the inner structure at the same path.
    A key whose structure is [optional] and which is absent from the
    client dict is skipped by the loop over the required keys. *)
Theorem C3_optional_falsy {O : PyOrder} (inner : schema) (v : json) (p : path) :
  do_validate (SOptional inner) v p =
    (if truthy v then do_validate inner v p else Return) /\
  (truthy v = false <->
   v = JNone \/ v = JBool false \/ v = JInt 0 \/ v = JLong 0 \/
   (exists sg, v = JFloat (S754_zero sg)) \/
   v = JStr "" \/ v = JUnicode "" \/ v = JList [] \/ v = JDict []) /\
  do_validate (SOptional inner) JNone p = Return /\
  do_validate (SOptional inner) (JInt 0) p = Return /\
  json_validate (SOptional (SType T_int)) (fun x => x) (JInt 0) = inr (JInt 0) /\
  json_validate (SOptional (SType T_int)) (fun x => x) JNone = inr JNone /\
  (forall w client key,
      getitem w key = Some (SOptional inner) ->
      py_in key client = false ->
      required_step do_validate w client p key = Return).
Proof.
  split; [apply do_validate_SOptional|].
  split.
  { split.
    - destruct v as [|b|n|n|f|s|s|l|d]; simpl.
      + tauto.
      + intros ->. tauto.
      + intros H. apply negb_false_iff, Z.eqb_eq in H. subst. tauto.
      + intros H. apply negb_false_iff, Z.eqb_eq in H. subst. tauto.
      + destruct f; try discriminate. intros _. do 4 right. left. eauto.
      + intros H. apply negb_false_iff, String.eqb_eq in H. subst. tauto.
      + intros H. apply negb_false_iff, String.eqb_eq in H. subst. tauto.
      + destruct l; [|discriminate]. tauto.
      + destruct d; [|discriminate]. intros _. do 8 right. reflexivity.
    - intros [->|[->|[->|[->|[[sg ->]|[->|[->|[->| ->]]]]]]]]; reflexivity. }
  split; [now rewrite do_validate_SOptional|].
  split; [now rewrite do_validate_SOptional|].
  split; [reflexivity|]. split; [reflexivity|].
  intros w client key Hg Hin. unfold required_step. rewrite Hg. simpl.
  now rewrite Hin.
Qed.

(** The doctest of [optional]: [{'foo': int, 'bar': optional(int)}]
    accepts [{'foo': 1}]. *)
Lemma C3_optional_falsy_witness :
  required_step (do_validate (O := sorted_order))
    (required [("foo", SType T_int); ("bar", SOptional (SType T_int))])
    (JDict [("foo", JInt 1)]) client_json_path "bar" = Return /\
  do_validate (O := sorted_order)
    (SDict [("foo", SType T_int); ("bar", SOptional (SType T_int))])
    (JDict [("foo", JInt 1)]) client_json_path = Return.
Proof.
  split; [|reflexivity].
  apply (proj2 (proj2 (proj2 (proj2 (proj2 (proj2
           (@C3_optional_falsy sorted_order (SType T_int) JNone
                               client_json_path)))))));
    reflexivity.
Defined.

(** ** Regular expressions *)

(** C6, evaluated on the code: text is matched against the pattern and a
    mismatch raises the format error with the path, the value and the
    pattern; a value that is not text never reaches [assert_json]: the
    call of [match] raises [TypeError], which is not a [JSONException]. *)
Theorem C6_pattern_non_text {O : PyOrder} (pattern : string)
        (matches : string -> bool) (v : json) (p : path) :
  do_validate (SRegex pattern matches) v p =
    match v with
    | JStr text | JUnicode text =>
        if matches text then Return
        else Raise (JSONException (Format_error p v pattern))
    | _ => Raise (TypeError "expected string or buffer")
    end /\
  do_validate (SRegex "^fo*$" fo_star) (JStr "fooo") p = Return /\
  do_validate (SRegex "^fo*$" fo_star) (JStr "bar") p =
    Raise (JSONException (Format_error p (JStr "bar") "^fo*$")) /\
  do_validate (SRegex "^fo*$" fo_star) (JInt 5) p =
    Raise (TypeError "expected string or buffer") /\
  (forall msg, do_validate (SRegex "^fo*$" fo_star) (JInt 5) p <>
               Raise (JSONException msg)).
Proof.
  split; [rewrite do_validate_unfold; destruct v; reflexivity|].
  split; [reflexivity|]. split; [reflexivity|]. split; [reflexivity|].
  intros msg. discriminate.
Qed.

(** ** Malformed structures *)

(** C9 fails: a list structure with no element validated against a
    value that is not a list raises the client's type error, and a
    prohibited object under an [optional] is not reported at all when
    the value is falsy. *)
Lemma C9_counterexample :
  do_validate (O := sorted_order) (SList []) (JStr "x") client_json_path =
    Raise (JSONException (Type_error client_json_path (JStr "x") T_list)) /\
  do_validate (O := sorted_order) (SOptional (SOther "1")) JNone client_json_path =
    Return.
Proof. split; reflexivity. Qed.

(** ** Extra keys *)

Section ExtraKeys.
Context {O : PyOrder} {laws : PyOrderLaws O}.
Variable rec : schema -> json -> path -> result.
Variables (w : wrapper) (d d' : list (string * json)) (p : path).
Hypothesis agree : forall k, In k (mentioned_keys w) -> assoc d k = assoc d' k.

Lemma validate_at_agree (s : schema) (k : string) :
  In k (mentioned_keys w) ->
  validate_at rec s (JDict d) p k = validate_at rec s (JDict d') p k.
Proof. intros Hk. unfold validate_at. simpl. now rewrite (agree k Hk). Qed.

Lemma py_in_agree (k : string) :
  In k (mentioned_keys w) -> py_in k (JDict d) = py_in k (JDict d').
Proof. intros Hk. simpl. now rewrite (agree k Hk). Qed.

Lemma filter_present_agree (g : list string) :
  (forall k, In k g -> In k (mentioned_keys w)) ->
  filter (fun key => py_in key (JDict d)) g =
  filter (fun key => py_in key (JDict d')) g.
Proof. intros Hg. apply filter_ext_in. intros k Hk. now apply py_in_agree, Hg. Qed.

Lemma validate_wrapper_agree :
  validate_wrapper rec w (JDict d) p = validate_wrapper rec w (JDict d') p.
Proof.
  unfold validate_wrapper. rewrite !assert_json_type_dict. simpl.
  rewrite (for_each_ext _ (required_step rec w (JDict d) p)
                        (required_step rec w (JDict d') p)).
  2:{ intros k Hk. apply required_keys_mentioned in Hk. unfold required_step.
      destruct (getitem w k) as [s|]; [|reflexivity].
      now rewrite (py_in_agree k Hk), (validate_at_agree s k Hk). }
  f_equal.
  rewrite (for_each_ext _ (one_of_step rec w (JDict d) p)
                        (one_of_step rec w (JDict d') p)).
  2:{ intros g Hg. unfold one_of_step.
      rewrite (filter_present_agree g (fun k => one_of_keys_mentioned w g k Hg)).
      destruct (filter _ g) as [|k [|k' r]] eqn:Hf; try reflexivity.
      destruct (getitem w k) as [s|]; [|reflexivity].
      apply validate_at_agree, (one_of_keys_mentioned w g k Hg).
      assert (Hin : In k (filter (fun key => py_in key (JDict d')) g))
        by (rewrite Hf; now left).
      now apply filter_In in Hin. }
  f_equal.
  apply for_each_ext. intros g Hg. unfold atleast_one_step.
  rewrite (filter_present_agree g (fun k => atleast_one_keys_mentioned w g k Hg)).
  destruct (filter _ g) as [|k r] eqn:Hf; try reflexivity.
  destruct (getitem w k) as [s|]; [|reflexivity].
  apply validate_at_agree, (atleast_one_keys_mentioned w g k Hg).
  assert (Hin : In k (filter (fun key => py_in key (JDict d')) g))
    by (rewrite Hf; now left).
  now apply filter_In in Hin.
Qed.
End ExtraKeys.

(** C10: the validation of a client dict against a wrapper, or against
    a plain dict, looks only at the keys the structure mentions: two
    client dicts that agree on those keys get the same result, the same
    exception included, whatever other keys they carry. *)
Theorem C10_extra_keys_ignored {O : PyOrder} {laws : PyOrderLaws O} (w : wrapper)
        (fields : list (string * schema)) (d d' : list (string * json)) (p : path) :
  (forall k, In k (mentioned_keys w) -> assoc d k = assoc d' k) ->
  (forall k, In k (map fst fields) -> assoc d k = assoc d' k) ->
  do_validate (SWrapper w) (JDict d) p = do_validate (SWrapper w) (JDict d') p /\
  do_validate (SDict fields) (JDict d) p = do_validate (SDict fields) (JDict d') p.
Proof.
  intros Hw Hf. split.
  - rewrite !(do_validate_unfold (SWrapper w)). simpl.
    now apply validate_wrapper_agree.
  - rewrite !(do_validate_unfold (SDict fields)). simpl.
    rewrite !(do_validate_unfold (SWrapper (required fields))). simpl.
    apply validate_wrapper_agree. simpl. intros k Hk.
    rewrite app_nil_r in Hk. now apply Hf.
Qed.

Lemma C10_extra_keys_ignored_witness :
  do_validate (O := sorted_order)
    (SWrapper (add (one_of [("a", SType T_int); ("b", SList [SType T_str])])
                   (APlain [("c", SType T_str)])))
    (JDict [("a", JInt 1); ("c", JStr "x")]) client_json_path =
  do_validate (O := sorted_order)
    (SWrapper (add (one_of [("a", SType T_int); ("b", SList [SType T_str])])
                   (APlain [("c", SType T_str)])))
    (JDict [("extra_key", JStr "this is ignored"); ("a", JInt 1);
            ("zz", JNone); ("c", JStr "x")]) client_json_path.
Proof.
  refine (proj1 (@C10_extra_keys_ignored sorted_order _ _ [] _ _ client_json_path _ _)).
  - simpl. intros k [<-|[<-|[<-|[]]]]; reflexivity.
  - simpl. intros k [].
Defined.

(** ** Groups of keys *)

Lemma do_validate_SWrapper {O : PyOrder} (w : wrapper) (v : json) (p : path) :
  do_validate (SWrapper w) v p = validate_wrapper do_validate w v p.
Proof. rewrite do_validate_unfold. reflexivity. Qed.

(** The key a group step recurses into is in the client dict and
    [getitem] finds its structure. *)
Lemma present_key_resolved (w : wrapper) (d : list (string * json))
      (group : list string) (key : string) :
  (forall k, In k group -> In k (mentioned_keys w)) ->
  In key (filter (fun k => py_in k (JDict d)) group) ->
  exists next value, getitem w key = Some next /\ assoc d key = Some value.
Proof.
  intros Hg Hin. apply filter_In in Hin. destruct Hin as [Hk Hp].
  apply Hg, getitem_mentioned in Hk. destruct Hk as [next Hn].
  apply py_in_assoc in Hp. destruct Hp as [value Hv]. eauto.
Qed.

Lemma validate_at_Some (rec : schema -> json -> path -> result) (s : schema)
      (d : list (string * json)) (p : path) (k : string) (value : json) :
  assoc d k = Some value ->
  validate_at rec s (JDict d) p k = rec s value (PKey p k).
Proof. intros H. unfold validate_at. simpl. now rewrite H. Qed.

(** C1, as the code has it: the check of a one-of group never returns
    when the number of its keys in the client dict is not one; once the
    required keys and the groups before it have passed, no key raises
    the "found none" error, several keys raise the "found several"
    error whatever their values, and one key makes validation continue
    with that key's value against the structure [getitem] finds. *)
Theorem C1_one_of_group {O : PyOrder} {laws : PyOrderLaws O} (w : wrapper)
        (d : list (string * json))
        (p : path) (pre post : list (list string)) (group : list string) :
  one_of_keys w = pre ++ group :: post ->
  let present := filter (fun key => py_in key (JDict d)) group in
  (List.length present <> 1 -> do_validate (SWrapper w) (JDict d) p <> Return) /\
  (for_each (required_keys w) (required_step do_validate w (JDict d) p) = Return ->
   for_each pre (one_of_step do_validate w (JDict d) p) = Return ->
   (present = [] ->
    do_validate (SWrapper w) (JDict d) p =
      Raise (JSONException (One_of_none p group))) /\
   (1 < List.length present ->
    do_validate (SWrapper w) (JDict d) p =
      Raise (JSONException (One_of_several p group present))) /\
   (forall key, present = [key] ->
      exists next value,
        getitem w key = Some next /\ assoc d key = Some value /\
        do_validate (SWrapper w) (JDict d) p =
          do_validate next value (PKey p key) ;;
          for_each post (one_of_step do_validate w (JDict d) p) ;;
          for_each (atleast_one_keys w) (atleast_one_step do_validate w (JDict d) p))).
Proof.
  intros Hsplit present.
  assert (Hgroup : forall k, In k group -> In k (mentioned_keys w)).
  { intros k. apply one_of_keys_mentioned. rewrite Hsplit.
    apply in_or_app. right. now left. }
  rewrite do_validate_SWrapper. unfold validate_wrapper.
  rewrite assert_json_type_dict, Hsplit, for_each_app.
  cbn [for_each seq_result].
  assert (Hstep : one_of_step do_validate w (JDict d) p group =
                  match present with
                  | [] => Raise (JSONException (One_of_none p group))
                  | [key] =>
                      match getitem w key with
                      | None => Raise (KeyError key)
                      | Some next => validate_at do_validate next (JDict d) p key
                      end
                  | _ :: _ :: _ =>
                      Raise (JSONException (One_of_several p group present))
                  end) by reflexivity.
  rewrite Hstep. clear Hstep.
  assert (Hres : forall key, In key present ->
                 exists next value, getitem w key = Some next /\
                                    assoc d key = Some value)
    by (intros key; apply present_key_resolved, Hgroup).
  clearbody present. split.
  - intros Hlen. apply seq_result_not_Return_r, seq_result_not_Return_l,
      seq_result_not_Return_r, seq_result_not_Return_l.
    destruct present as [|k [|k' r]]; simpl in Hlen; [discriminate|lia|discriminate].
  - intros -> ->. cbn [seq_result].
    split; [|split].
    + intros ->. reflexivity.
    + intros Hlen. destruct present as [|k [|k' r]]; simpl in Hlen; try lia.
      reflexivity.
    + intros key ->.
      destruct (Hres key) as [next [value [Hn Hv]]]; [now left|].
      exists next, value. rewrite Hn, (validate_at_Some _ _ _ _ _ _ Hv).
      repeat split; try assumption.
      now destruct (do_validate next value (PKey p key)).
Qed.

(** C2, as the code has it: the check of an at-least-one group never
    returns when none of its keys is in the client dict; once the
    required keys, the one-of groups and the groups before it have
    passed, no key raises the "found none" error, and otherwise
    validation continues with the first key of the group, in the order
    [keys()] lists them, that is in the client dict; the other keys of
    the group are not looked at by this check. *)
Theorem C2_atleast_one_group {O : PyOrder} {laws : PyOrderLaws O} (w : wrapper)
        (d : list (string * json))
        (p : path) (pre post : list (list string)) (group : list string) :
  atleast_one_keys w = pre ++ group :: post ->
  let present := filter (fun key => py_in key (JDict d)) group in
  (present = [] -> do_validate (SWrapper w) (JDict d) p <> Return) /\
  (for_each (required_keys w) (required_step do_validate w (JDict d) p) = Return ->
   for_each (one_of_keys w) (one_of_step do_validate w (JDict d) p) = Return ->
   for_each pre (atleast_one_step do_validate w (JDict d) p) = Return ->
   (present = [] ->
    do_validate (SWrapper w) (JDict d) p =
      Raise (JSONException (Atleast_one_none p group))) /\
   (forall key rest, present = key :: rest ->
      exists next value,
        getitem w key = Some next /\ assoc d key = Some value /\
        do_validate (SWrapper w) (JDict d) p =
          do_validate next value (PKey p key) ;;
          for_each post (atleast_one_step do_validate w (JDict d) p))).
Proof.
  intros Hsplit present.
  assert (Hgroup : forall k, In k group -> In k (mentioned_keys w)).
  { intros k. apply atleast_one_keys_mentioned. rewrite Hsplit.
    apply in_or_app. right. now left. }
  rewrite do_validate_SWrapper. unfold validate_wrapper.
  rewrite assert_json_type_dict, Hsplit, for_each_app.
  cbn [for_each seq_result].
  assert (Hstep : atleast_one_step do_validate w (JDict d) p group =
                  match present with
                  | [] => Raise (JSONException (Atleast_one_none p group))
                  | key :: _ =>
                      match getitem w key with
                      | None => Raise (KeyError key)
                      | Some next => validate_at do_validate next (JDict d) p key
                      end
                  end) by reflexivity.
  rewrite Hstep. clear Hstep.
  assert (Hres : forall key, In key present ->
                 exists next value, getitem w key = Some next /\
                                    assoc d key = Some value)
    by (intros key; apply present_key_resolved, Hgroup).
  clearbody present. split.
  - intros ->. apply seq_result_not_Return_r, seq_result_not_Return_r,
      seq_result_not_Return_r, seq_result_not_Return_l. discriminate.
  - intros -> -> ->. cbn [seq_result].
    split.
    + intros ->. reflexivity.
    + intros key rest ->.
      destruct (Hres key) as [next [value [Hn Hv]]]; [now left|].
      exists next, value. rewrite Hn, (validate_at_Some _ _ _ _ _ _ Hv).
      repeat split; assumption.
Qed.

Lemma C1_one_of_group_witness :
  do_validate (O := sorted_order) (SWrapper one_of_a_b) (JDict []) client_json_path =
    Raise (JSONException (One_of_none client_json_path ["a"; "b"])) /\
  do_validate (O := sorted_order) (SWrapper one_of_a_b)
              (JDict [("a", JInt 1); ("b", JList [JStr "x"])]) client_json_path =
    Raise (JSONException (One_of_several client_json_path ["a"; "b"] ["a"; "b"])).
Proof.
  split.
  - pose proof (@C1_one_of_group sorted_order _ one_of_a_b [] client_json_path
                  [] [] ["a"; "b"] eq_refl) as H.
    apply H; reflexivity.
  - pose proof (@C1_one_of_group sorted_order _ one_of_a_b
                  [("a", JInt 1); ("b", JList [JStr "x"])] client_json_path
                  [] [] ["a"; "b"] eq_refl) as H.
    apply H; try reflexivity. simpl. lia.
Defined.

(** C1 fails when an earlier check raises first: with a required key
    [c] next to the group, the empty dict raises the key error of [c],
    and a dict with both group keys raises it too. *)
Lemma C1_counterexample :
  In ["a"; "b"]
     (one_of_keys (O := sorted_order)
        (add one_of_a_b (AWrapper (required [("c", SType T_str)])))) /\
  do_validate (O := sorted_order)
    (SWrapper (add one_of_a_b (AWrapper (required [("c", SType T_str)]))))
    (JDict []) client_json_path =
    Raise (JSONException (Key_error client_json_path "c")) /\
  do_validate (O := sorted_order)
    (SWrapper (add one_of_a_b (AWrapper (required [("c", SType T_str)]))))
    (JDict [("a", JInt 1); ("b", JList [JStr "x"])]) client_json_path =
    Raise (JSONException (Key_error client_json_path "c")).
Proof. split; [now left|split; reflexivity]. Qed.

Lemma C2_atleast_one_group_witness :
  do_validate (O := sorted_order) (SWrapper atleast_one_a_b) (JDict [])
              client_json_path =
    Raise (JSONException (Atleast_one_none client_json_path ["a"; "b"])) /\
  do_validate (O := sorted_order) (SWrapper atleast_one_a_b)
              (JDict [("a", JInt 1); ("b", JStr "bad")]) client_json_path = Return.
Proof.
  split.
  - pose proof (@C2_atleast_one_group sorted_order _ atleast_one_a_b [] client_json_path
                  [] [] ["a"; "b"] eq_refl) as H.
    apply H; reflexivity.
  - pose proof (@C2_atleast_one_group sorted_order _ atleast_one_a_b
                  [("a", JInt 1); ("b", JStr "bad")] client_json_path
                  [] [] ["a"; "b"] eq_refl) as H.
    destruct H as [_ H].
    destruct (H eq_refl eq_refl eq_refl) as [_ H'].
    destruct (H' "a" ["b"] eq_refl) as [next [value [Hn [Hv Heq]]]].
    rewrite Heq. injection Hn as <-. injection Hv as <-. reflexivity.
Defined.

(** C2 fails on the order: written [b] first, with [b] valid and [a]
    not, the first key of the group in the client dict in the order
    written is [b], yet an interpreter that lists [a] before [b]
    validates [a] and raises its type error.  It fails as well when an
    earlier check raises first. *)
Lemma C2_counterexample :
  hd_error (filter (fun key => py_in key (JDict [("b", JInt 1); ("a", JStr "bad")]))
                   (map fst (json_structure atleast_one_b_a))) = Some "b" /\
  do_validate (O := sorted_order) (SType T_int) (JInt 1)
              (PKey client_json_path "b") = Return /\
  do_validate (O := sorted_order) (SWrapper atleast_one_b_a)
              (JDict [("b", JInt 1); ("a", JStr "bad")]) client_json_path =
    Raise (JSONException
             (Type_error (PKey client_json_path "a") (JStr "bad") T_int)) /\
  do_validate (O := sorted_order)
    (SWrapper (add atleast_one_a_b (APlain [("c", SType T_str)])))
    (JDict []) client_json_path =
    Raise (JSONException (Key_error client_json_path "c")).
Proof. repeat split. Qed.

(** ** Order of iteration *)

Section TwoOrders.
Variables O1 O2 : PyOrder.
Hypothesis same_dict_keys : forall l, @dict_keys O1 l = @dict_keys O2 l.
Hypothesis same_set_list : forall l, @set_list O1 l = @set_list O2 l.

Lemma required_keys_same (w : wrapper) :
  @required_keys O1 w = @required_keys O2 w.
Proof.
  induction w as [c d a IH] using wrapper_induction.
  change (@set_list O1 ((match c with
                         | Atleast_one | One_of => []
                         | Required | Base => @keys O1 _ d
                         end) ++ List.concat (map (@required_keys O1) a)) =
          @set_list O2 ((match c with
                         | Atleast_one | One_of => []
                         | Required | Base => @keys O2 _ d
                         end) ++ List.concat (map (@required_keys O2) a))).
  rewrite same_set_list. unfold keys. rewrite same_dict_keys.
  do 3 f_equal. apply map_ext_in. now apply Forall_forall.
Qed.

Lemma one_of_keys_same (w : wrapper) :
  @one_of_keys O1 w = @one_of_keys O2 w.
Proof.
  induction w as [c d a IH] using wrapper_induction.
  change ((match c with One_of => [@keys O1 _ d] | _ => [] end)
            ++ List.concat (map (@one_of_keys O1) a) =
          (match c with One_of => [@keys O2 _ d] | _ => [] end)
            ++ List.concat (map (@one_of_keys O2) a)).
  unfold keys. rewrite same_dict_keys.
  do 2 f_equal. apply map_ext_in. now apply Forall_forall.
Qed.

Lemma atleast_one_keys_same (w : wrapper) :
  @atleast_one_keys O1 w = @atleast_one_keys O2 w.
Proof.
  induction w as [c d a IH] using wrapper_induction.
  change ((match c with Atleast_one => [@keys O1 _ d] | _ => [] end)
            ++ List.concat (map (@atleast_one_keys O1) a) =
          (match c with Atleast_one => [@keys O2 _ d] | _ => [] end)
            ++ List.concat (map (@atleast_one_keys O2) a)).
  unfold keys. rewrite same_dict_keys.
  do 2 f_equal. apply map_ext_in. now apply Forall_forall.
Qed.

Lemma do_validate_body_same (rec : schema -> json -> path -> result)
      (s : schema) (v : json) (p : path) :
  @do_validate_body O1 rec s v p = @do_validate_body O2 rec s v p.
Proof.
  destruct s; try reflexivity.
  simpl. unfold validate_wrapper.
  now rewrite required_keys_same, one_of_keys_same, atleast_one_keys_same.
Qed.

Lemma do_validate_fuel_same (n : nat) (s : schema) (v : json) (p : path) :
  @do_validate_fuel O1 n s v p = @do_validate_fuel O2 n s v p.
Proof.
  revert s v p. induction n as [|n IH]; intros s v p; [reflexivity|].
  simpl. rewrite do_validate_body_same.
  apply do_validate_body_ext. intros s' v' p' _. apply IH.
Qed.
End TwoOrders.

Lemma do_validate_SList_one {O : PyOrder} (element : schema) (xs : list json)
      (p : path) :
  do_validate (SList [element]) (JList xs) p =
  for_enumerate 0 xs (fun i x => do_validate element x (PIndex p i)).
Proof. rewrite do_validate_unfold. reflexivity. Qed.

(** C7 fails: the required keys are listed by [list(set(...))], not in
    the order written.  For [{'b': str, 'a': str}] and the empty dict,
    an interpreter that lists [a] first reports the missing key [a],
    one that lists the keys as written reports [b]: the first error
    follows the interpreter's order. *)
Lemma C7_counterexample :
  map fst [("b", SType T_str); ("a", SType T_str)] = ["b"; "a"] /\
  @do_validate sorted_order
     (SDict [("b", SType T_str); ("a", SType T_str)]) (JDict []) client_json_path =
    Raise (JSONException (Key_error client_json_path "a")) /\
  @do_validate declared_order
     (SDict [("b", SType T_str); ("a", SType T_str)]) (JDict []) client_json_path =
    Raise (JSONException (Key_error client_json_path "b")) /\
  @do_validate sorted_order
     (SDict [("b", SType T_str); ("a", SType T_str)]) (JDict []) client_json_path <>
  @do_validate declared_order
     (SDict [("b", SType T_str); ("a", SType T_str)]) (JDict []) client_json_path.
Proof. repeat split. discriminate. Qed.

(** ** Combining wrappers *)

Lemma py_add_wrapper (default_addends : Heap.ref) (h : Heap.heap)
      (self other : Heap.ref) (c : wrapper_class) (js ads : Heap.ref)
      (items : list Heap.ref) :
  nth_error h self = Some (Heap.OWrapper c js ads) ->
  nth_error h ads = Some (Heap.OList items) ->
  Heap.is_wrapper (nth_error h other) = true ->
  Heap.py_add default_addends h self other =
  Some ((h ++ [Heap.OList (items ++ [other])])
          ++ [Heap.OWrapper c js (List.length h)],
        S (List.length h)).
Proof.
  intros Hs Ha Ho. unfold Heap.py_add. rewrite Hs, Ho. simpl. rewrite Ha.
  unfold Heap.alloc. rewrite length_app. simpl List.length.
  now rewrite Nat.add_1_r.
Qed.

Lemma py_add_plain (default_addends : Heap.ref) (h : Heap.heap)
      (self other : Heap.ref) (c : wrapper_class) (js ads : Heap.ref)
      (items : list Heap.ref) :
  nth_error h self = Some (Heap.OWrapper c js ads) ->
  nth_error h ads = Some (Heap.OList items) ->
  Heap.is_wrapper (nth_error h other) = false ->
  Heap.py_add default_addends h self other =
  Some (((h ++ [Heap.OWrapper Required other default_addends])
           ++ [Heap.OList (items ++ [List.length h])])
          ++ [Heap.OWrapper c js (S (List.length h))],
        S (S (List.length h))).
Proof.
  intros Hs Ha Ho. unfold Heap.py_add. rewrite Hs, Ho. simpl.
  rewrite nth_error_app1 by (apply nth_error_Some; congruence). rewrite Ha.
  unfold Heap.alloc. rewrite !length_app. simpl List.length.
  now rewrite !Nat.add_1_r.
Qed.

Lemma extends_app (h l : Heap.heap) : Heap.extends h (h ++ l).
Proof.
  intros x o H. rewrite nth_error_app1; [exact H|].
  apply nth_error_Some. congruence.
Qed.

Lemma nth_error_snoc {A : Type} (l : list A) (x : A) (n : nat) :
  n = List.length l -> nth_error (l ++ [x]) n = Some x.
Proof. intros ->. rewrite nth_error_app2, Nat.sub_diag; [reflexivity|lia]. Qed.

Lemma wrapper_at_node (n : nat) (h : Heap.heap) (r : Heap.ref)
      (c : wrapper_class) (js ads : Heap.ref) (d : list (string * schema))
      (items : list Heap.ref) (a : list wrapper) :
  nth_error h r = Some (Heap.OWrapper c js ads) ->
  nth_error h js = Some (Heap.ODict d) ->
  nth_error h ads = Some (Heap.OList items) ->
  Heap.all_some (map (Heap.wrapper_at n h) items) = Some a ->
  Heap.wrapper_at (S n) h r = Some (Wrapper c d a).
Proof. intros Hr Hjs Hads Ha. cbn [Heap.wrapper_at]. now rewrite Hr, Hjs, Hads, Ha. Qed.

Lemma wrapper_at_inv (n : nat) (h : Heap.heap) (r : Heap.ref) (w : wrapper) :
  Heap.wrapper_at n h r = Some w ->
  exists m c js ads d items a,
    n = S m /\
    nth_error h r = Some (Heap.OWrapper c js ads) /\
    nth_error h js = Some (Heap.ODict d) /\
    nth_error h ads = Some (Heap.OList items) /\
    Heap.all_some (map (Heap.wrapper_at m h) items) = Some a /\
    w = Wrapper c d a.
Proof.
  destruct n as [|m]; [discriminate|]. cbn [Heap.wrapper_at].
  destruct (nth_error h r) as [[| |c js ads]|]; try discriminate.
  destruct (nth_error h js) as [[|d|]|] eqn:Hjs; try discriminate.
  destruct (nth_error h ads) as [[items| |]|] eqn:Hads; try discriminate.
  destruct (Heap.all_some (map (Heap.wrapper_at m h) items)) as [a|] eqn:Ha;
    [|discriminate].
  intros [= <-]. exists m, c, js, ads, d, items, a. repeat split; assumption.
Qed.

(** The two ways [__add__] extends the heap, read back as wrappers. *)
Lemma py_add_reads (default_addends : Heap.ref) (h : Heap.heap)
      (self other : Heap.ref) (n : nat) (a : wrapper) (b : addend_arg) :
  Heap.wrapper_at n h self = Some a ->
  Heap.arg_at n h other = Some b ->
  nth_error h default_addends = Some (Heap.OList []) ->
  exists h' r,
    Heap.py_add default_addends h self other = Some (h', r) /\
    Heap.extends h h' /\
    List.length h <= r /\
    Heap.wrapper_at (S n) h' r = Some (add a b).
Proof.
  intros Hself Harg Hdef.
  destruct (wrapper_at_inv _ _ _ _ Hself)
    as [m [c [js [ads [d [items [aa [-> [Hr [Hjs [Hads [Ha ->]]]]]]]]]]]].
  unfold Heap.arg_at in Harg.
  destruct (nth_error h other) as [[|d0|c0 js0 ads0]|] eqn:Ho; try discriminate.
  - (* a plain dict is wrapped as [required] *)
    injection Harg as <-.
    set (W := Heap.OWrapper Required other default_addends).
    set (L := Heap.OList (items ++ [List.length h])).
    set (N := Heap.OWrapper c js (S (List.length h))).
    exists (((h ++ [W]) ++ [L]) ++ [N]), (S (S (List.length h))).
    assert (Hext : Heap.extends h (((h ++ [W]) ++ [L]) ++ [N])).
    { rewrite <- !app_assoc. apply extends_app. }
    split; [apply (py_add_plain _ _ _ _ _ _ _ _ Hr Hads); now rewrite Ho|].
    split; [exact Hext|]. split; [lia|].
    apply (wrapper_at_node _ _ _ c js (S (List.length h)) d
                           (items ++ [List.length h])).
    + apply nth_error_snoc. rewrite !length_app. simpl. lia.
    + apply Hext, Hjs.
    + rewrite nth_error_app1 by (rewrite !length_app; simpl; lia).
      apply nth_error_snoc. rewrite length_app. simpl. lia.
    + rewrite map_app. apply all_some_app.
      * apply (all_some_map_mono (Heap.wrapper_at m h)); [|exact Ha].
        intros x y _. now apply wrapper_at_mono.
      * cbn [map].
        rewrite (wrapper_at_node m _ (List.length h) Required other
                                 default_addends d0 [] []); try reflexivity.
        -- rewrite nth_error_app1 by (rewrite !length_app; simpl; lia).
           rewrite nth_error_app1 by (rewrite !length_app; simpl; lia).
           now apply nth_error_snoc.
        -- apply Hext, Ho.
        -- apply Hext, Hdef.
  - (* a wrapper is appended as it is *)
    destruct (Heap.wrapper_at (S m) h other) as [bw|] eqn:Hb; [|discriminate].
    injection Harg as <-.
    set (L := Heap.OList (items ++ [other])).
    set (N := Heap.OWrapper c js (List.length h)).
    exists ((h ++ [L]) ++ [N]), (S (List.length h)).
    assert (Hext : Heap.extends h ((h ++ [L]) ++ [N])).
    { rewrite <- !app_assoc. apply extends_app. }
    split; [apply (py_add_wrapper _ _ _ _ _ _ _ _ Hr Hads); now rewrite Ho|].
    split; [exact Hext|]. split; [lia|].
    apply (wrapper_at_node _ _ _ c js (List.length h) d (items ++ [other])).
    + apply nth_error_snoc. rewrite !length_app. simpl. lia.
    + apply Hext, Hjs.
    + rewrite nth_error_app1 by (rewrite !length_app; simpl; lia).
      now apply nth_error_snoc.
    + rewrite map_app. apply all_some_app.
      * apply (all_some_map_mono (Heap.wrapper_at m h)).
        -- intros x y _ Hx. apply (wrapper_at_extends _ h); [exact Hext|].
           now apply (wrapper_at_mono _ h h); [apply extends_refl|].
        -- exact Ha.
      * cbn [map]. now rewrite (wrapper_at_extends _ _ _ _ _ Hext Hb).
Qed.

Lemma arg_at_mono (n : nat) (h h' : Heap.heap) (r : Heap.ref) (b : addend_arg) :
  Heap.extends h h' ->
  Heap.arg_at n h r = Some b -> Heap.arg_at (S n) h' r = Some b.
Proof.
  intros Hext. unfold Heap.arg_at.
  destruct (nth_error h r) as [[|d|c js ads]|] eqn:Hr; try discriminate;
    rewrite (Hext _ _ Hr); [tauto|].
  destruct (Heap.wrapper_at n h r) as [w|] eqn:Hw; [|discriminate].
  now rewrite (wrapper_at_mono _ _ _ _ _ Hext Hw).
Qed.

(** ** The bound on the depth is never reached *)

Lemma no_runtime_error_seq (a b : result) :
  no_runtime_error a -> no_runtime_error b -> no_runtime_error (a ;; b).
Proof. intros Ha Hb. destruct a; [exact Hb|exact Ha]. Qed.

Lemma no_runtime_error_for_each {A : Type} (l : list A) (f : A -> result) :
  (forall x, In x l -> no_runtime_error (f x)) -> no_runtime_error (for_each l f).
Proof.
  induction l as [|x l IH]; intros H; simpl; [discriminate|].
  apply no_runtime_error_seq; [apply H; now left|].
  apply IH. intros y Hy. apply H. now right.
Qed.

Lemma no_runtime_error_for_enumerate {A : Type} (l : list A) (i : nat)
      (f : nat -> A -> result) :
  (forall j x, no_runtime_error (f j x)) -> no_runtime_error (for_enumerate i l f).
Proof.
  intros H. revert i. induction l as [|x l IH]; intros i; simpl; [discriminate|].
  apply no_runtime_error_seq; [apply H|apply IH].
Qed.

Lemma no_runtime_error_assert_json_type (t : pytype) (v : json) (p : path) :
  no_runtime_error (assert_json_type t v p).
Proof.
  intros msg. unfold assert_json_type, assert_json_type_tail.
  destruct t, v as [|b|n|n|f|s|s|l|d]; simpl; try discriminate;
    destruct f as [sg|sg| |sg m e]; simpl; try discriminate.
  destruct (int_float_eqb _ _ _ _); discriminate.
Qed.

Lemma no_runtime_error_validate_at (rec : schema -> json -> path -> result)
      (s : schema) (v : json) (p : path) (k : string) :
  (forall v' p', no_runtime_error (rec s v' p')) ->
  no_runtime_error (validate_at rec s v p k).
Proof.
  intros H. unfold validate_at. destruct (py_subscript v k); [apply H|discriminate].
Qed.

Lemma no_runtime_error_body {O : PyOrder}
      (rec : schema -> json -> path -> result) (s : schema) (v : json) (p : path) :
  (forall s' v' p', size s' < size s -> no_runtime_error (rec s' v' p')) ->
  no_runtime_error (do_validate_body rec s v p).
Proof.
  intros H. destruct s as [w|d|l|s0| |t|pat m|r]; simpl do_validate_body.
  - assert (Hk : forall k s', getitem w k = Some s' ->
                forall v' p', no_runtime_error (rec s' v' p')).
    { intros k s' Hg v' p'. apply H. apply getitem_size in Hg. simpl. lia. }
    unfold validate_wrapper.
    apply no_runtime_error_seq; [apply no_runtime_error_assert_json_type|].
    apply no_runtime_error_seq; [|apply no_runtime_error_seq].
    + apply no_runtime_error_for_each. intros k _. unfold required_step.
      destruct (getitem w k) as [s'|] eqn:Hg; [|discriminate].
      pose proof (no_runtime_error_validate_at rec s' v p k (Hk _ _ Hg)) as Hv.
      destruct (negb (is_optional s')).
      * apply no_runtime_error_seq; [|exact Hv].
        unfold assert_json. destruct (py_in k v); discriminate.
      * destruct (py_in k v); [exact Hv|discriminate].
    + apply no_runtime_error_for_each. intros g _. unfold one_of_step.
      destruct (filter _ g) as [|k [|k' r]]; try discriminate.
      destruct (getitem w k) as [s'|] eqn:Hg; [|discriminate].
      apply no_runtime_error_validate_at, (Hk _ _ Hg).
    + apply no_runtime_error_for_each. intros g _. unfold atleast_one_step.
      destruct (filter _ g) as [|k r]; try discriminate.
      destruct (getitem w k) as [s'|] eqn:Hg; [|discriminate].
      apply no_runtime_error_validate_at, (Hk _ _ Hg).
  - apply H. rewrite size_SDict. lia.
  - unfold validate_list.
    apply no_runtime_error_seq; [apply no_runtime_error_assert_json_type|].
    apply no_runtime_error_seq; [destruct (List.length l =? 1)%nat; discriminate|].
    apply no_runtime_error_for_enumerate. intros j x.
    destruct l as [|e l]; [discriminate|].
    apply H. rewrite size_SList. simpl. lia.
  - destruct (truthy v); [|discriminate]. apply H. simpl. lia.
  - discriminate.
  - apply no_runtime_error_assert_json_type.
  - destruct v; try discriminate; unfold assert_json; destruct (m s); discriminate.
  - discriminate.
Qed.

(** [do_validate] returns or raises one of the exceptions of the source:
    the recursion always ends within the depth it is given. *)
Lemma do_validate_total {O : PyOrder} (s : schema) (v : json) (p : path) :
  no_runtime_error (do_validate s v p).
Proof.
  remember (size s) as n eqn:Hn. revert s v p Hn.
  induction n as [n IH] using lt_wf_ind. intros s v p ->.
  rewrite do_validate_unfold. apply no_runtime_error_body.
  intros s' v' p' Hs. now apply (IH (size s')).
Qed.

(** * Further properties of the code *)

(** ** What a loop that returns has done *)

Lemma for_each_Return_iff {A : Type} (l : list A) (f : A -> result) :
  for_each l f = Return <-> forall x, In x l -> f x = Return.
Proof.
  induction l as [|x l IH]; simpl.
  - split; [intros _ y []|reflexivity].
  - destruct (f x) eqn:Hx; simpl.
    + rewrite IH. split.
      * intros H y [<-|Hy]; [exact Hx|now apply H].
      * intros H y Hy. apply H. now right.
    + split; [discriminate|]. intros H. specialize (H x (or_introl eq_refl)).
      congruence.
Qed.

Lemma for_each_first_failure {A : Type} (pre post : list A) (x : A)
      (f : A -> result) (e : exn) :
  (forall y, In y pre -> f y = Return) -> f x = Raise e ->
  for_each (pre ++ x :: post) f = Raise e.
Proof.
  intros Hpre Hx. rewrite for_each_app.
  rewrite (proj2 (for_each_Return_iff pre f) Hpre). simpl. now rewrite Hx.
Qed.

Lemma for_enumerate_Return_iff {A : Type} (l : list A) (i : nat)
      (f : nat -> A -> result) :
  for_enumerate i l f = Return <->
  forall j x, nth_error l j = Some x -> f (i + j) x = Return.
Proof.
  revert i. induction l as [|y l IH]; intros i; simpl.
  - split; [intros _ [|j] x; discriminate|reflexivity].
  - destruct (f i y) eqn:Hy; simpl.
    + rewrite IH. split.
      * intros H [|j] x Hj; simpl in Hj.
        -- injection Hj as <-. now rewrite Nat.add_0_r.
        -- rewrite <- Nat.add_succ_comm. now apply H.
      * intros H j x Hj. rewrite Nat.add_succ_comm. now apply (H (S j)).
    + split; [discriminate|]. intros H.
      specialize (H 0 y eq_refl). rewrite Nat.add_0_r in H. congruence.
Qed.

Lemma for_enumerate_first_failure {A : Type} (pre post : list A) (x : A)
      (i : nat) (f : nat -> A -> result) (e : exn) :
  (forall j y, nth_error pre j = Some y -> f (i + j) y = Return) ->
  f (i + List.length pre) x = Raise e ->
  for_enumerate i (pre ++ x :: post) f = Raise e.
Proof.
  revert i. induction pre as [|y pre IH]; intros i Hpre Hx; simpl.
  - simpl in Hx. rewrite Nat.add_0_r in Hx. now rewrite Hx.
  - pose proof (Hpre 0 y eq_refl) as Hy. rewrite Nat.add_0_r in Hy.
    rewrite Hy. simpl. apply IH.
    + intros j z Hj. rewrite Nat.add_succ_comm. now apply (Hpre (S j)).
    + rewrite Nat.add_succ_comm. exact Hx.
Qed.

(** ** What acceptance means *)

Lemma ex_Some_eq {A : Type} (a : A) (P : A -> Prop) :
  (exists x, Some a = Some x /\ P x) <-> P a.
Proof.
  split; [intros [x [[= <-] H]]; exact H|intros H; eauto].
Qed.

Lemma required_step_Return_iff (rec : schema -> json -> path -> result)
      (w : wrapper) (d : list (string * json)) (p : path) (k : string) :
  required_step rec w (JDict d) p k = Return <->
  exists s, getitem w k = Some s /\
            match assoc d k with
            | Some v => rec s v (PKey p k) = Return
            | None => is_optional s = true
            end.
Proof.
  unfold required_step, validate_at, assert_json. simpl.
  destruct (getitem w k) as [s|].
  - rewrite ex_Some_eq.
    destruct (is_optional s), (assoc d k) as [v|]; simpl; try tauto.
    split; discriminate.
  - split; [discriminate|]. intros [s [H _]]. discriminate.
Qed.

Lemma one_of_step_Return_iff (rec : schema -> json -> path -> result)
      (w : wrapper) (d : list (string * json)) (p : path) (g : list string) :
  one_of_step rec w (JDict d) p g = Return <->
  exists k s v,
    filter (fun key => py_in key (JDict d)) g = [k] /\
    getitem w k = Some s /\ assoc d k = Some v /\
    rec s v (PKey p k) = Return.
Proof.
  unfold one_of_step, validate_at. cbv zeta.
  destruct (filter (fun key => py_in key (JDict d)) g) as [|k [|k' r]].
  - split; [discriminate|]. intros [k [s [v [H _]]]]. discriminate.
  - cbn [py_subscript]. destruct (getitem w k) as [s|] eqn:Hg.
    + destruct (assoc d k) as [v|] eqn:Hv.
      * split.
        -- intros H. exists k, s, v. repeat split; auto.
        -- intros [k0 [s0 [v0 [[= <-] [Hg0 [Hv0 H]]]]]]. congruence.
      * split; [discriminate|].
        intros [k0 [s0 [v0 [[= <-] [_ [Hv0 _]]]]]]. congruence.
    + split; [discriminate|].
      intros [k0 [s0 [v0 [[= <-] [H _]]]]]. congruence.
  - split; [discriminate|]. intros [k0 [s [v [H _]]]]. discriminate.
Qed.

Lemma atleast_one_step_Return_iff (rec : schema -> json -> path -> result)
      (w : wrapper) (d : list (string * json)) (p : path) (g : list string) :
  atleast_one_step rec w (JDict d) p g = Return <->
  exists k r s v,
    filter (fun key => py_in key (JDict d)) g = k :: r /\
    getitem w k = Some s /\ assoc d k = Some v /\
    rec s v (PKey p k) = Return.
Proof.
  unfold atleast_one_step, validate_at. cbv zeta.
  destruct (filter (fun key => py_in key (JDict d)) g) as [|k r].
  - split; [discriminate|]. intros [k [r [s [v [H _]]]]]. discriminate.
  - cbn [py_subscript]. destruct (getitem w k) as [s|] eqn:Hg.
    + destruct (assoc d k) as [v|] eqn:Hv.
      * split.
        -- intros H. exists k, r, s, v. repeat split; auto.
        -- intros [k0 [r0 [s0 [v0 [[= <- <-] [Hg0 [Hv0 H]]]]]]]. congruence.
      * split; [discriminate|].
        intros [k0 [r0 [s0 [v0 [[= <- <-] [_ [Hv0 _]]]]]]]. congruence.
    + split; [discriminate|].
      intros [k0 [r0 [s0 [v0 [[= <- <-] [H _]]]]]]. congruence.
Qed.

Lemma accepts_wrapper_iff {O : PyOrder} (w : wrapper)
        (d : list (string * json)) (p : path) :
  do_validate (SWrapper w) (JDict d) p = Return <->
  (forall k, In k (required_keys w) ->
     exists s, getitem w k = Some s /\
               match assoc d k with
               | Some v => do_validate s v (PKey p k) = Return
               | None => is_optional s = true
               end) /\
  (forall g, In g (one_of_keys w) ->
     exists k s v,
       filter (fun key => py_in key (JDict d)) g = [k] /\
       getitem w k = Some s /\ assoc d k = Some v /\
       do_validate s v (PKey p k) = Return) /\
  (forall g, In g (atleast_one_keys w) ->
     exists k r s v,
       filter (fun key => py_in key (JDict d)) g = k :: r /\
       getitem w k = Some s /\ assoc d k = Some v /\
       do_validate s v (PKey p k) = Return).
Proof.
  rewrite do_validate_SWrapper. unfold validate_wrapper.
  rewrite assert_json_type_dict. cbn [seq_result].
  split.
  - intros H.
    destruct (for_each (required_keys w) _) eqn:H1; [|discriminate].
    cbn [seq_result] in H.
    destruct (for_each (one_of_keys w) _) eqn:H2; [|discriminate].
    cbn [seq_result] in H.
    rewrite for_each_Return_iff in H1. rewrite for_each_Return_iff in H2.
    rewrite for_each_Return_iff in H.
    repeat split.
    + intros k Hk. now apply required_step_Return_iff, H1.
    + intros g Hg. now apply one_of_step_Return_iff, H2.
    + intros g Hg. now apply atleast_one_step_Return_iff, H.
  - intros [H1 [H2 H3]].
    rewrite (proj2 (for_each_Return_iff _ _)); cbn [seq_result].
    2:{ intros k Hk. now apply required_step_Return_iff, H1. }
    rewrite (proj2 (for_each_Return_iff _ _)); cbn [seq_result].
    2:{ intros g Hg. now apply one_of_step_Return_iff, H2. }
    apply for_each_Return_iff. intros g Hg.
    now apply atleast_one_step_Return_iff, H3.
Qed.

(** X1: [do_validate] accepts a client dict against a wrapper exactly
    when every required key resolves to a structure and is present with
    a value that validates at the path of the key (or is absent and
    [optional]), every one-of group has exactly one key in the dict and
    its value validates, and every at-least-one group has a key in the
    dict and the value of the first one validates. *)
Theorem wrapper_accepts_iff {O : PyOrder} (w : wrapper)
        (d : list (string * json)) (p : path) :
  do_validate (SWrapper w) (JDict d) p = Return <->
  (forall k, In k (required_keys w) ->
     exists s, getitem w k = Some s /\
               match assoc d k with
               | Some v => do_validate s v (PKey p k) = Return
               | None => is_optional s = true
               end) /\
  (forall g, In g (one_of_keys w) ->
     exists k s v,
       filter (fun key => py_in key (JDict d)) g = [k] /\
       getitem w k = Some s /\ assoc d k = Some v /\
       do_validate s v (PKey p k) = Return) /\
  (forall g, In g (atleast_one_keys w) ->
     exists k r s v,
       filter (fun key => py_in key (JDict d)) g = k :: r /\
       getitem w k = Some s /\ assoc d k = Some v /\
       do_validate s v (PKey p k) = Return).
Proof. apply accepts_wrapper_iff. Qed.

Lemma getitem_required (fields : list (string * schema)) (k : string) :
  getitem (required fields) k = assoc fields k.
Proof. unfold required. rewrite getitem_eq. now destruct (assoc fields k). Qed.

Lemma required_keys_required {O : PyOrder} {laws : PyOrderLaws O}
      (fields : list (string * schema)) (k : string) :
  In k (required_keys (required fields)) <-> In k (map fst fields).
Proof.
  change (required_keys (required fields))
    with (set_list (keys fields ++ [])).
  now rewrite set_list_In, app_nil_r, keys_In.
Qed.

(** X2: a plain dict structure accepts a client dict exactly when, for
    every field of the structure, the client has the key with a value
    that validates against the field at the path of the key, or lacks
    the key and the field is [optional]; keys outside the structure play
    no part. *)
Theorem dict_accepts_iff {O : PyOrder} {laws : PyOrderLaws O}
        (fields : list (string * schema)) (d : list (string * json)) (p : path) :
  do_validate (SDict fields) (JDict d) p = Return <->
  forall k s, assoc fields k = Some s ->
              match assoc d k with
              | Some v => do_validate s v (PKey p k) = Return
              | None => is_optional s = true
              end.
Proof.
  rewrite (do_validate_unfold (SDict fields)). simpl do_validate_body.
  rewrite accepts_wrapper_iff. split.
  - intros [H _] k s Hk.
    destruct (H k) as [s' [Hs' Hv]].
    + apply required_keys_required, assoc_Some_In. eauto.
    + rewrite getitem_required, Hk in Hs'. injection Hs' as <-. exact Hv.
  - intros H. split; [|split].
    + intros k Hk. apply required_keys_required, assoc_Some_In in Hk.
      destruct Hk as [s Hs]. exists s. rewrite getitem_required.
      split; [exact Hs|now apply H].
    + intros g [].
    + intros g [].
Qed.

Lemma dict_accepts_iff_witness :
  do_validate (O := sorted_order)
    (SDict [("foo", SType T_int); ("bar", SOptional (SType T_int))])
    (JDict [("foo", JInt 1); ("baz", JNone)]) client_json_path = Return.
Proof.
  apply (@dict_accepts_iff sorted_order _).
  intros k s. cbn [assoc].
  destruct (String.eqb_spec "foo" k) as [<-|_]; cbv beta iota;
    [intros [= <-]; reflexivity|].
  destruct (String.eqb_spec "bar" k) as [<-|_]; cbv beta iota;
    [intros [= <-]; reflexivity|].
  discriminate.
Defined.

(** ** Lists *)

(** X3: a one-element list structure accepts a client list exactly when
    every element validates against the element structure at the path
    of its index; the empty list is accepted. *)
Theorem list_accepts_iff {O : PyOrder} (element : schema) (xs : list json)
        (p : path) :
  (do_validate (SList [element]) (JList xs) p = Return <->
   forall i x, nth_error xs i = Some x ->
               do_validate element x (PIndex p i) = Return) /\
  do_validate (SList [element]) (JList []) p = Return.
Proof.
  split; [|reflexivity].
  rewrite do_validate_SList_one, for_enumerate_Return_iff. reflexivity.
Qed.

(** X4: validation of a list stops at the first element that does not
    validate: when the elements before index [i] validate and the
    element at [i] raises, the list raises that exception, raised at
    the path of index [i], whatever follows. *)
Theorem list_first_failure {O : PyOrder} (element : schema)
        (pre post : list json) (x : json) (p : path) (e : exn) :
  (forall j y, nth_error pre j = Some y ->
               do_validate element y (PIndex p j) = Return) ->
  do_validate element x (PIndex p (List.length pre)) = Raise e ->
  do_validate (SList [element]) (JList (pre ++ x :: post)) p = Raise e.
Proof.
  intros Hpre Hx. rewrite do_validate_SList_one.
  now apply for_enumerate_first_failure.
Qed.

Lemma list_first_failure_witness :
  do_validate (O := sorted_order) (SList [SType T_str])
    (JList [JStr "a"; JStr "b"; JInt 1; JNone; JInt 2]) client_json_path =
  Raise (JSONException
           (Type_error (PIndex client_json_path 2) (JInt 1) T_str)).
Proof.
  apply (@list_first_failure sorted_order (SType T_str)
           [JStr "a"; JStr "b"] [JNone; JInt 2] (JInt 1)).
  - intros [|[|[|j]]] y; simpl; intros [= <-]; reflexivity.
  - reflexivity.
Defined.

(** ** Where a result comes from *)

Section FromCall.
Variable rec : schema -> json -> path -> result.
Variables (s : schema) (v : json) (p : path).

Lemma seq_from_call (a a' b b' : result) :
  a = a' \/ from_call rec s v p a -> b = b' \/ from_call rec s v p b ->
  a ;; b = a' ;; b' \/ from_call rec s v p (a ;; b).
Proof.
  intros [<-|Ha] Hb.
  - destruct a; simpl; [exact Hb|now left].
  - right. destruct a as [|e]; [now destruct Ha|exact Ha].
Qed.

Lemma seq_from_call_after (a b b' : result) :
  (a = Return -> b = b' \/ from_call rec s v p b) ->
  a ;; b = a ;; b' \/ from_call rec s v p (a ;; b).
Proof. intros H. destruct a; simpl; [now apply H|now left]. Qed.

Lemma for_each_from_call {A : Type} (l : list A) (f g : A -> result) :
  (forall x, In x l -> f x = g x \/ from_call rec s v p (f x)) ->
  for_each l f = for_each l g \/ from_call rec s v p (for_each l f).
Proof.
  induction l as [|x l IH]; intros H; simpl; [now left|].
  apply seq_from_call; [apply H; now left|].
  apply IH. intros y Hy. apply H. now right.
Qed.

Lemma for_enumerate_from_call {A : Type} (l : list A) (i : nat)
      (f g : nat -> A -> result) :
  (forall j x, nth_error l j = Some x ->
               f (i + j) x = g (i + j) x \/ from_call rec s v p (f (i + j) x)) ->
  for_enumerate i l f = for_enumerate i l g \/ from_call rec s v p (for_enumerate i l f).
Proof.
  revert i. induction l as [|x l IH]; intros i H; simpl; [now left|].
  apply seq_from_call.
  - specialize (H 0 x eq_refl). now rewrite Nat.add_0_r in H.
  - apply IH. intros j y Hj. rewrite Nat.add_succ_comm. now apply (H (S j)).
Qed.
End FromCall.

Lemma validate_at_from_call (rec : schema -> json -> path -> result)
      (w : wrapper) (v : json) (p : path) (k : string) (s' : schema) :
  getitem w k = Some s' ->
  validate_at rec s' v p k = validate_at (fun _ _ _ => Return) s' v p k \/
  from_call rec (SWrapper w) v p (validate_at rec s' v p k).
Proof.
  intros Hg. unfold validate_at.
  destruct v as [| | | | | | | |d]; simpl; try now left.
  destruct (assoc d k) as [x|] eqn:Hx; [|now left].
  destruct (rec s' x (PKey p k)) as [|e] eqn:Hr; [now left|].
  right. split; [discriminate|].
  exists s', x, (PKey p k). split; [now constructor|now rewrite Hr].
Qed.

(** A result of one level of [do_validate] is the result of its own
    checks or an exception raised by one of its recursive calls. *)
Lemma do_validate_body_from_call {O : PyOrder}
      (rec : schema -> json -> path -> result) (s : schema) (v : json) (p : path) :
  do_validate_body rec s v p = local_checks s v p \/
  from_call rec s v p (do_validate_body rec s v p).
Proof.
  unfold local_checks.
  destruct s as [w|d|l|s0| |t|pat m|r]; simpl do_validate_body;
    try (now left).
  - unfold validate_wrapper.
    apply seq_from_call; [now left|].
    apply seq_from_call; [|apply seq_from_call].
    + apply for_each_from_call. intros k _. unfold required_step.
      destruct (getitem w k) as [s'|] eqn:Hg; [|now left].
      pose proof (validate_at_from_call rec w v p k s' Hg) as Hv.
      destruct (negb (is_optional s')).
      * apply seq_from_call; [now left|exact Hv].
      * destruct (py_in k v); [exact Hv|now left].
    + apply for_each_from_call. intros g _. unfold one_of_step.
      destruct (filter _ g) as [|k [|k' r]]; try (now left).
      destruct (getitem w k) as [s'|] eqn:Hg; [|now left].
      now apply validate_at_from_call.
    + apply for_each_from_call. intros g _. unfold atleast_one_step.
      destruct (filter _ g) as [|k r]; try (now left).
      destruct (getitem w k) as [s'|] eqn:Hg; [|now left].
      now apply validate_at_from_call.
  - destruct (rec (SWrapper (required d)) v p) as [|e] eqn:Hr; [now left|].
    right. split; [discriminate|].
    exists (SWrapper (required d)), v, p. split; [constructor|now rewrite Hr].
  - unfold validate_list.
    apply seq_from_call_after. intros Ht.
    apply seq_from_call_after. intros Hl.
    destruct v as [| | | | | | |xs|]; try discriminate. simpl items.
    destruct l as [|element [|e2 l]]; try discriminate.
    apply for_enumerate_from_call. intros j x Hj. simpl.
    destruct (rec element x (PIndex p j)) as [|e] eqn:Hr; [now left|].
    right. split; [discriminate|].
    exists element, x, (PIndex p j). split; [now constructor|now rewrite Hr].
  - destruct (truthy v) eqn:Htr; [|now left].
    destruct (rec s0 v p) as [|e] eqn:Hr; [now left|].
    right. split; [discriminate|].
    exists s0, v, p. split; [now constructor|now rewrite Hr].
Qed.

Lemma sub_call_size (s : schema) (v : json) (p : path)
      (s' : schema) (v' : json) (p' : path) :
  sub_call s v p s' v' p' -> size s' < size s.
Proof.
  intros H. destruct H as [d v p|s v p _|element xs i x p _|w d k s x p Hg _].
  - rewrite size_SDict. lia.
  - simpl. lia.
  - rewrite size_SList. simpl. lia.
  - apply getitem_size in Hg. simpl. lia.
Qed.

Lemma sub_call_path (s : schema) (v : json) (p : path)
      (s' : schema) (v' : json) (p' : path) :
  sub_call s v p s' v' p' -> path_extends p p'.
Proof. intros H. destruct H; repeat constructor. Qed.

(** Induction on where the result of [do_validate] comes from: a
    property holds of every result when it holds of the checks of each
    level and is passed up from the recursive call that raised. *)
Lemma do_validate_result_ind {O : PyOrder}
      (P : schema -> json -> path -> result -> Prop) :
  (forall s v p, P s v p (local_checks s v p)) ->
  (forall s v p s' v' p' e,
      sub_call s v p s' v' p' ->
      do_validate s' v' p' = Raise e ->
      P s' v' p' (Raise e) -> P s v p (Raise e)) ->
  forall s v p, P s v p (do_validate s v p).
Proof.
  intros Hlocal Hup s. remember (size s) as n eqn:Hn. revert s Hn.
  induction n as [n IH] using lt_wf_ind. intros s -> v p.
  rewrite do_validate_unfold.
  destruct (do_validate_body_from_call do_validate s v p)
    as [->|[Hne [s' [v' [p' [Hsub Hr]]]]]]; [apply Hlocal|].
  rewrite Hr in *. destruct (do_validate s' v' p') as [|e] eqn:He;
    [contradiction|].
  apply (Hup s v p s' v' p' e Hsub He). rewrite <- He.
  apply (IH (size s')); [now apply (sub_call_size _ _ _ _ _ _ Hsub)|reflexivity].
Qed.

(** ** The checks of one level *)

Lemma seq_all (Q : result -> Prop) (a b : result) :
  Q a -> Q b -> Q (a ;; b).
Proof. intros Ha Hb. now destruct a. Qed.

Lemma for_each_all {A : Type} (Q : result -> Prop) (l : list A)
      (f : A -> result) :
  Q Return -> (forall x, In x l -> Q (f x)) -> Q (for_each l f).
Proof.
  intros HR. induction l as [|x l IH]; intros H; simpl; [exact HR|].
  apply seq_all; [apply H; now left|].
  apply IH. intros y Hy. apply H. now right.
Qed.

Lemma for_enumerate_all {A : Type} (Q : result -> Prop) (l : list A) (i : nat)
      (f : nat -> A -> result) :
  Q Return -> (forall j x, Q (f j x)) -> Q (for_enumerate i l f).
Proof.
  intros HR H. revert i. induction l as [|x l IH]; intros i; simpl; [exact HR|].
  apply seq_all; [apply H|apply IH].
Qed.

(** What the checks of one level can give. *)
Lemma local_checks_all {O : PyOrder} (Q : result -> Prop)
      (s : schema) (v : json) (p : path) :
  Q Return ->
  (forall t, Q (assert_json_type t v p)) ->
  (forall e, error_path e = p -> Q (Raise (JSONException e))) ->
  (forall k, Q (Raise (KeyError k))) ->
  (plain_schema s = false -> forall m, Q (Raise (TypeError m))) ->
  (plain_schema s = false -> forall m, Q (Raise (AssertionError m))) ->
  Q (local_checks s v p).
Proof.
  intros HR Ht Hj Hk Hty Has. unfold local_checks.
  assert (Hat : forall s' k, Q (validate_at (fun _ _ _ => Return) s' v p k)).
  { intros s' k. unfold validate_at. now destruct (py_subscript v k). }
  destruct s as [w|d|l|s0| |t|pat m|r]; simpl do_validate_body.
  - unfold validate_wrapper. apply seq_all; [apply Ht|].
    apply seq_all; [|apply seq_all]; apply for_each_all; try exact HR.
    + intros k _. unfold required_step.
      destruct (getitem w k) as [s'|]; [|apply Hk].
      destruct (negb (is_optional s')).
      * apply seq_all; [|apply Hat]. unfold assert_json.
        destruct (py_in k v); [exact HR|now apply Hj].
      * destruct (py_in k v); [apply Hat|exact HR].
    + intros g _. unfold one_of_step.
      destruct (filter _ g) as [|k [|k' r]]; try (now apply Hj).
      destruct (getitem w k) as [s'|]; [apply Hat|apply Hk].
    + intros g _. unfold atleast_one_step.
      destruct (filter _ g) as [|k r]; try (now apply Hj).
      destruct (getitem w k) as [s'|]; [apply Hat|apply Hk].
  - exact HR.
  - unfold validate_list. apply seq_all; [apply Ht|].
    destruct l as [|element [|e2 l]]; simpl.
    + now apply Has.
    + now apply for_enumerate_all.
    + now apply Has.
  - now destruct (truthy v).
  - exact HR.
  - apply Ht.
  - destruct v; try (now apply Hty).
    + unfold assert_json. destruct (m s); [exact HR|now apply Hj].
    + unfold assert_json. destruct (m s); [exact HR|now apply Hj].
  - now apply Hty.
Qed.

Lemma assert_json_type_raises (t : pytype) (v : json) (p : path) :
  assert_json_type t v p = Return \/
  assert_json_type t v p = Raise (JSONException (Type_error p v t)) \/
  (t = T_int /\ exists sg,
     v = JFloat (S754_infinity sg) /\
     assert_json_type t v p =
       Raise (OverflowError "cannot convert float infinity to integer")) \/
  (t = T_int /\ v = JFloat S754_nan /\
   assert_json_type t v p =
     Raise (ValueError "cannot convert float NaN to integer")).
Proof.
  destruct v as [|b|n|n|f|x|x|l|d]; try (destruct t; simpl; now auto).
  destruct t; try (simpl; now auto).
  destruct f as [sg|sg| |sg m e].
  - now left.
  - right. right. left. split; [reflexivity|]. now exists sg.
  - right. right. right. now repeat split.
  - rewrite assert_json_type_int_finite. destruct (float_is_integral m e); auto.
Qed.

(** ** Paths of the errors *)

Lemma path_extends_trans (p q r : path) :
  path_extends p q -> path_extends q r -> path_extends p r.
Proof. intros Hpq Hqr. induction Hqr; [exact Hpq| |]; now constructor. Qed.

Lemma raises_under_do_validate {O : PyOrder} (s : schema) (v : json) (p : path)
        (e : json_error) :
  do_validate s v p = Raise (JSONException e) ->
  path_extends p (error_path e).
Proof.
  revert e. change (raises_under p (do_validate s v p)).
  apply (do_validate_result_ind (fun _ _ p r => raises_under p r)).
  - clear s v p. intros s v p.
    apply local_checks_all; unfold raises_under.
    + intros e He. discriminate.
    + intros t e He.
      destruct (assert_json_type_raises t v p)
        as [H|[H|[[_ [sg [_ H]]]|[_ [_ H]]]]]; rewrite H in He;
        try discriminate.
      injection He as <-. constructor.
    + intros e <- e' [= <-]. constructor.
    + intros k e He. discriminate.
    + intros _ m e He. discriminate.
    + intros _ m e He. discriminate.
  - clear s v p. intros s v p s' v' p' e Hsub _ IH e' He'.
    apply (path_extends_trans p p'); [now apply (sub_call_path _ _ _ _ _ _ Hsub)|].
    now apply IH.
Qed.

(** ** The exceptions that leave [do_validate] *)

Lemma local_checks_no_KeyError {O : PyOrder} {laws : PyOrderLaws O}
      (s : schema) (v : json) (p : path) (k : string) :
  local_checks s v p <> Raise (KeyError k).
Proof.
  unfold local_checks.
  destruct s as [w|d|l|s0| |t|pat m|r]; simpl do_validate_body;
    try discriminate.
  - unfold validate_wrapper.
    destruct v as [| | | | | | | |d]; try discriminate.
    rewrite assert_json_type_dict. cbn [seq_result].
    assert (Hat : forall s' key,
               py_in key (JDict d) = true ->
               validate_at (fun _ _ _ => Return) s' (JDict d) p key = Return).
    { intros s' key Hin. apply py_in_assoc in Hin. destruct Hin as [x Hx].
      now rewrite (validate_at_Some _ _ _ _ _ _ Hx). }
    apply seq_all; [|apply seq_all]; apply for_each_all; try discriminate.
    + intros key Hkey. apply required_keys_mentioned, getitem_mentioned in Hkey.
      destruct Hkey as [s' Hs']. unfold required_step. rewrite Hs'.
      destruct (py_in key (JDict d)) eqn:Hin.
      * rewrite (Hat s' key Hin). now destruct (negb (is_optional s')).
      * now destruct (negb (is_optional s')).
    + intros g Hg. unfold one_of_step.
      destruct (filter _ g) as [|key [|k' r]] eqn:Hf; try discriminate.
      assert (Hin : In key (filter (fun key => py_in key (JDict d)) g))
        by (rewrite Hf; now left).
      apply filter_In in Hin. destruct Hin as [Hkey Hin].
      apply (one_of_keys_mentioned w g key Hg), getitem_mentioned in Hkey.
      destruct Hkey as [s' Hs']. rewrite Hs', (Hat s' key Hin). discriminate.
    + intros g Hg. unfold atleast_one_step.
      destruct (filter _ g) as [|key r] eqn:Hf; try discriminate.
      assert (Hin : In key (filter (fun key => py_in key (JDict d)) g))
        by (rewrite Hf; now left).
      apply filter_In in Hin. destruct Hin as [Hkey Hin].
      apply (atleast_one_keys_mentioned w g key Hg), getitem_mentioned in Hkey.
      destruct Hkey as [s' Hs']. rewrite Hs', (Hat s' key Hin). discriminate.
  - unfold validate_list. apply seq_all; [|apply seq_all].
    + destruct (assert_json_type_raises T_list v p)
        as [H|[H|[[_ [sg [_ H]]]|[_ [_ H]]]]]; rewrite H; discriminate.
    + destruct (List.length l =? 1)%nat; discriminate.
    + apply for_enumerate_all; [discriminate|]. intros j x.
      destruct l; discriminate.
  - destruct (truthy v); discriminate.
  - destruct (assert_json_type_raises t v p)
      as [H|[H|[[_ [sg [_ H]]]|[_ [_ H]]]]]; rewrite H; discriminate.
  - destruct v; try discriminate; unfold assert_json; destruct (m s); discriminate.
Qed.

(** X7: [do_validate] never raises [KeyError]: the keys it looks up in
    the structure are keys of the structure or of an addend, and a key
    is read from the client dict only after it was found in it. *)
Theorem do_validate_no_KeyError {O : PyOrder} {laws : PyOrderLaws O}
        (s : schema) (v : json) (p : path) (k : string) :
  do_validate s v p <> Raise (KeyError k).
Proof.
  apply (do_validate_result_ind (fun _ _ _ r => r <> Raise (KeyError k))).
  - intros s0 v0 p0. apply local_checks_no_KeyError.
  - intros s0 v0 p0 s' v' p' e _ _ H. exact H.
Qed.

Lemma do_validate_no_KeyError_witness :
  do_validate (O := sorted_order) (SWrapper doctest_structure) (JDict [])
              client_json_path <> Raise (KeyError "h").
Proof. apply (@do_validate_no_KeyError sorted_order _). Defined.

Lemma plain_schema_SDict (d : list (string * schema)) :
  plain_schema (SDict d) = forallb (fun kv => plain_schema (snd kv)) d.
Proof.
  simpl. induction d as [|[k s] d IH]; simpl; [reflexivity|]. now rewrite IH.
Qed.

Lemma plain_wrapper_eq (c : wrapper_class) (d : list (string * schema))
      (a : list wrapper) :
  plain_wrapper (Wrapper c d a) =
  forallb (fun kv => plain_schema (snd kv)) d && forallb plain_wrapper a.
Proof.
  simpl. f_equal.
  induction d as [|[k s] d IH]; simpl; [reflexivity|]. now rewrite IH.
Qed.

Lemma finite_json_JList (l : list json) :
  finite_json (JList l) = forallb finite_json l.
Proof.
  simpl. induction l as [|x l IH]; simpl; [reflexivity|]. now rewrite IH.
Qed.

Lemma finite_json_JDict (d : list (string * json)) :
  finite_json (JDict d) = forallb (fun kv => finite_json (snd kv)) d.
Proof.
  simpl. induction d as [|[k x] d IH]; simpl; [reflexivity|]. now rewrite IH.
Qed.

Lemma assoc_forallb {V : Type} (f : V -> bool) (d : list (string * V))
      (k : string) (x : V) :
  forallb (fun kv => f (snd kv)) d = true -> assoc d k = Some x -> f x = true.
Proof.
  induction d as [|[k' x'] d IH]; simpl; [discriminate|].
  intros H. apply andb_prop in H. destruct H as [Hx Hd].
  destruct (k' =? k); [intros [= <-]; exact Hx|now apply IH].
Qed.

Lemma getitem_plain (w : wrapper) (k : string) (s : schema) :
  plain_wrapper w = true -> getitem w k = Some s -> plain_schema s = true.
Proof.
  revert s. induction w as [c d a IH] using wrapper_induction. intros s.
  rewrite plain_wrapper_eq, getitem_eq. intros H.
  apply andb_prop in H. destruct H as [Hd Ha].
  destruct (assoc d k) as [s0|] eqn:Hk.
  - intros [= <-]. exact (assoc_forallb plain_schema d k s0 Hd Hk).
  - clear Hk Hd. induction IH as [|w a Hw _ IHa]; simpl; [discriminate|].
    simpl in Ha. apply andb_prop in Ha. destruct Ha as [Hpw Hpa].
    destruct (getitem w k) as [s0|].
    + intros [= <-]. now apply Hw.
    + now apply IHa.
Qed.

Lemma sub_call_plain (s : schema) (v : json) (p : path)
      (s' : schema) (v' : json) (p' : path) :
  sub_call s v p s' v' p' -> plain_schema s = true -> plain_schema s' = true.
Proof.
  intros H. destruct H as [d v p|s v p _|element xs i x p _|w d k s x p Hg _].
  - rewrite plain_schema_SDict. intros H.
    change (plain_schema (SWrapper (required d)))
      with (plain_wrapper (Wrapper Required d [])).
    rewrite plain_wrapper_eq, H. reflexivity.
  - tauto.
  - tauto.
  - intros H. now apply (getitem_plain w k).
Qed.

Lemma sub_call_finite (s : schema) (v : json) (p : path)
      (s' : schema) (v' : json) (p' : path) :
  sub_call s v p s' v' p' -> finite_json v = true -> finite_json v' = true.
Proof.
  intros H. destruct H as [d v p|s v p _|element xs i x p Hx|w d k s x p _ Hx];
    try tauto.
  - rewrite finite_json_JList, forallb_forall. intros H.
    apply H. now apply (nth_error_In xs i).
  - rewrite finite_json_JDict. intros H.
    exact (assoc_forallb finite_json d k x H Hx).
Qed.

Lemma assert_json_type_finite (t : pytype) (v : json) (p : path) :
  finite_json v = true -> client_fault_only (assert_json_type t v p).
Proof.
  intros Hv.
  destruct (assert_json_type_raises t v p)
    as [H|[H|[[_ [sg [Hinf _]]]|[_ [Hnan _]]]]].
  - now rewrite H.
  - now rewrite H.
  - subst v. discriminate.
  - subst v. discriminate.
Qed.

Lemma client_fault_only_plain {O : PyOrder} {laws : PyOrderLaws O}
        (s : schema) (v : json) (p : path) :
  plain_schema s = true -> finite_json v = true ->
  client_fault_only (do_validate s v p).
Proof.
  apply (do_validate_result_ind
           (fun s v _ r => plain_schema s = true -> finite_json v = true ->
                           client_fault_only r)).
  - clear s v p. intros s v p Hs Hv.
    pose proof (local_checks_no_KeyError s v p) as Hk.
    revert Hk.
    apply (local_checks_all
             (fun r => (forall k, r <> Raise (KeyError k)) ->
                       client_fault_only r)); simpl; try tauto.
    + intros t _. now apply assert_json_type_finite.
    + intros k H. now destruct (H k).
    + congruence.
    + congruence.
  - clear s v p. intros s v p s' v' p' e Hsub _ IH Hs Hv.
    apply IH.
    + exact (sub_call_plain _ _ _ _ _ _ Hsub Hs).
    + exact (sub_call_finite _ _ _ _ _ _ Hsub Hv).
Qed.

(** X8: for a structure made of wrappers, dicts, one-element lists,
    [optional], [anytype] and builtin types, and a client value without
    infinities or NaN, [do_validate] returns or raises [JSONException]:
    no other exception escapes the handlers of the decorators. *)
Theorem plain_schema_client_fault_only {O : PyOrder} {laws : PyOrderLaws O}
        (s : schema) (v : json) (p : path) :
  plain_schema s = true -> finite_json v = true ->
  client_fault_only (do_validate s v p).
Proof. apply client_fault_only_plain. Qed.

Lemma plain_schema_client_fault_only_witness :
  client_fault_only
    (do_validate (O := sorted_order)
       (SDict [("a", SType T_int); ("d", SList [SType T_float])])
       (JDict [("a", JLong 5); ("d", JList [])]) client_json_path).
Proof.
  apply (@plain_schema_client_fault_only sorted_order _); reflexivity.
Defined.

(** ** Sums of wrappers *)

Lemma first_addend_app (a1 a2 : list wrapper) (k : string) :
  first_addend (a1 ++ a2) k =
  match first_addend a1 k with
  | Some s => Some s
  | None => first_addend a2 k
  end.
Proof.
  induction a1 as [|w a1 IH]; simpl; [reflexivity|].
  destruct (getitem w k); [reflexivity|exact IH].
Qed.

Lemma getitem_add_eq (a : wrapper) (b : addend_arg) (k : string) :
  getitem (add a b) k =
  match getitem a k with
  | Some s => Some s
  | None => getitem (as_wrapper b) k
  end.
Proof.
  destruct a as [c d ads]. unfold add. simpl cls. simpl json_structure.
  simpl addends. rewrite !getitem_eq, first_addend_app.
  destruct (assoc d k); [reflexivity|].
  destruct (first_addend ads k); [reflexivity|].
  simpl. now destruct (getitem (as_wrapper b) k).
Qed.

(** X9: on [a + b] a key resolves as it does on [a] whenever [a] or one
    of its addends has it, and as it does on [b] otherwise: a sum never
    changes what the keys of its left operand stand for. *)
Theorem getitem_add_left_first (a : wrapper) (b : addend_arg) (k : string) :
  getitem (add a b) k =
  match getitem a k with
  | Some s => Some s
  | None => getitem (as_wrapper b) k
  end.
Proof. apply getitem_add_eq. Qed.

Section SumKeys.
Context {O : PyOrder}.

Lemma one_of_keys_eq (c : wrapper_class) (d : list (string * schema))
      (a : list wrapper) :
  one_of_keys (Wrapper c d a) =
  (match c with One_of => [keys d] | _ => [] end)
    ++ List.concat (map one_of_keys a).
Proof. reflexivity. Qed.

Lemma atleast_one_keys_eq (c : wrapper_class) (d : list (string * schema))
      (a : list wrapper) :
  atleast_one_keys (Wrapper c d a) =
  (match c with Atleast_one => [keys d] | _ => [] end)
    ++ List.concat (map atleast_one_keys a).
Proof. reflexivity. Qed.

Lemma required_keys_eq (c : wrapper_class) (d : list (string * schema))
      (a : list wrapper) :
  required_keys (Wrapper c d a) =
  set_list ((match c with
             | Atleast_one | One_of => []
             | Required | Base => keys d
             end) ++ List.concat (map required_keys a)).
Proof. reflexivity. Qed.

Lemma required_keys_In_iff {laws : PyOrderLaws O} (c : wrapper_class)
      (d : list (string * schema)) (a : list wrapper) (k : string) :
  In k (required_keys (Wrapper c d a)) <->
  In k (match c with
        | Atleast_one | One_of => []
        | Required | Base => keys d
        end) \/ exists w, In w a /\ In k (required_keys w).
Proof.
  rewrite required_keys_eq, set_list_In, in_app_iff, in_concat.
  apply or_iff_compat_l. split.
  - intros [l [Hl Hk]]. apply in_map_iff in Hl. destruct Hl as [w [<- Hw]]. eauto.
  - intros [w [Hw Hk]]. exists (required_keys w). split; [now apply in_map|exact Hk].
Qed.

Lemma keys_of_add {laws : PyOrderLaws O} (a : wrapper) (b : addend_arg) :
  one_of_keys (add a b) = one_of_keys a ++ one_of_keys (as_wrapper b) /\
  atleast_one_keys (add a b) =
    atleast_one_keys a ++ atleast_one_keys (as_wrapper b) /\
  (forall k, In k (required_keys (add a b)) <->
             In k (required_keys a) \/ In k (required_keys (as_wrapper b))).
Proof.
  destruct a as [c d ads]. unfold add. simpl cls. simpl json_structure.
  simpl addends. split; [|split].
  - rewrite !one_of_keys_eq, map_app, concat_app. simpl.
    now rewrite app_nil_r, app_assoc.
  - rewrite !atleast_one_keys_eq, map_app, concat_app. simpl.
    now rewrite app_nil_r, app_assoc.
  - intros k. rewrite !required_keys_In_iff. split.
    + intros [H|[w [Hw Hk]]]; [tauto|].
      apply in_app_or in Hw. destruct Hw as [Hw|[<-|[]]]; [|tauto].
      left. right. eauto.
    + intros [[H|[w [Hw Hk]]]|H]; [tauto| |].
      * right. exists w. split; [apply in_or_app; now left|exact Hk].
      * right. exists (as_wrapper b). split; [|exact H].
        apply in_or_app. right. now left.
Qed.

(** X10: the groups of [a + b] are the groups of [a] followed by the
    groups of [b], for one-of and for at-least-one groups alike, and
    the required keys of [a + b] are those of [a] together with those
    of [b]. *)
Theorem add_keys {laws : PyOrderLaws O} (a : wrapper) (b : addend_arg) :
  one_of_keys (add a b) = one_of_keys a ++ one_of_keys (as_wrapper b) /\
  atleast_one_keys (add a b) =
    atleast_one_keys a ++ atleast_one_keys (as_wrapper b) /\
  (forall k, In k (required_keys (add a b)) <->
             In k (required_keys a) \/ In k (required_keys (as_wrapper b))).
Proof. apply keys_of_add. Qed.
End SumKeys.

Lemma add_keys_witness :
  one_of_keys (O := sorted_order)
    (add (required [("c", SType T_str)]) (AWrapper one_of_a_b)) = [["a"; "b"]].
Proof.
  rewrite (proj1 (@add_keys sorted_order _ (required [("c", SType T_str)])
                            (AWrapper one_of_a_b))).
  reflexivity.
Defined.

(** Two wrappers that resolve every key alike and have the same
    required keys and the same groups accept the same values. *)
Lemma wrapper_accepts_congr {O : PyOrder} (w1 w2 : wrapper) (v : json) (p : path) :
  (forall k, getitem w1 k = getitem w2 k) ->
  (forall k, In k (required_keys w1) <-> In k (required_keys w2)) ->
  (forall g, In g (one_of_keys w1) <-> In g (one_of_keys w2)) ->
  (forall g, In g (atleast_one_keys w1) <-> In g (atleast_one_keys w2)) ->
  do_validate (SWrapper w1) v p = Return <->
  do_validate (SWrapper w2) v p = Return.
Proof.
  intros Hg Hr Ho Ha.
  destruct v as [| | | | | | | |d];
    try (rewrite !do_validate_SWrapper; split; discriminate).
  rewrite !accepts_wrapper_iff.
  assert (H1 : forall P : string -> schema -> Prop,
             (forall k, In k (required_keys w1) ->
                        exists s, getitem w1 k = Some s /\ P k s) <->
             (forall k, In k (required_keys w2) ->
                        exists s, getitem w2 k = Some s /\ P k s)).
  { intros P. split; intros H k Hk.
    - rewrite <- Hg. now apply H, Hr.
    - rewrite Hg. now apply H, Hr. }
  rewrite (H1 (fun k s => match assoc d k with
                          | Some x => do_validate s x (PKey p k) = Return
                          | None => is_optional s = true
                          end)).
  apply and_iff_compat_l. split; intros [H2 H3]; split; intros g Hin.
  - destruct (H2 g (proj2 (Ho g) Hin)) as [k [s [x H]]].
    exists k, s, x. now rewrite <- Hg.
  - destruct (H3 g (proj2 (Ha g) Hin)) as [k [r [s [x H]]]].
    exists k, r, s, x. now rewrite <- Hg.
  - destruct (H2 g (proj1 (Ho g) Hin)) as [k [s [x H]]].
    exists k, s, x. now rewrite Hg.
  - destruct (H3 g (proj1 (Ha g) Hin)) as [k [r [s [x H]]]].
    exists k, r, s, x. now rewrite Hg.
Qed.

(** X11: sums can be regrouped: [(a + b) + c] and [a + (b + c)] accept
    the same client values. *)
Theorem add_assoc_accepts {O : PyOrder} {laws : PyOrderLaws O}
        (a b c : wrapper) (v : json) (p : path) :
  do_validate (SWrapper (add (add a (AWrapper b)) (AWrapper c))) v p = Return <->
  do_validate (SWrapper (add a (AWrapper (add b (AWrapper c))))) v p = Return.
Proof.
  apply wrapper_accepts_congr.
  - intros k. rewrite !getitem_add_eq. simpl as_wrapper.
    rewrite getitem_add_eq. simpl as_wrapper.
    destruct (getitem a k); [reflexivity|]. now destruct (getitem b k).
  - intros k.
    rewrite !(proj2 (proj2 (keys_of_add _ _))). simpl as_wrapper.
    rewrite !(proj2 (proj2 (keys_of_add _ _))). simpl as_wrapper. tauto.
  - intros g. rewrite !(proj1 (keys_of_add _ _)). simpl as_wrapper.
    rewrite !(proj1 (keys_of_add _ _)). simpl as_wrapper.
    now rewrite app_assoc.
  - intros g. rewrite !(proj1 (proj2 (keys_of_add _ _))). simpl as_wrapper.
    rewrite !(proj1 (proj2 (keys_of_add _ _))). simpl as_wrapper.
    now rewrite app_assoc.
Qed.

Lemma add_assoc_accepts_witness :
  do_validate (O := sorted_order)
    (SWrapper (add (required [("c", SType T_str)])
                   (AWrapper (add one_of_a_b (AWrapper atleast_one_a_b)))))
    (JDict [("c", JStr "x"); ("a", JInt 1)]) client_json_path = Return.
Proof.
  apply (@add_assoc_accepts sorted_order _). reflexivity.
Defined.

(** X12: when no key is mentioned by both operands, [a + b] and [b + a]
    accept the same client values. *)
Theorem add_comm_accepts {O : PyOrder} {laws : PyOrderLaws O}
        (a b : wrapper) (v : json) (p : path) :
  (forall k, In k (mentioned_keys a) -> In k (mentioned_keys b) -> False) ->
  do_validate (SWrapper (add a (AWrapper b))) v p = Return <->
  do_validate (SWrapper (add b (AWrapper a))) v p = Return.
Proof.
  intros Hdisj. apply wrapper_accepts_congr.
  - intros k. rewrite !getitem_add_eq. simpl as_wrapper.
    destruct (getitem a k) as [sa|] eqn:Ha, (getitem b k) as [sb|] eqn:Hb;
      try reflexivity.
    exfalso. apply (Hdisj k); apply getitem_mentioned; eauto.
  - intros k. rewrite !(proj2 (proj2 (keys_of_add _ _))). simpl as_wrapper. tauto.
  - intros g. rewrite !(proj1 (keys_of_add _ _)). simpl as_wrapper.
    rewrite !in_app_iff. tauto.
  - intros g. rewrite !(proj1 (proj2 (keys_of_add _ _))). simpl as_wrapper.
    rewrite !in_app_iff. tauto.
Qed.

Lemma add_comm_accepts_witness :
  do_validate (O := sorted_order)
    (SWrapper (add (required [("c", SType T_str)]) (AWrapper one_of_a_b)))
    (JDict [("c", JStr "x"); ("a", JInt 1)]) client_json_path = Return.
Proof.
  apply (@add_comm_accepts sorted_order _ one_of_a_b
           (required [("c", SType T_str)])); [|reflexivity].
  simpl. intros k [<-|[<-|[]]] [H|[]]; discriminate.
Defined.

(** ** Types of the leaves *)

(** X6: [assert_json_type] returns, or raises the type error that
    carries the path, the value and the type it was given; the only
    other outcome is for [int] against an infinite float or a NaN,
    where [int(value)] itself raises [OverflowError] or [ValueError]. *)
Theorem assert_json_type_outcomes (t : pytype) (v : json) (p : path) :
  assert_json_type t v p = Return \/
  assert_json_type t v p = Raise (JSONException (Type_error p v t)) \/
  (t = T_int /\ exists sg,
     v = JFloat (S754_infinity sg) /\
     assert_json_type t v p =
       Raise (OverflowError "cannot convert float infinity to integer")) \/
  (t = T_int /\ v = JFloat S754_nan /\
   assert_json_type t v p =
     Raise (ValueError "cannot convert float NaN to integer")).
Proof. apply assert_json_type_raises. Qed.

(** X13: [str] and [unicode] are interchangeable: each accepts exactly
    the byte strings, the unicode strings and [None]. *)
Theorem text_types_interchangeable {O : PyOrder} (v : json) (p : path) :
  (do_validate (SType T_str) v p = Return <->
   is_text v = true \/ v = JNone) /\
  (do_validate (SType T_unicode) v p = Return <->
   is_text v = true \/ v = JNone).
Proof.
  assert (H : forall t, t = T_str \/ t = T_unicode ->
                        (assert_json_type t v p = Return <->
                         is_text v = true \/ v = JNone)).
  { intros t [-> | ->]; destruct v; cbv;
      (split; [intros H|intros [H|H]]); auto; discriminate. }
  split; rewrite do_validate_SType; apply H; auto.
Qed.

(** X15: the kind of the container is checked first: a value that is
    not a dict raises, against any wrapper and any plain dict, the type
    error for [dict] at the current path, and a value that is not a
    list raises against any list structure the type error for [list],
    whatever the structure holds. *)
Theorem container_kind_first {O : PyOrder} (v : json) (p : path) :
  (isinstance v T_dict = false ->
   (forall w, do_validate (SWrapper w) v p =
              Raise (JSONException (Type_error p v T_dict))) /\
   (forall d, do_validate (SDict d) v p =
              Raise (JSONException (Type_error p v T_dict)))) /\
  (isinstance v T_list = false ->
   forall l, do_validate (SList l) v p =
             Raise (JSONException (Type_error p v T_list))).
Proof.
  split.
  - intros Hv.
    assert (Hw : forall w, do_validate (SWrapper w) v p =
                           Raise (JSONException (Type_error p v T_dict))).
    { intros w. rewrite do_validate_SWrapper. unfold validate_wrapper.
      destruct v; try discriminate; reflexivity. }
    split; [exact Hw|].
    intros d. rewrite do_validate_unfold. simpl. apply Hw.
  - intros Hv l. rewrite do_validate_unfold. simpl. unfold validate_list.
    destruct v; try discriminate; reflexivity.
Qed.

Lemma container_kind_first_witness :
  do_validate (O := sorted_order) (SWrapper doctest_structure)
              (JList [JInt 1]) client_json_path =
    Raise (JSONException (Type_error client_json_path (JList [JInt 1]) T_dict)).
Proof.
  apply (proj1 (@container_kind_first sorted_order (JList [JInt 1])
                                      client_json_path)).
  reflexivity.
Defined.

(** ** Missing keys *)

Lemma for_each_result {A : Type} (l : list A) (f : A -> result) :
  for_each l f = Return \/
  exists x, In x l /\ f x <> Return /\ for_each l f = f x.
Proof.
  induction l as [|x l IH]; simpl; [now left|].
  destruct (f x) as [|e] eqn:Hx; simpl.
  - destruct IH as [IH|[y [Hy [Hne Heq]]]]; [now left|].
    right. exists y. split; [now right|now split].
  - right. exists x. rewrite Hx. split; [now left|]. split; [discriminate|reflexivity].
Qed.

(** X14: when every value the client gives for a field of a plain dict
    structure validates but the client lacks a field that is not
    [optional], [do_validate] raises the key error, at the current
    path, for a missing field that is not [optional]. *)
Theorem missing_key_error {O : PyOrder} {laws : PyOrderLaws O}
        (fields : list (string * schema)) (d : list (string * json)) (p : path) :
  (forall k s x, assoc fields k = Some s -> assoc d k = Some x ->
                 do_validate s x (PKey p k) = Return) ->
  (exists k s, assoc fields k = Some s /\ is_optional s = false /\
               assoc d k = None) ->
  exists k s, assoc fields k = Some s /\ is_optional s = false /\
              assoc d k = None /\
              do_validate (SDict fields) (JDict d) p =
                Raise (JSONException (Key_error p k)).
Proof.
  intros Hok [k0 [s0 [Hk0 [Hopt0 Hmiss0]]]].
  rewrite (do_validate_unfold (SDict fields)). simpl do_validate_body.
  rewrite do_validate_SWrapper. unfold validate_wrapper.
  rewrite assert_json_type_dict. cbn [seq_result].
  change (one_of_keys (required fields)) with (@nil (list string)).
  change (atleast_one_keys (required fields)) with (@nil (list string)).
  cbn [for_each].
  assert (Hstep : forall k,
             required_step do_validate (required fields) (JDict d) p k = Return \/
             (exists s, assoc fields k = Some s /\ is_optional s = false /\
                        assoc d k = None /\
                        required_step do_validate (required fields) (JDict d) p k =
                          Raise (JSONException (Key_error p k))) \/
             assoc fields k = None).
  { intros k. unfold required_step, validate_at, assert_json.
    rewrite getitem_required. simpl py_in. simpl py_subscript.
    destruct (assoc fields k) as [s|] eqn:Hs; [|now right; right].
    destruct (assoc d k) as [x|] eqn:Hx.
    - left. rewrite (Hok k s x Hs Hx). now destruct (negb (is_optional s)).
    - destruct (is_optional s) eqn:Hopt; simpl; [now left|].
      right. left. exists s. now repeat split. }
  destruct (for_each_result (required_keys (required fields))
              (required_step do_validate (required fields) (JDict d) p))
    as [Hret|[k [Hin [Hne Heq]]]].
  - exfalso. rewrite for_each_Return_iff in Hret.
    assert (Hin : In k0 (required_keys (required fields)))
      by (apply required_keys_required, assoc_Some_In; eauto).
    specialize (Hret k0 Hin).
    destruct (Hstep k0) as [H|[[s [Hs [_ [_ H]]]]|H]]; try congruence.
    apply required_step_Return_iff in Hret.
    destruct Hret as [s [Hs Hm]]. rewrite getitem_required in Hs.
    rewrite Hmiss0 in Hm. congruence.
  - rewrite Heq.
    destruct (Hstep k) as [H|[[s [Hs [Hopt [Hmiss H]]]]|H]].
    + contradiction.
    + exists k, s. rewrite H. now repeat split.
    + apply required_keys_required, assoc_Some_In in Hin.
      destruct Hin as [s Hs]. congruence.
Qed.

Lemma missing_key_error_witness :
  exists k s,
    assoc [("a", SType T_str); ("b", SType T_str)] k = Some s /\
    is_optional s = false /\ assoc [("a", JStr "x")] k = None /\
    do_validate (O := sorted_order)
      (SDict [("a", SType T_str); ("b", SType T_str)])
      (JDict [("a", JStr "x")]) client_json_path =
      Raise (JSONException (Key_error client_json_path k)).
Proof.
  apply (@missing_key_error sorted_order _).
  - intros k s x Hs. cbn [assoc].
    destruct (String.eqb_spec "a" k) as [<-|_]; cbv beta iota; [|discriminate].
    intros [= <-]. injection Hs as <-. reflexivity.
  - exists "b", (SType T_str). repeat split.
Defined.

(** ** json_timestamp *)

Lemma json_timestamp_groups_optional (text : string) :
  matches_then json_timestamp_ms
               (matches_then json_timestamp_tz (fun _ => true)) text = true.
Proof.
  unfold json_timestamp_ms, json_timestamp_tz.
  cbn [matches_then]. now rewrite !orb_true_r.
Qed.

Lemma re_match_json_timestamp (text : string) :
  re_match json_timestamp_regex text = has_shape timestamp_shape text.
Proof.
  unfold re_match, json_timestamp_regex, timestamp_shape, seq_all_of.
  cbn [fold_right].
  do 19 (destruct text as [|? text];
         [reflexivity|cbn [matches_then has_shape]; f_equal]).
  apply json_timestamp_groups_optional.
Qed.

Lemma has_shape_append (shape : list atom) (text rest : string) :
  has_shape shape text = true -> has_shape shape (text ++ rest) = true.
Proof.
  revert text. induction shape as [|a shape IH]; intros text; [reflexivity|].
  destruct text as [|c text]; simpl; [discriminate|].
  intros H. apply andb_prop in H. destruct H as [Ha Hs].
  now rewrite Ha, (IH text Hs).
Qed.

(** X18: [json_timestamp] accepts a text exactly when its first
    nineteen characters are [dddd-dd-ddTdd:dd:dd] with decimal digits
    for [d]: the fraction and the zone are optional and, the pattern
    not ending in ['$'], whatever follows is accepted; a text of fewer
    than nineteen characters raises the format error. *)
Theorem json_timestamp_accepts {O : PyOrder} (text : string) (p : path) :
  do_validate json_timestamp (JStr text) p =
    (if has_shape timestamp_shape text then Return
     else Raise (JSONException
                   (Format_error p (JStr text) json_timestamp_pattern))) /\
  (forall rest, do_validate json_timestamp (JStr text) p = Return ->
                do_validate json_timestamp (JStr (text ++ rest)) p = Return) /\
  (String.length text < 19 ->
   do_validate json_timestamp (JStr text) p =
     Raise (JSONException (Format_error p (JStr text) json_timestamp_pattern))).
Proof.
  assert (H : forall t, do_validate json_timestamp (JStr t) p =
                        if has_shape timestamp_shape t then Return
                        else Raise (JSONException
                                      (Format_error p (JStr t)
                                                    json_timestamp_pattern))).
  { intros t. unfold json_timestamp.
    rewrite do_validate_unfold. simpl do_validate_body. unfold assert_json.
    now rewrite re_match_json_timestamp. }
  split; [apply H|]. split.
  - intros rest. rewrite !H.
    destruct (has_shape timestamp_shape text) eqn:Hs; [|discriminate].
    intros _. now rewrite (has_shape_append _ _ rest Hs).
  - intros Hlen. rewrite H.
    destruct (has_shape timestamp_shape text) eqn:Hs; [|reflexivity].
    exfalso. revert Hlen Hs. unfold timestamp_shape.
    do 19 (destruct text as [|? text];
           [simpl; try discriminate;
            intros _ Hs; repeat (apply andb_prop in Hs; destruct Hs as [_ Hs]);
            discriminate|]).
    simpl String.length. lia.
Qed.

Example json_timestamp_documented :
  do_validate (O := sorted_order) json_timestamp
              (JStr "1997-07-16T19:20:30") client_json_path = Return /\
  do_validate (O := sorted_order) json_timestamp
              (JStr "1997-07-16T19:20:30.45") client_json_path = Return /\
  do_validate (O := sorted_order) json_timestamp
              (JStr "1997-07-16T19:20:30+01:00") client_json_path = Return /\
  do_validate (O := sorted_order) json_timestamp
              (JStr "1997-07-16T19:20:30.45+01:00") client_json_path = Return /\
  do_validate (O := sorted_order) json_timestamp
              (JStr "9999-99-99T99:99:99 and so on") client_json_path = Return.
Proof. repeat split. Qed.

Lemma json_timestamp_accepts_witness :
  do_validate (O := sorted_order) json_timestamp (JStr "1997-07-16")
              client_json_path =
    Raise (JSONException
             (Format_error client_json_path (JStr "1997-07-16")
                           json_timestamp_pattern)).
Proof.
  apply (proj2 (proj2 (@json_timestamp_accepts sorted_order "1997-07-16"
                                               client_json_path))).
  simpl. lia.
Defined.

(** ** json_validate_warn *)

Lemma dict_set_same (d : list (string * json)) (k : string) (x : json) :
  assoc (dict_set d k x) k = Some x.
Proof.
  induction d as [|[k' x'] d IH]; simpl.
  - now rewrite String.eqb_refl.
  - destruct (String.eqb_spec k' k) as [->|Hne]; simpl.
    + now rewrite String.eqb_refl.
    + apply String.eqb_neq in Hne. now rewrite Hne.
Qed.

Lemma dict_set_other (d : list (string * json)) (k k' : string) (x : json) :
  k' <> k -> assoc (dict_set d k x) k' = assoc d k'.
Proof.
  intros Hk. induction d as [|[k0 x0] d IH]; simpl.
  - apply not_eq_sym, String.eqb_neq in Hk. now rewrite Hk.
  - destruct (String.eqb_spec k0 k) as [->|Hne]; simpl.
    + apply not_eq_sym, String.eqb_neq in Hk. now rewrite Hk.
    + now rewrite IH.
Qed.

(** X16: when the input does not validate and the wrapped function
    returns a dict, [json_validate_warn] still returns that dict, with
    the key ['warning'] set to the message of the exception and every
    other key as the function left it, and logs one warning made of
    the method, the url (['?'] without a request) and the message. *)
Theorem json_validate_warn_annotates {O : PyOrder}
        (str_of : json_error -> string) (s : schema)
        (f : json -> option request -> exn + json) (input : json)
        (context : option request) (e : json_error)
        (d : list (string * json)) :
  do_validate s input client_json_path = Raise (JSONException e) ->
  str_of e <> "" ->
  f input context = inr (JDict d) ->
  exists d',
    json_validate_warn str_of s f input context =
      ([Log_warn match context with
                 | Some rq =>
                     (method rq ++ " " ++ get_full_path rq ++ ": " ++ str_of e)%string
                 | None => ("? ?: " ++ str_of e)%string
                 end],
       inr (JDict d')) /\
    assoc d' "warning" = Some (JStr (str_of e)) /\
    (forall k, k <> "warning" -> assoc d' k = assoc d k).
Proof.
  intros Hv Hne Hf. exists (dict_set d "warning" (JStr (str_of e))).
  split; [|split].
  - unfold json_validate_warn. rewrite Hv, Hf.
    apply String.eqb_neq in Hne. rewrite Hne. simpl.
    now destruct context.
  - apply dict_set_same.
  - intros k Hk. now apply dict_set_other.
Qed.

Lemma json_validate_warn_annotates_witness :
  exists d',
    json_validate_warn (O := sorted_order) (fun _ => "Key error")
      (SDict [("a", SType T_int)]) (fun _ _ => inr (JDict [("ok", JBool true)]))
      (JDict []) (Some {| method := "POST"; get_full_path := "/x" |}) =
      ([Log_warn "POST /x: Key error"], inr (JDict d')) /\
    assoc d' "warning" = Some (JStr "Key error") /\
    assoc d' "ok" = Some (JBool true).
Proof.
  destruct (@json_validate_warn_annotates sorted_order (fun _ => "Key error")
              (SDict [("a", SType T_int)])
              (fun _ _ => inr (JDict [("ok", JBool true)]))
              (JDict []) (Some {| method := "POST"; get_full_path := "/x" |})
              (Key_error client_json_path "a") [("ok", JBool true)]
              eq_refl ltac:(discriminate) eq_refl) as [d' [H1 [H2 H3]]].
  exists d'. repeat split; try assumption.
  rewrite H3; [reflexivity|discriminate].
Defined.

(** ** json_validate *)

(** X20: for a structure made of wrappers, dicts, one-element lists,
    [optional], [anytype] and builtin types and an input without
    infinities or NaN, a call through [json_validate] either runs the
    wrapped function on the input, unchanged, or raises a
    [JSONException] whose path starts at ['client_json']. *)
Theorem json_validate_outcome {O : PyOrder} {laws : PyOrderLaws O} {A : Type}
        (s : schema) (f : json -> A) (input : json) :
  plain_schema s = true -> finite_json input = true ->
  (do_validate s input client_json_path = Return /\
   json_validate s f input = inr (f input)) \/
  exists e, json_validate s f input = inl (JSONException e) /\
            path_extends client_json_path (error_path e).
Proof.
  intros Hs Hi.
  pose proof (client_fault_only_plain s input client_json_path Hs Hi) as Hc.
  pose proof (raises_under_do_validate s input client_json_path) as Hp.
  unfold json_validate.
  destruct (do_validate s input client_json_path) as [|[e| | | | | |]];
    try contradiction.
  - left. now split.
  - right. exists e. split; [reflexivity|now apply Hp].
Qed.

Lemma json_validate_outcome_witness :
  exists e,
    json_validate (O := sorted_order)
      (SDict [("d", SList [SType T_int])]) (fun x => x)
      (JDict [("d", JList [JInt 1; JStr "two"])]) = inl (JSONException e) /\
    path_extends client_json_path (error_path e).
Proof.
  destruct (@json_validate_outcome sorted_order _ json
              (SDict [("d", SList [SType T_int])]) (fun x => x)
              (JDict [("d", JList [JInt 1; JStr "two"])]) eq_refl eq_refl)
    as [[H _]|H]; [discriminate|exact H].
Defined.

(** ** The first check that fails *)

Lemma first_failure_map {A : Type} (l : list A) (f : A -> result) :
  for_each l f = first_failure (map f l).
Proof.
  induction l as [|x l IH]; simpl; [reflexivity|].
  destruct (f x); simpl; [exact IH|reflexivity].
Qed.

Lemma first_failure_app (l1 l2 : list result) :
  first_failure (l1 ++ l2) = first_failure l1 ;; first_failure l2.
Proof.
  induction l1 as [|[|e] l1 IH]; simpl; [reflexivity|exact IH|reflexivity].
Qed.

Lemma first_failure_split (pre post : list result) (e : exn) :
  (forall r, In r pre -> r = Return) ->
  first_failure (pre ++ Raise e :: post) = Raise e.
Proof.
  induction pre as [|r pre IH]; intros H; simpl; [reflexivity|].
  rewrite (H r (or_introl eq_refl)). apply IH.
  intros r' Hr'. apply H. now right.
Qed.

Lemma do_validate_wrapper_checks {O : PyOrder} (w : wrapper)
      (d : list (string * json)) (p : path) :
  do_validate (SWrapper w) (JDict d) p =
  first_failure (wrapper_checks do_validate w (JDict d) p).
Proof.
  rewrite do_validate_SWrapper. unfold validate_wrapper, wrapper_checks.
  rewrite assert_json_type_dict. cbn [seq_result].
  now rewrite !first_failure_app, !first_failure_map.
Qed.

Lemma wrapper_checks_in_order {O : PyOrder} (w : wrapper)
      (d : list (string * json)) (p : path) (e : exn) :
  (forall pre k post,
      required_keys w = pre ++ k :: post ->
      (forall k', In k' pre ->
                  required_step do_validate w (JDict d) p k' = Return) ->
      required_step do_validate w (JDict d) p k = Raise e ->
      do_validate (SWrapper w) (JDict d) p = Raise e) /\
  (forall pre g post,
      (forall k, In k (required_keys w) ->
                 required_step do_validate w (JDict d) p k = Return) ->
      one_of_keys w = pre ++ g :: post ->
      (forall g', In g' pre ->
                  one_of_step do_validate w (JDict d) p g' = Return) ->
      one_of_step do_validate w (JDict d) p g = Raise e ->
      do_validate (SWrapper w) (JDict d) p = Raise e) /\
  (forall pre g post,
      (forall k, In k (required_keys w) ->
                 required_step do_validate w (JDict d) p k = Return) ->
      (forall g', In g' (one_of_keys w) ->
                  one_of_step do_validate w (JDict d) p g' = Return) ->
      atleast_one_keys w = pre ++ g :: post ->
      (forall g', In g' pre ->
                  atleast_one_step do_validate w (JDict d) p g' = Return) ->
      atleast_one_step do_validate w (JDict d) p g = Raise e ->
      do_validate (SWrapper w) (JDict d) p = Raise e).
Proof.
  rewrite do_validate_SWrapper. unfold validate_wrapper.
  rewrite assert_json_type_dict. cbn [seq_result].
  split; [|split].
  - intros pre k post Hsplit Hpre Hk.
    now rewrite Hsplit, (for_each_first_failure pre post k _ e Hpre Hk).
  - intros pre g post Hreq Hsplit Hpre Hg.
    rewrite (proj2 (for_each_Return_iff _ _) Hreq). cbn [seq_result].
    now rewrite Hsplit, (for_each_first_failure pre post g _ e Hpre Hg).
  - intros pre g post Hreq Hone Hsplit Hpre Hg.
    rewrite (proj2 (for_each_Return_iff _ _) Hreq). cbn [seq_result].
    rewrite (proj2 (for_each_Return_iff _ _) Hone). cbn [seq_result].
    now rewrite Hsplit, (for_each_first_failure pre post g _ e Hpre Hg).
Qed.

(** C7, as the code has it: validation is fail-fast in a fixed order of
    checks.  For a wrapper and a client dict the checks are the
    required keys in the order [required_keys()] lists them, which is
    the interpreter's order for a set, then the one-of groups, then the
    at-least-one groups; when the checks before one of them return and
    that one raises, its exception is the result.  The elements of a
    client list are checked by index, the first that raises giving the
    result.  Two runs in which the interpreter lists the keys of dicts
    and the elements of sets alike give the same result for every
    structure and value, the same first exception included. *)
Theorem C7_first_failure_in_order (O1 O2 : PyOrder) (w : wrapper)
        (d : list (string * json)) (p : path) (pre post : list result)
        (e : exn) :
  (forall l, @dict_keys O1 l = @dict_keys O2 l) ->
  (forall l, @set_list O1 l = @set_list O2 l) ->
  @wrapper_checks O1 (@do_validate O1) w (JDict d) p = pre ++ Raise e :: post ->
  (forall r, In r pre -> r = Return) ->
  @do_validate O1 (SWrapper w) (JDict d) p = Raise e /\
  @do_validate O2 (SWrapper w) (JDict d) p = Raise e /\
  (forall s v q, @do_validate O1 s v q = @do_validate O2 s v q) /\
  (forall w' d' q,
      @do_validate O1 (SWrapper w') (JDict d') q =
      first_failure (@wrapper_checks O1 (@do_validate O1) w' (JDict d') q)) /\
  (forall w' d' q e' before k after,
      @required_keys O1 w' = before ++ k :: after ->
      (forall k', In k' before ->
                  required_step (@do_validate O1) w' (JDict d') q k' = Return) ->
      required_step (@do_validate O1) w' (JDict d') q k = Raise e' ->
      @do_validate O1 (SWrapper w') (JDict d') q = Raise e') /\
  (forall w' d' q e' before g after,
      (forall k, In k (@required_keys O1 w') ->
                 required_step (@do_validate O1) w' (JDict d') q k = Return) ->
      @one_of_keys O1 w' = before ++ g :: after ->
      (forall g', In g' before ->
                  one_of_step (@do_validate O1) w' (JDict d') q g' = Return) ->
      one_of_step (@do_validate O1) w' (JDict d') q g = Raise e' ->
      @do_validate O1 (SWrapper w') (JDict d') q = Raise e') /\
  (forall w' d' q e' before g after,
      (forall k, In k (@required_keys O1 w') ->
                 required_step (@do_validate O1) w' (JDict d') q k = Return) ->
      (forall g', In g' (@one_of_keys O1 w') ->
                  one_of_step (@do_validate O1) w' (JDict d') q g' = Return) ->
      @atleast_one_keys O1 w' = before ++ g :: after ->
      (forall g', In g' before ->
                  atleast_one_step (@do_validate O1) w' (JDict d') q g' = Return) ->
      atleast_one_step (@do_validate O1) w' (JDict d') q g = Raise e' ->
      @do_validate O1 (SWrapper w') (JDict d') q = Raise e') /\
  (forall element before x after e',
      (forall j y, nth_error before j = Some y ->
                   @do_validate O1 element y (PIndex p j) = Return) ->
      @do_validate O1 element x (PIndex p (List.length before)) = Raise e' ->
      @do_validate O1 (SList [element]) (JList (before ++ x :: after)) p =
        Raise e').
Proof.
  intros Hd Hs Hsplit Hpre.
  assert (Hsame : forall s v q, @do_validate O1 s v q = @do_validate O2 s v q).
  { intros s v q. unfold do_validate. now apply do_validate_fuel_same. }
  assert (H1 : @do_validate O1 (SWrapper w) (JDict d) p = Raise e).
  { rewrite do_validate_wrapper_checks, Hsplit. now apply first_failure_split. }
  split; [exact H1|]. split; [now rewrite <- Hsame|]. split; [exact Hsame|].
  split; [intros w' d' q; apply do_validate_wrapper_checks|].
  split; [intros w' d' q e'; apply (wrapper_checks_in_order w' d' q e')|].
  split; [intros w' d' q e'; apply (wrapper_checks_in_order w' d' q e')|].
  split; [intros w' d' q e'; apply (wrapper_checks_in_order w' d' q e')|].
  intros element before x after e' Hbefore Hx.
  rewrite do_validate_SList_one. now apply for_enumerate_first_failure.
Qed.

Lemma C7_first_failure_in_order_witness :
  @do_validate sorted_order
     (SWrapper (add (required [("b", SType T_str); ("a", SType T_str)])
                    (AWrapper one_of_a_b)))
     (JDict [("a", JStr "x")]) client_json_path =
    Raise (JSONException (Key_error client_json_path "b")) /\
  @do_validate sorted_order (SList [SType T_str])
     (JList [JStr "a"; JStr "b"; JInt 1]) client_json_path =
    Raise (JSONException
             (Type_error (PIndex client_json_path 2) (JInt 1) T_str)).
Proof.
  destruct (C7_first_failure_in_order sorted_order sorted_order
              (add (required [("b", SType T_str); ("a", SType T_str)])
                   (AWrapper one_of_a_b))
              [("a", JStr "x")] client_json_path
              [Return] [Return]
              (JSONException (Key_error client_json_path "b"))
              (fun l => eq_refl) (fun l => eq_refl))
    as [H1 [_ [_ [_ [_ [_ [_ H5]]]]]]].
  - vm_compute. reflexivity.
  - intros r [<-|[]]. reflexivity.
  - split; [exact H1|].
    apply (H5 (SType T_str) [JStr "a"; JStr "b"] (JInt 1) []).
    + intros [|[|[|j]]] y; simpl; intros [= <-]; reflexivity.
    + reflexivity.
Defined.

(** ** Combining wrappers: the new object and the lookup on it *)

Lemma assoc_app {V : Type} (l1 l2 : list (string * V)) (k : string) :
  assoc (l1 ++ l2) k =
  match assoc l1 k with
  | Some s => Some s
  | None => assoc l2 k
  end.
Proof.
  induction l1 as [|[k' v] l1 IH]; simpl; [reflexivity|].
  destruct (k' =? k)%string; [reflexivity|exact IH].
Qed.

(** [getitem] is the search of the fields in depth-first order: the
    wrapper's own, then those of each addend in turn. *)
Lemma getitem_spec_field_lookup (w : wrapper) (k : string) :
  getitem w k = spec_field_lookup w k.
Proof.
  unfold spec_field_lookup.
  induction w as [c d a IH] using wrapper_induction.
  rewrite getitem_eq. cbn [spec_search_order]. rewrite assoc_app.
  destruct (assoc d k); [reflexivity|].
  induction a as [|w a IHa]; [reflexivity|].
  inversion IH as [|? ? Hw Ha]; subst.
  cbn [first_addend map List.concat]. rewrite assoc_app, <- Hw.
  destruct (getitem w k); [reflexivity|]. now apply IHa.
Qed.

Lemma mentioned_keys_search_order (w : wrapper) :
  mentioned_keys w = map fst (spec_search_order w).
Proof.
  induction w as [c d a IH] using wrapper_induction.
  cbn [mentioned_keys spec_search_order]. rewrite map_app. f_equal.
  induction a as [|w a IHa]; [reflexivity|].
  inversion IH as [|? ? Hw Ha]; subst.
  cbn [map List.concat]. rewrite map_app, Hw. f_equal. now apply IHa.
Qed.

Lemma first_addend_none (a : list wrapper) (k : string) :
  (forall y, In y a -> ~ In k (mentioned_keys y)) -> first_addend a k = None.
Proof.
  intros H. destruct (first_addend a k) as [s|] eqn:Hf; [|reflexivity].
  destruct (proj1 (first_addend_Some a k) (ex_intro _ s Hf)) as [w [Hw Hs]].
  exfalso. apply (H w Hw). now apply getitem_mentioned.
Qed.

Lemma getitem_first_defining (c : wrapper_class) (d : list (string * schema))
      (pre post : list wrapper) (x : wrapper) (k : string) :
  assoc d k = None ->
  (forall y, In y pre -> ~ In k (mentioned_keys y)) ->
  In k (mentioned_keys x) ->
  exists s, getitem (Wrapper c d (pre ++ x :: post)) k = Some s /\
            spec_field_lookup x k = Some s.
Proof.
  intros Hd Hpre Hx. apply getitem_mentioned in Hx. destruct Hx as [s Hs].
  exists s. split; [|now rewrite <- getitem_spec_field_lookup].
  rewrite getitem_eq, Hd, first_addend_app, (first_addend_none pre k Hpre).
  cbn [first_addend]. now rewrite Hs.
Qed.

(** C8: [a + b] allocates a new wrapper and writes to no object that
    existed: [a], [b] and the shared default list read as before.  The
    new wrapper has the class and the fields of [a] and the addends of
    [a] followed by [b], a plain dict [b] being wrapped as [required]
    without addends.  Looking a key up on the new wrapper is the search
    of the fields in depth-first order, its own first and then those of
    each addend in turn: a key among the fields of [a] gives the field
    of [a]; a key that is not gives what the first addend, in the order
    of the addends, that has the key among its fields or those of its
    own addends gives for it; a key that no addend has is not found. *)
Theorem C8_combine (default_addends : Heap.ref) (h : Heap.heap)
        (self other : Heap.ref) (n : nat) (a : wrapper) (b : addend_arg) :
  Heap.wrapper_at n h self = Some a ->
  Heap.arg_at n h other = Some b ->
  nth_error h default_addends = Some (Heap.OList []) ->
  exists h' r w' b',
    Heap.py_add default_addends h self other = Some (h', r) /\
    Heap.extends h h' /\
    List.length h <= r /\
    Heap.wrapper_at (S n) h' r = Some w' /\
    Heap.wrapper_at (S n) h' self = Some a /\
    Heap.arg_at (S n) h' other = Some b /\
    nth_error h' default_addends = Some (Heap.OList []) /\
    b' = match b with
         | AWrapper w => w
         | APlain d => Wrapper Required d []
         end /\
    w' = Wrapper (cls a) (json_structure a) (addends a ++ [b']) /\
    w' = add a b /\
    forall k,
      getitem w' k = spec_field_lookup w' k /\
      (forall s, assoc (json_structure a) k = Some s -> getitem w' k = Some s) /\
      (assoc (json_structure a) k = None ->
       forall pre x post,
         addends a ++ [b'] = pre ++ x :: post ->
         (forall y, In y pre -> ~ In k (mentioned_keys y)) ->
         In k (mentioned_keys x) ->
         exists s, getitem w' k = Some s /\ spec_field_lookup x k = Some s) /\
      (assoc (json_structure a) k = None ->
       (forall y, In y (addends a ++ [b']) -> ~ In k (mentioned_keys y)) ->
       getitem w' k = None).
Proof.
  intros Hself Harg Hdef.
  destruct (py_add_reads default_addends h self other n a b Hself Harg Hdef)
    as [h' [r [Hadd [Hext [Hlen Hnew]]]]].
  exists h', r, (add a b), (as_wrapper b).
  split; [exact Hadd|]. split; [exact Hext|]. split; [exact Hlen|].
  split; [exact Hnew|].
  split; [now apply (wrapper_at_mono _ h)|].
  split; [now apply (arg_at_mono _ h)|].
  split; [apply Hext, Hdef|].
  split; [now destruct b|]. split; [reflexivity|]. split; [reflexivity|].
  intros k. split; [apply getitem_spec_field_lookup|].
  unfold add. split; [|split].
  - intros s Hs. now rewrite getitem_eq, Hs.
  - intros Hnone pre x post Hsplit Hpre Hx. rewrite Hsplit.
    now apply getitem_first_defining.
  - intros Hnone Hall. rewrite getitem_eq, Hnone. now apply first_addend_none.
Qed.

Lemma C8_combine_witness :
  exists h' r,
    Heap.py_add 0 doctest_heap 2 3 = Some (h', r) /\
    Heap.wrapper_at 2 h' r =
      Some (Wrapper Base [("a", SType T_int)]
                    [Wrapper Required [("b", SType T_str)] []]) /\
    Heap.wrapper_at 2 h' 2 = Some (Wrapper Base [("a", SType T_int)] []) /\
    nth_error h' 0 = Some (Heap.OList []) /\
    getitem (Wrapper Base [("a", SType T_int)]
                     [Wrapper Required [("b", SType T_str)] []]) "b" =
      Some (SType T_str).
Proof.
  destruct (C8_combine 0 doctest_heap 2 3 1
              (Wrapper Base [("a", SType T_int)] [])
              (APlain [("b", SType T_str)]) eq_refl eq_refl eq_refl)
    as [h' [r [w' [b' [Hadd [_ [_ [Hnew [Hself [_ [Hdef [Hb [Hw [_ Hk]]]]]]]]]]]]]].
  exists h', r. cbn [cls json_structure addends app] in Hw.
  destruct (Hk "b"%string) as [_ [_ [Hfirst _]]].
  destruct (Hfirst eq_refl [] b' [] eq_refl) as [s [Hg Hs]].
  - intros y [].
  - rewrite Hb. left. reflexivity.
  - rewrite Hb in Hw, Hs. rewrite Hw in Hnew, Hg.
    split; [exact Hadd|]. split; [exact Hnew|]. split; [exact Hself|].
    split; [exact Hdef|]. rewrite Hg, <- Hs. reflexivity.
Defined.

(** ** Where an exception comes from *)

Lemma assert_json_type_mismatch (t : pytype) (v : json) (p : path)
      (e : json_error) :
  assert_json_type t v p = Raise (JSONException e) ->
  e = Type_error p v t /\ isinstance v t = false.
Proof.
  intros H.
  assert (He : e = Type_error p v t).
  { destruct (assert_json_type_raises t v p)
      as [H'|[H'|[[_ [sg [_ H']]]|[_ [_ H']]]]]; rewrite H' in H;
      try discriminate. now injection H as <-. }
  split; [exact He|].
  destruct (isinstance v t) eqn:Hi; [exfalso|reflexivity].
  destruct v as [|b|n|n|f|x|x|l|d]; destruct t; try discriminate Hi;
    discriminate H.
Qed.

(** The checks of one level, with what each exception says of the
    structure and of the value. *)
Lemma local_checks_cases {O : PyOrder} (Q : result -> Prop)
      (s : schema) (v : json) (p : path) :
  Q Return ->
  (forall t, t = T_dict \/ t = T_list \/ s = SType t ->
             Q (assert_json_type t v p)) ->
  (forall e, error_path e = p -> fault_at e v -> Q (Raise (JSONException e))) ->
  (forall k, Q (Raise (KeyError k))) ->
  (forall pat mt, s = SRegex pat mt -> is_text v = false ->
                  Q (Raise (TypeError "expected string or buffer"))) ->
  (forall repr, s = SOther repr -> Q (Raise (TypeError (prohibited_msg repr)))) ->
  (forall l xs, s = SList l -> v = JList xs -> List.length l <> 1 ->
                Q (Raise (AssertionError list_len_msg))) ->
  Q (local_checks s v p).
Proof.
  intros HR Ht Hj Hk Hre Hot Has. unfold local_checks.
  assert (Hat : forall s' k, Q (validate_at (fun _ _ _ => Return) s' v p k)).
  { intros s' k. unfold validate_at. now destruct (py_subscript v k). }
  destruct s as [w|d|l|s0| |t|pat m|r]; simpl do_validate_body.
  - unfold validate_wrapper.
    destruct v as [|b|n|n|f|x|x|xs|d]; try exact (Ht T_dict (or_introl eq_refl)).
    rewrite assert_json_type_dict. cbn [seq_result].
    apply seq_all; [|apply seq_all]; apply for_each_all; try exact HR.
    + intros k _. unfold required_step.
      destruct (getitem w k) as [s'|]; [|apply Hk].
      destruct (negb (is_optional s')).
      * apply seq_all; [|apply Hat]. unfold assert_json.
        destruct (py_in k (JDict d)) eqn:Hin; [exact HR|].
        apply Hj; [reflexivity|]. now split.
      * destruct (py_in k (JDict d)); [apply Hat|exact HR].
    + intros g _. unfold one_of_step.
      destruct (filter _ g) as [|k [|k' r]] eqn:Hf.
      * apply Hj; [reflexivity|]. now split.
      * destruct (getitem w k) as [s'|]; [apply Hat|apply Hk].
      * apply Hj; [reflexivity|]. split; [reflexivity|].
        split; [exact Hf|simpl; lia].
    + intros g _. unfold atleast_one_step.
      destruct (filter _ g) as [|k r] eqn:Hf.
      * apply Hj; [reflexivity|]. now split.
      * destruct (getitem w k) as [s'|]; [apply Hat|apply Hk].
  - exact HR.
  - unfold validate_list.
    destruct v as [|b|n|n|f|x|x|xs|d]; try exact (Ht T_list (or_intror (or_introl eq_refl))).
    change (assert_json_type T_list (JList xs) p) with Return.
    cbn [seq_result].
    destruct l as [|element [|e2 l]]; simpl.
    + apply (Has [] xs); [reflexivity|reflexivity|simpl; lia].
    + now apply for_enumerate_all.
    + apply (Has (element :: e2 :: l) xs); [reflexivity|reflexivity|simpl; lia].
  - now destruct (truthy v).
  - exact HR.
  - apply Ht. right. right. reflexivity.
  - destruct v as [|b|n|n|f|x|x|xs|d]; try (now apply (Hre pat m)).
    + unfold assert_json. destruct (m x); [exact HR|].
      apply Hj; [reflexivity|]. now split.
    + unfold assert_json. destruct (m x); [exact HR|].
      apply Hj; [reflexivity|]. now split.
  - now apply Hot.
Qed.

Lemma reaches_trans (p : path) (v : json) (q : path) (y : json)
      (r : path) (z : json) :
  reaches p v q y -> reaches q y r z -> reaches p v r z.
Proof.
  intros Hpq Hqr. induction Hqr as [|q' d k x _ IH Hk|q' xs i x _ IH Hi].
  - exact Hpq.
  - now apply (reaches_key p v q' d k x).
  - now apply (reaches_index p v q' xs i x).
Qed.

Lemma sub_call_reaches (s : schema) (v : json) (p : path)
      (s' : schema) (v' : json) (p' : path) :
  sub_call s v p s' v' p' -> reaches p v p' v'.
Proof.
  intros H. destruct H as [d v p|s v p _|element xs i x p Hx|w d k s x p _ Hx].
  - constructor.
  - constructor.
  - apply (reaches_index p (JList xs) p xs i x); [constructor|exact Hx].
  - apply (reaches_key p (JDict d) p d k x); [constructor|exact Hx].
Qed.

Lemma error_value_do_validate {O : PyOrder} (s : schema) (v : json) (p : path)
      (e : json_error) :
  do_validate s v p = Raise (JSONException e) ->
  exists x, reaches p v (error_path e) x /\ fault_at e x.
Proof.
  revert e.
  apply (do_validate_result_ind
           (fun _ v p r => forall e, r = Raise (JSONException e) ->
                                     exists x, reaches p v (error_path e) x /\
                                               fault_at e x)).
  - clear s v p. intros s v p.
    apply local_checks_cases.
    + intros e He. discriminate.
    + intros t _ e He. apply assert_json_type_mismatch in He.
      destruct He as [-> Hi]. exists v. split; [constructor|now split].
    + intros e Hp Hf e' [= <-]. exists v. rewrite Hp.
      split; [constructor|exact Hf].
    + intros k e He. discriminate.
    + intros pat mt ? ? e He. discriminate.
    + intros repr ? e He. discriminate.
    + intros l xs ? ? ? e He. discriminate.
  - clear s v p. intros s v p s' v' p' e Hsub _ IH e' He'.
    destruct (IH e' He') as [x [Hx Hf]]. exists x. split; [|exact Hf].
    apply (reaches_trans p v p' v'); [|exact Hx].
    exact (sub_call_reaches _ _ _ _ _ _ Hsub).
Qed.

(** X5: the path of a [JSONException] is the path [do_validate] was
    called with followed by keys and indexes that exist in the client
    value, and the value they lead to is the one at fault: the value a
    type or format error shows, which is no instance of the type or is
    text; for a missing key, whose message shows the path followed by
    the key, the dict that lacks it; for a group, the dict that has
    none, or several, of its keys. *)
Theorem error_path_leads_to_fault {O : PyOrder} (s : schema) (v : json)
        (p : path) (e : json_error) :
  do_validate s v p = Raise (JSONException e) ->
  path_extends p (error_path e) /\
  exists x, reaches p v (error_path e) x /\ fault_at e x.
Proof.
  intros H. split; [now apply (raises_under_do_validate s v)|].
  now apply (error_value_do_validate s).
Qed.

Lemma error_path_leads_to_fault_witness :
  exists x,
    reaches client_json_path
            (JDict [("a", JList [JInt 1; JStr "x"])])
            (PIndex (PKey client_json_path "a") 1) x /\
    fault_at (Type_error (PIndex (PKey client_json_path "a") 1) (JStr "x") T_int) x.
Proof.
  exact (proj2 (@error_path_leads_to_fault sorted_order
                  (SDict [("a", SList [SType T_int])])
                  (JDict [("a", JList [JInt 1; JStr "x"])])
                  client_json_path
                  (Type_error (PIndex (PKey client_json_path "a") 1)
                              (JStr "x") T_int)
                  eq_refl)).
Defined.

(** ** Faults of the structure *)

Lemma assert_json_type_no_schema_fault (t : pytype) (v : json) (p : path)
      (m : string) :
  assert_json_type t v p <> Raise (TypeError m) /\
  assert_json_type t v p <> Raise (AssertionError m).
Proof.
  destruct (assert_json_type_raises t v p)
    as [H|[H|[[_ [sg [_ H]]]|[_ [_ H]]]]]; rewrite H; split; discriminate.
Qed.

Lemma exception_origin_do_validate {O : PyOrder} (s : schema) (v : json) (p : path)
      (e : exn) :
  do_validate s v p = Raise e -> exception_origin s v p e.
Proof.
  revert e.
  apply (do_validate_result_ind
           (fun s v p r => forall e, r = Raise e -> exception_origin s v p e)).
  - clear s v p. intros s v p.
    apply local_checks_cases.
    + intros e He. discriminate.
    + intros t Ht e He.
      destruct (assert_json_type_raises t v p)
        as [H|[H|[[-> [sg [-> H]]]|[-> [-> H]]]]]; rewrite H in He;
        try discriminate; injection He as <-; try exact I;
        destruct Ht as [Ht | [Ht | ->]]; try discriminate Ht.
      * exists sg, p. split; [constructor|reflexivity].
      * exists p. split; [constructor|reflexivity].
    + intros e _ _ e' [= <-]. exact I.
    + intros k e [= <-]. exact I.
    + intros pattern matches -> Hv e [= <-]. right.
      exists pattern, matches, v, p. split; [constructor|now split].
    + intros repr -> e [= <-]. left.
      exists repr, v, p. split; [constructor|reflexivity].
    + intros l xs -> -> Hl e [= <-].
      exists l, xs, p. split; [constructor|now split].
  - clear s v p. intros s v p s' v' p' e Hsub _ IH e' [= <-].
    specialize (IH e eq_refl).
    destruct e as [j|m|m|k|m|m|m]; try exact I.
    + destruct IH as [[repr [x [q [Hv Hm]]]]|[pat [mt [x [q [Hv Hm]]]]]].
      * left. exists repr, x, q. split; [|exact Hm].
        exact (visits_call _ _ _ _ _ _ _ _ _ Hsub Hv).
      * right. exists pat, mt, x, q. split; [|exact Hm].
        exact (visits_call _ _ _ _ _ _ _ _ _ Hsub Hv).
    + destruct IH as [l [xs [q [Hv Hm]]]].
      exists l, xs, q. split; [|exact Hm].
      exact (visits_call _ _ _ _ _ _ _ _ _ Hsub Hv).
    + destruct IH as [q [Hv Hm]].
      exists q. split; [|exact Hm].
      exact (visits_call _ _ _ _ _ _ _ _ _ Hsub Hv).
    + destruct IH as [sg [q [Hv Hm]]].
      exists sg, q. split; [|exact Hm].
      exact (visits_call _ _ _ _ _ _ _ _ _ Hsub Hv).
Qed.

(** C9, as the code has it.  A list structure that does not have
    exactly one element, validated against a client list, raises
    [AssertionError]; an object that is none of a wrapper, a dict, a
    list, an [optional], [anytype], a type object or an object with
    [match] raises [TypeError]; neither is a [JSONException], and
    neither decorator catches them.  The other way round, an
    [AssertionError] that leaves [do_validate] was raised at such a
    list structure, reached by the recursive calls with a client list,
    and a [TypeError] at a prohibited object or at a pattern given a
    value that is not text; so the class [TypeError] alone does not
    tell a fault of the structure from one of the client.  A type
    object is a leaf whatever type it is: [bool], [long], [list] and
    [dict] are checked with [isinstance] as [int], [float] and [str]
    are, and give the client's type error or return.  The type of the
    client value is checked first, so the malformed list structure
    against a value that is not a list raises the client's type error,
    and a structure that validation does not reach, as under an
    [optional] with a falsy value, is not reported. *)
Theorem C9_malformed_schema {O : PyOrder} (l : list schema) (xs : list json)
        (repr : string) (v : json) (p : path) :
  List.length l <> 1 ->
  do_validate (SList l) (JList xs) p = Raise (AssertionError list_len_msg) /\
  do_validate (SOther repr) v p = Raise (TypeError (prohibited_msg repr)) /\
  (forall msg, do_validate (SList l) (JList xs) p <> Raise (JSONException msg)) /\
  (forall msg, do_validate (SOther repr) v p <> Raise (JSONException msg)) /\
  (forall (f : json -> json),
      json_validate (SOther repr) f v = inl (TypeError (prohibited_msg repr)) /\
      json_validate (SList l) f (JList xs) = inl (AssertionError list_len_msg)) /\
  (forall str_of f context,
      json_validate_warn str_of (SOther repr) f v context =
        ([], inl (TypeError (prohibited_msg repr))) /\
      json_validate_warn str_of (SList l) f (JList xs) context =
        ([], inl (AssertionError list_len_msg))) /\
  (forall s x q e,
      do_validate s x q = Raise e -> exception_origin s x q e) /\
  (forall t m,
      do_validate (SType t) v p <> Raise (TypeError m) /\
      do_validate (SType t) v p <> Raise (AssertionError m)) /\
  (forall t,
      t = T_bool \/ t = T_long \/ t = T_list \/ t = T_dict ->
      do_validate (SType t) v p =
        if is_none v && negb (pytype_eqb t T_dict || pytype_eqb t T_list)
        then Return
        else if isinstance v t then Return
             else Raise (JSONException (Type_error p v t))) /\
  (isinstance v T_list = false ->
   do_validate (SList l) v p = Raise (JSONException (Type_error p v T_list))) /\
  (truthy v = false -> do_validate (SOptional (SOther repr)) v p = Return).
Proof.
  intros Hl.
  assert (H1 : do_validate (SList l) (JList xs) p = Raise (AssertionError list_len_msg)).
  { rewrite do_validate_unfold. simpl. unfold validate_list. simpl.
    destruct (Nat.eqb_spec (List.length l) 1) as [E|_]; [contradiction|reflexivity]. }
  assert (H2 : do_validate (SOther repr) v p = Raise (TypeError (prohibited_msg repr)))
    by reflexivity.
  split; [exact H1|]. split; [exact H2|].
  split; [intros msg; rewrite H1; discriminate|].
  split; [intros msg; rewrite H2; discriminate|].
  split.
  { intros f. unfold json_validate.
    split; [reflexivity|].
    assert (H1' : do_validate (SList l) (JList xs) client_json_path =
                  Raise (AssertionError list_len_msg)).
    { rewrite do_validate_unfold. simpl. unfold validate_list. simpl.
      destruct (Nat.eqb_spec (List.length l) 1) as [E|_];
        [contradiction|reflexivity]. }
    now rewrite H1'. }
  split.
  { intros str_of f context. unfold json_validate_warn.
    split; [reflexivity|].
    assert (H1' : do_validate (SList l) (JList xs) client_json_path =
                  Raise (AssertionError list_len_msg)).
    { rewrite do_validate_unfold. simpl. unfold validate_list. simpl.
      destruct (Nat.eqb_spec (List.length l) 1) as [E|_];
        [contradiction|reflexivity]. }
    now rewrite H1'. }
  split; [intros s x q e; apply exception_origin_do_validate|].
  split.
  { intros t m. rewrite do_validate_unfold. simpl do_validate_body.
    apply assert_json_type_no_schema_fault. }
  split.
  { intros t Ht. rewrite do_validate_unfold. simpl do_validate_body.
    destruct Ht as [-> | [-> | [-> | ->]]]; destruct v; reflexivity. }
  split.
  - intros Hv. rewrite do_validate_unfold. simpl. unfold validate_list.
    destruct v; try discriminate; reflexivity.
  - intros Hv. rewrite do_validate_SOptional. now rewrite Hv.
Qed.

Lemma C9_malformed_schema_witness :
  do_validate (O := sorted_order) (SList []) (JList [JInt 1]) client_json_path =
    Raise (AssertionError list_len_msg) /\
  do_validate (O := sorted_order) (SOther "1") JNone client_json_path =
    Raise (TypeError (prohibited_msg "1")) /\
  exception_origin
    (SDict [("a", SList [SOther "1"])]) (JDict [("a", JList [JInt 1])])
    client_json_path (TypeError (prohibited_msg "1")) /\
  do_validate (O := sorted_order) (SType T_bool) (JInt 1) client_json_path =
    Raise (JSONException (Type_error client_json_path (JInt 1) T_bool)).
Proof.
  destruct (@C9_malformed_schema sorted_order [] [JInt 1] "1" (JInt 1)
              client_json_path)
    as [H1 [_ [_ [_ [_ [_ [H7 [_ [H9 _]]]]]]]]]; [simpl; lia|].
  split; [exact H1|].
  split; [reflexivity|].
  split; [apply H7; reflexivity|].
  exact (H9 T_bool (or_introl eq_refl)).
Defined.

(** ** What leaves json_validate_warn *)

Lemma no_KeyError_do_validate {O : PyOrder} {laws : PyOrderLaws O}
      (s : schema) (v : json) (p : path) (k : string) :
  do_validate s v p <> Raise (KeyError k).
Proof.
  apply (do_validate_result_ind (fun _ _ _ r => r <> Raise (KeyError k))).
  - intros s0 v0 p0. apply local_checks_no_KeyError.
  - intros s0 v0 p0 s' v' p' e _ _ H. exact H.
Qed.

(** X17: an exception leaves [json_validate_warn] in two ways only.
    Either the wrapped function raised it, after a validation that
    returned or that was logged as a warning; or [do_validate] raised
    it, nothing was logged, and it is no [JSONException]: it is the
    [TypeError] of a prohibited object or of a pattern given a value
    that is not text, the [AssertionError] of a list structure without
    exactly one element, or the error of converting an infinite float
    or a NaN to [int], raised at a node of the structure that the
    recursive calls reach. *)
Theorem json_validate_warn_raises {O : PyOrder} {laws : PyOrderLaws O}
        (str_of : json_error -> string) (s : schema)
        (f : json -> option request -> exn + json) (input : json)
        (context : option request) (log : list log_record) (raised : exn) :
  json_validate_warn str_of s f input context = (log, inl raised) ->
  (f input context = inl raised /\
   ((do_validate s input client_json_path = Return /\ log = []) \/
    (exists e,
        do_validate s input client_json_path = Raise (JSONException e) /\
        log = [Log_warn match context with
                        | Some rq =>
                            (method rq ++ " " ++ get_full_path rq ++ ": "
                                    ++ str_of e)%string
                        | None => ("? ?: " ++ str_of e)%string
                        end]))) \/
  (do_validate s input client_json_path = Raise raised /\
   log = [] /\
   (forall e, raised <> JSONException e) /\
   (forall k, raised <> KeyError k) /\
   (forall m, raised <> RuntimeError m) /\
   match raised with
   | TypeError _ | AssertionError _ | OverflowError _ | ValueError _ =>
       exception_origin s input client_json_path raised
   | _ => False
   end).
Proof.
  unfold json_validate_warn.
  destruct (do_validate s input client_json_path) as [|other] eqn:Hv.
  - intros [= <- Hf]. left. split; [exact Hf|]. left. now split.
  - assert (Horigin : exception_origin s input client_json_path other)
      by now apply exception_origin_do_validate.
    assert (Hkey : forall k, other <> KeyError k).
    { intros k Hk. apply (no_KeyError_do_validate s input client_json_path k).
      now rewrite Hv, Hk. }
    assert (Hrun : forall m, other <> RuntimeError m).
    { intros m Hm. apply (do_validate_total s input client_json_path m).
      now rewrite Hv, Hm. }
    destruct other as [e|m|m|k|m|m|m].
    + intros H. left.
      destruct (f input context) as [raised'|rv] eqn:Hf.
      * assert (log = [Log_warn match context with
                                | Some rq =>
                                    (method rq ++ " " ++ get_full_path rq ++ ": "
                                            ++ str_of e)%string
                                | None => ("? ?: " ++ str_of e)%string
                                end] /\ raised' = raised) as [-> ->].
        { destruct context; injection H as <- <-; now split. }
        split; [reflexivity|]. right. exists e. now split.
      * exfalso. destruct context;
          destruct (negb (str_of e =? "")%string);
          try destruct (setitem rv "warning" (JStr (str_of e)));
          discriminate H.
    + intros [= <- <-]. right. repeat split; try assumption. discriminate.
    + intros [= <- <-]. right. repeat split; try assumption. discriminate.
    + now destruct (Hkey k).
    + intros [= <- <-]. right. repeat split; try assumption. discriminate.
    + intros [= <- <-]. right. repeat split; try assumption. discriminate.
    + now destruct (Hrun m).
Qed.

Lemma json_validate_warn_raises_witness :
  exists pattern matches v' q,
    visits (SDict [("when", json_timestamp)])
           (JDict [("when", JInt 869080830)]) client_json_path
           (SRegex pattern matches) v' q /\
    is_text v' = false.
Proof.
  destruct (@json_validate_warn_raises sorted_order _ (fun _ => "warning")
              (SDict [("when", json_timestamp)]) (fun x _ => inr x)
              (JDict [("when", JInt 869080830)]) None []
              (TypeError "expected string or buffer") eq_refl)
    as [[Hf _]|[_ [_ [_ [_ [_ Horigin]]]]]]; [discriminate Hf|].
  destruct Horigin as [[repr [v' [q [_ Hm]]]]|[pattern [matches [v' [q [Hv [Ht _]]]]]]].
  - discriminate Hm.
  - exists pattern, matches, v', q. now split.
Defined.

(** X19: for a structure made of wrappers, dicts, one-element lists,
    [optional], [anytype] and builtin types and an input without
    infinities or NaN, [json_validate_warn] never rejects the call:
    whenever the wrapped function returns a value the decorator returns
    that value, as it is when the input validates, when the message is
    empty or when the value is not a dict, and otherwise with the key
    ['warning'] set to the message and every other key as the function
    left it. *)
Theorem json_validate_warn_returns {O : PyOrder} {laws : PyOrderLaws O}
        (str_of : json_error -> string) (s : schema)
        (f : json -> option request -> exn + json) (input : json)
        (context : option request) (rv : json) :
  plain_schema s = true -> finite_json input = true ->
  f input context = inr rv ->
  exists log rv',
    json_validate_warn str_of s f input context = (log, inr rv') /\
    rv' = match do_validate s input client_json_path, rv with
          | Raise (JSONException e), JDict d =>
              if (str_of e =? "")%string then rv
              else JDict (dict_set d "warning" (JStr (str_of e)))
          | _, _ => rv
          end /\
    (do_validate s input client_json_path = Return -> log = [] /\ rv' = rv) /\
    (forall k, k <> "warning" -> py_subscript rv' k = py_subscript rv k).
Proof.
  intros Hs Hi Hf.
  pose proof (client_fault_only_plain s input client_json_path Hs Hi) as Hc.
  unfold json_validate_warn.
  destruct (do_validate s input client_json_path) as [|[e| | | | | |]];
    try contradiction.
  - exists [], rv. rewrite Hf. repeat split.
  - rewrite Hf.
    destruct (str_of e =? "")%string eqn:He; cbn [negb].
    + destruct context as [rq|];
        (eexists _, rv; split; [reflexivity|];
         split; [now destruct rv|]; split; [discriminate|reflexivity]).
    + destruct rv as [| | | | | | | |d];
        try (destruct context as [rq|];
             (eexists _, _; split; [reflexivity|];
              split; [reflexivity|]; split; [discriminate|reflexivity])).
      destruct context as [rq|];
        (eexists _, _; split; [reflexivity|];
         split; [reflexivity|]; split; [discriminate|];
         intros k Hk; simpl; now apply dict_set_other).
Qed.

Lemma json_validate_warn_returns_witness :
  exists log,
    json_validate_warn (O := sorted_order) (fun _ => "Type error")
      (SDict [("a", SType T_int)]) (fun x _ => inr x)
      (JDict [("a", JStr "one")]) None =
    (log, inr (JDict [("a", JStr "one"); ("warning", JStr "Type error")])).
Proof.
  destruct (@json_validate_warn_returns sorted_order _
              (fun _ => "Type error") (SDict [("a", SType T_int)])
              (fun x _ => inr x) (JDict [("a", JStr "one")]) None
              (JDict [("a", JStr "one")]) eq_refl eq_refl eq_refl)
    as [log [rv' [H1 [H2 _]]]].
  exists log. rewrite H1, H2. reflexivity.
Defined.
